(** * OTIF alert assistant: a shallow embedding of its core in Rocq

    The development follows the Python sources module by module:
    - [Py]          the fragment of Python, numpy and pandas the sources
                    rely on: exceptions, a state-and-exception monad,
                    slices, true division, rounding, [repr], dictionaries;
    - [Frame]       the rows of the two sheets and of their inner join;
    - [World]       what the program obtains from outside: the sheets, the
                    clock, the regular-expression engine, the chat model;
    - [DataLoader]  tools/data_loader.py;
    - [Query]       tools/query_functions.py;
    - [Actions]     tools/action_functions.py;
    - [Report]      tools/report_functions.py;
    - [Memory]      memory/conversation_memory.py;
    - [Queries]     the remaining queries of tools/query_functions.py;
    - [Main]        the conversation loop of main.py;
    - [Fixtures]    two small sheets and the worlds used in the examples;
    - lemmas and theorems, grouped by component.

    Conventions.  Python integers are [Z], lists are [list], strings are
    [string] (bytes, UTF-8 for text outside ASCII), a float is the
    rational [Q] it denotes, and the float operations behind the columns
    of a frame round to binary64.  A text cell of a sheet is an
    [option string], [None]
    standing for NaN.  Module-level objects that the functions mutate are
    threaded through the monad [M].  Console output is not modelled. *)

From stdpp Require Import base tactics option list strings numbers sorting pretty gmap.
From Stdlib Require Import Ascii ZArith QArith Qround Lia.

Local Open Scope string_scope.
Local Open Scope list_scope.
Local Open Scope Z_scope.

(* ===================================================================== *)
(** * Python fragment *)
(* ===================================================================== *)

Module Py.

(** ** Exceptions

    The classes raised by the modelled code and by the libraries under
    it.  All of them derive from [Exception], so an [except Exception]
    handler catches every one of them. *)
Inductive exc_class :=
| Exception
| FileNotFoundError
| KeyError
| ValueError
| TypeError
| AttributeError
| IndexError
| ZeroDivisionError
| ReError            (* re.error *)
| OpenAIError        (* any failure of the chat-completion call *).

(** An exception object: its class and the text [str(e)]. *)
Record exc := mkExc { exc_cls : exc_class; exc_str : string }.

(** What evaluating a Python expression or block produces. *)
Inductive outcome (A : Type) :=
| Ret (a : A)
| Raise (e : exc).
Global Arguments Ret {A} a.
Global Arguments Raise {A} e.

(** ** State and exceptions

    A Python block run against mutable objects of type [S]: it ends with
    a value or with an exception, and in both cases leaves a state
    behind.  A [try] block that fails does not roll anything back. *)
Definition M (S A : Type) : Type := S -> S * outcome A.

Definition ret {S A} (a : A) : M S A := fun s => (s, Ret a).

Definition raise {S A} (e : exc) : M S A := fun s => (s, Raise e).

Definition bind {S A B} (c : M S A) (k : A -> M S B) : M S B :=
  fun s =>
    match c s with
    | (s', Ret a) => k a s'
    | (s', Raise e) => (s', Raise e)
    end.

(** Evaluating a pure expression that may raise. *)
Definition eval {S A} (o : outcome A) : M S A := fun s => (s, o).

Definition gets {S A} (f : S -> A) : M S A := fun s => (s, Ret (f s)).

Definition modify {S} (f : S -> S) : M S unit := fun s => (f s, Ret tt).

(** [try: body / except Exception as e: handler e]. *)
Definition try_except {S A} (body : M S A) (handler : exc -> M S A) : M S A :=
  fun s =>
    match body s with
    | (s', Ret a) => (s', Ret a)
    | (s', Raise e) => handler e s'
    end.

(** Running a block that only knows a part [T] of the state [S]. *)
Definition zoom {S T A} (get : S -> T) (set : T -> S -> S) (c : M T A) : M S A :=
  fun s => let (t', o) := c (get s) in (set t' s, o).

(** The same exception handling for expressions without state. *)
Definition catch {A} (o : outcome A) (handler : exc -> A) : A :=
  match o with
  | Ret a => a
  | Raise e => handler e
  end.

(** ** Slices

    [l[start:]] for an integer [start]: a negative [start] counts from
    the end and is clamped at the front of the list, a non-negative one is
    clamped at its end.  Note that [-0] is [0], hence [l[-0:]] is all of
    [l]. *)
Definition slice_from {A} (start : Z) (l : list A) : list A :=
  let len := Z.of_nat (length l) in
  let first := if start <? 0 then Z.max 0 (start + len) else Z.min start len in
  drop (Z.to_nat first) l.

(** The last [k] elements of a list, in their original order. *)
Definition lastn {A} (k : nat) (l : list A) : list A :=
  drop (length l - k)%nat l.

(** ** Numbers

    A Python float is a binary64 number.  A finite one is represented by
    the rational it denotes, so comparisons are those of [Q].  The float
    operations whose result the program returns in a frame round to
    binary64 (see [f64] below); a quotient that only goes into a format
    specification is handed to the formatting of the world as it is. *)

(** [sum(l)] of integers. *)
Definition sum_ints (l : list Z) : Z := foldr Z.add 0 l.

(** [a / b] on two integers. *)
Definition truediv (a b : Z) : outcome Q :=
  if b =? 0 then Raise (mkExc ZeroDivisionError "division by zero")
  else Ret (Qred (inject_Z a / inject_Z b)).

(** Rounding to the nearest integer, ties to the even one. *)
Definition round_half_even (x : Q) : Z :=
  let f := Qfloor x in
  match Qcompare (x - inject_Z f) (1 # 2) with
  | Lt => f
  | Gt => f + 1
  | Eq => if Z.even f then f else f + 1
  end.

(** *** Binary64 arithmetic

    Every operation on floats returns the binary64 number nearest to its
    exact result, ties going to the even mantissa.  The exponent range is
    not modelled: the floats of the sources are quotients of counts and
    means of whole hours, far from overflow and from the subnormal
    numbers. *)

(** [2 ** e] for an integer [e]. *)
Definition pow2 (e : Z) : Q :=
  if 0 <=? e then inject_Z (2 ^ e) else 1 / inject_Z (2 ^ (- e)).

(** The binary exponent of a rational other than 0: the [e] with
    [2^e <= |q| < 2^(e+1)]. *)
Definition exponent (q : Q) : Z :=
  let n := Z.abs (Qnum q) in
  let d := Zpos (Qden q) in
  let e := Z.log2 n - Z.log2 d in
  if Qle_bool (pow2 e) (inject_Z n / inject_Z d) then e else e - 1.

(** The binary64 number nearest to [q]: the mantissa has 53 bits, so the
    last place is worth [2^(e-52)]. *)
Definition f64 (q : Q) : Q :=
  if Qeq_bool q 0 then 0
  else
    let ulp := pow2 (exponent q - 52) in
    Qred (inject_Z (round_half_even (q / ulp)) * ulp).

(** [float(z)], and [a / b] and [a * b] on floats ([b] not 0). *)
Definition float_of_int (z : Z) : Q := f64 (inject_Z z).
Definition fdiv (a b : Q) : Q := f64 (a / b).
Definition fmul (a b : Q) : Q := f64 (a * b).

(** [np.rint(x)]: the nearest integer, ties to the even one; integers of
    this size are floats. *)
Definition rint (x : Q) : Q := f64 (inject_Z (round_half_even x)).

(** [x.round(1)] on a float column.  pandas hands the column to numpy,
    whose [round] with a positive number of decimals is
    [true_divide(rint(a * 10**decimals), 10**decimals)]: it scales by
    [10.0], rounds to an integer and divides by [10.0], each step in
    binary64.  The result is the float nearest to a one-decimal number,
    but which one depends on the rounding of [x * 10.0]. *)
Definition round1 (x : Q) : Q :=
  fdiv (rint (fmul x (float_of_int 10))) (float_of_int 10).

(** ** Strings *)

(** [s.lower()] on the ASCII letters; other bytes are kept. *)
Definition lower_ascii (c : ascii) : ascii :=
  let n := Ascii.N_of_ascii c in
  if ((65 <=? n) && (n <=? 90))%N then Ascii.ascii_of_N (n + 32) else c.

Fixpoint lower (s : string) : string :=
  match s with
  | EmptyString => EmptyString
  | String c rest => String (lower_ascii c) (lower rest)
  end.

(** Text made of ASCII characters only.  On such text [lower] is
    Python's [str.lower()]; outside ASCII, Python also maps the other
    cased letters, and [lower] does not. *)
Fixpoint is_ascii (s : string) : bool :=
  match s with
  | EmptyString => true
  | String c rest => (Ascii.N_of_ascii c <? 128)%N && is_ascii rest
  end.

Fixpoint occurs (c : ascii) (s : string) : bool :=
  match s with
  | EmptyString => false
  | String d rest => if Ascii.eqb c d then true else occurs c rest
  end.

Definition hex_digit (n : N) : ascii :=
  if (n <? 10)%N then Ascii.ascii_of_N (48 + n) else Ascii.ascii_of_N (87 + n).

Definition squote : ascii := "039"%char.
Definition dquote : ascii := "034"%char.
Definition backslash : ascii := "092"%char.

(** One character of [repr(s)] when the surrounding quote is [quote]. *)
Definition repr_char (quote c : ascii) : string :=
  let n := Ascii.N_of_ascii c in
  if Ascii.eqb c backslash then String backslash (String backslash "")
  else if Ascii.eqb c quote then String backslash (String quote "")
  else if (n =? 9)%N then String backslash "t"
  else if (n =? 10)%N then String backslash "n"
  else if (n =? 13)%N then String backslash "r"
  else if ((n <? 32) || (n =? 127))%N
       then String backslash
              (String "x" (String (hex_digit (n / 16)) (String (hex_digit (n mod 16)) "")))
  else String c "".

Fixpoint repr_body (quote : ascii) (s : string) : string :=
  match s with
  | EmptyString => EmptyString
  | String c rest => repr_char quote c +:+ repr_body quote rest
  end.

(** [repr(s)] of a string: single quotes, unless the text holds a single
    quote and no double quote.  Bytes above 127 (the UTF-8 encoding of
    printable characters) are kept as they are. *)
Definition repr (s : string) : string :=
  let quote := if occurs squote s && negb (occurs dquote s) then dquote else squote in
  String quote (repr_body quote s +:+ String quote "").

(** The newline character. *)
Definition nl : string := String "010"%char "".

(** [bool(a)] of a numpy array given the truth values of its elements:
    defined for one element, [ValueError] for several; an empty array is
    falsy. *)
Definition ndarray_bool (truths : list bool) : outcome bool :=
  match truths with
  | [] => Ret false
  | [b] => Ret b
  | _ => Raise (mkExc ValueError
           "The truth value of an array with more than one element is ambiguous. Use a.any() or a.all()")
  end.

(** ** Dictionaries

    The values stored in the dictionaries the sources build, and a
    dictionary with string keys in insertion order. *)
#[local] Unset Elimination Schemes.
Inductive value :=
| VBool (b : bool)
| VStr (s : string)
| VCell (c : option string)      (* a text cell of a frame, NaN when missing *)
| VDict (d : list (string * value)).
#[local] Set Elimination Schemes.

Definition dict := list (string * value).

Fixpoint dict_get (key : string) (d : dict) : option value :=
  match d with
  | [] => None
  | (k, v) :: rest => if decide (k = key) then Some v else dict_get key rest
  end.

(** ** Substrings and paths *)

(** [needle in hay] on two strings. *)
Fixpoint str_in (needle hay : string) : bool :=
  if String.prefix needle hay then true
  else match hay with
       | EmptyString => false
       | String _ rest => str_in needle rest
       end.

(** [s.endswith(suffix)] for a one-character suffix. *)
Fixpoint ends_with_char (c : ascii) (s : string) : bool :=
  match s with
  | EmptyString => false
  | String d EmptyString => Ascii.eqb c d
  | String _ rest => ends_with_char c rest
  end.

(** [os.path.join(a, b)] with the separator of POSIX systems: an absolute
    [b] replaces [a]. *)
Definition path_join (a b : string) : string :=
  if String.prefix "/" b then b
  else if bool_decide (a = "") || ends_with_char "/" a then a +:+ b
  else a +:+ "/" +:+ b.

End Py.

Declare Scope py_scope.
Delimit Scope py_scope with py.
Notation "x <- c ;; k" := (Py.bind c (fun x => k))
  (at level 100, c at next level, right associativity) : py_scope.
Notation "'do' c ;; k" := (Py.bind c (fun _ => k))
  (at level 100, c at next level, right associativity) : py_scope.

Import Py.
Local Open Scope py_scope.

(* ===================================================================== *)
(** * Data model: the two sheets and their join *)
(* ===================================================================== *)

Module Frame.

(** A text cell of a sheet; [None] is a missing value (NaN). *)
Definition cell := option string.

(** One row of Alert.xlsx, with the columns the sources use. *)
Record AlertRecord := mkAlert {
  alert_BOL : string;
  Customer : cell;
  Facility : cell;
  Alert_Type : cell;
  Material_Name : cell;
  OTIF_Risk_Score : Q;
  Days_Left_for_Delivery : Z;
  Stop_Alert : cell;
  User_Notes : cell;
  Alert_Start_Date : cell;
  Carrier_Name_alert : cell
}.

(** One row of BOL.xlsx. *)
Record BolRecord := mkBol {
  bol_BOL : string;
  Carrier_Name_bol : cell;
  Delivery_Status : cell;
  No_of_Hours_Delayed : Z;
  User_Email_ID : cell
}.

(** One row of the combined view: an alert row and a BOL row with the
    same [BOL].  The column both sheets have, [Carrier_Name], appears
    twice, with the suffixes [_alert] and [_bol]. *)
Record JoinedRow := mkJoined {
  of_alert : AlertRecord;
  of_bol : BolRecord
}.

Definition BOL (r : JoinedRow) : string := alert_BOL (of_alert r).

(** [alert_df.merge(bol_df, on='BOL', how='inner', suffixes=...)]: every
    pair of rows with equal keys, in the order of the left keys. *)
Definition merge (alert_df : list AlertRecord) (bol_df : list BolRecord)
    : list JoinedRow :=
  flat_map
    (fun a => map (mkJoined a) (filter (fun b => bol_BOL b = alert_BOL a) bol_df))
    alert_df.

(** [value in column.values] for a column of strings. *)
Definition isin (value : string) (column : list string) : bool :=
  bool_decide (value ∈ column).

Definition set_Stop_Alert (v : cell) (r : AlertRecord) : AlertRecord :=
  {| alert_BOL := alert_BOL r; Customer := Customer r; Facility := Facility r;
     Alert_Type := Alert_Type r; Material_Name := Material_Name r;
     OTIF_Risk_Score := OTIF_Risk_Score r;
     Days_Left_for_Delivery := Days_Left_for_Delivery r;
     Stop_Alert := v; User_Notes := User_Notes r;
     Alert_Start_Date := Alert_Start_Date r;
     Carrier_Name_alert := Carrier_Name_alert r |}.

Definition set_User_Notes (v : cell) (r : AlertRecord) : AlertRecord :=
  {| alert_BOL := alert_BOL r; Customer := Customer r; Facility := Facility r;
     Alert_Type := Alert_Type r; Material_Name := Material_Name r;
     OTIF_Risk_Score := OTIF_Risk_Score r;
     Days_Left_for_Delivery := Days_Left_for_Delivery r;
     Stop_Alert := Stop_Alert r; User_Notes := v;
     Alert_Start_Date := Alert_Start_Date r;
     Carrier_Name_alert := Carrier_Name_alert r |}.

(** [df.loc[df['BOL'] == bol, column] = value]: the assignment reaches
    every row with that key and no other. *)
Definition loc_assign (bol : string) (set : AlertRecord -> AlertRecord)
    (df : list AlertRecord) : list AlertRecord :=
  map (fun r => if decide (alert_BOL r = bol) then set r else r) df.

(** [df.loc[df['BOL'] == bol, 'User_Notes'].values]. *)
Definition loc_User_Notes (bol : string) (df : list AlertRecord) : list cell :=
  map User_Notes (filter (fun r => alert_BOL r = bol) df).

(** The [alert_data] dictionary handed to the e-mail writer, with the
    types of the columns its entries are read from. *)
Record AlertData := mkAlertData {
  ad_Customer : cell;
  ad_Facility : cell;
  ad_Alert_Type : cell;
  ad_OTIF_Risk_Score : Q;
  ad_Days_Left_for_Delivery : Z;
  ad_Delivery_Status : cell;
  ad_No_of_Hours_Delayed : Z;
  ad_BOL : string
}.

(** [str(c)] of a text cell. *)
Definition str_cell (c : cell) : string :=
  match c with
  | Some text => text
  | None => "nan"
  end.

End Frame.
Import Frame.

(* ===================================================================== *)
(** * The world outside the program *)
(* ===================================================================== *)

(** Everything the sources obtain from their environment: the two
    spreadsheets, the wall clock, the regular-expression engine behind
    [Series.str.contains], the chat-completion service and the rendering of
    floats by format specifications. *)
Record World := mkWorld {
  (** [pd.read_excel(Config.ALERT_FILE)] and [pd.read_excel(Config.BOL_FILE)] *)
  read_alert_excel : outcome (list AlertRecord);
  read_bol_excel : outcome (list BolRecord);
  DATA_FOLDER : string;
  (** [datetime.now().isoformat()] *)
  now_isoformat : string;
  (** [datetime.now().strftime(fmt)] *)
  now_strftime : string -> string;
  (** [(datetime.now() - timedelta(days=1)).strftime(fmt)] *)
  yesterday_strftime : string -> string;
  (** [re.compile(pat, re.IGNORECASE)]: an invalid pattern raises, a valid
      one yields its search predicate. *)
  re_compile_ignorecase : string -> outcome (string -> bool);
  (** the [try] body of [rephrase_note_with_llm]: the request to the model
      and the extraction of its answer *)
  chat_rephrase : string -> outcome string;
  (** the [try] body of [generate_email_body_with_llm], given the alert
      data and the escalation flag *)
  chat_email_body : AlertData -> bool -> outcome string;
  (** [format(x, spec)] for a float [x] *)
  format_float : string -> Q -> string;
  (** [tabulate(frame, headers='keys', tablefmt='grid', showindex=False)]
      on the display columns of the given rows *)
  tabulate_grid : list JoinedRow -> string
}.

(* ===================================================================== *)
(** * tools/data_loader.py *)
(* ===================================================================== *)

Module DataLoader.

(** The attributes of a [DataLoader] object; [None] before loading. *)
Record t := mk {
  alert_df : option (list AlertRecord);
  bol_df : option (list BolRecord);
  combined_df : option (list JoinedRow)
}.

(** [DataLoader()] *)
Definition init : t :=
  {| alert_df := None; bol_df := None; combined_df := None |}.

Definition set_alert_df (v : list AlertRecord) (self : t) : t :=
  {| alert_df := Some v; bol_df := bol_df self; combined_df := combined_df self |}.
Definition set_bol_df (v : list BolRecord) (self : t) : t :=
  {| alert_df := alert_df self; bol_df := Some v; combined_df := combined_df self |}.
Definition set_combined_df (v : list JoinedRow) (self : t) : t :=
  {| alert_df := alert_df self; bol_df := bol_df self; combined_df := Some v |}.

(** [load_data]: the attributes are assigned one after the other, so a
    failure while reading the second sheet leaves the first one stored.
    The two handlers re-raise with their own messages. *)
Definition load_data (w : World)
    : M t (list AlertRecord * list BolRecord * list JoinedRow) :=
  try_except
    (a <- eval (read_alert_excel w) ;;
     do modify (set_alert_df a) ;;
     b <- eval (read_bol_excel w) ;;
     do modify (set_bol_df b) ;;
     do modify (set_combined_df (merge a b)) ;;
     ret (a, b, merge a b))
    (fun e =>
       match exc_cls e with
       | FileNotFoundError =>
           raise (mkExc FileNotFoundError
                    ("Data files not found. Please ensure Alert.xlsx and BOL.xlsx "
                     +:+ "are in the " +:+ DATA_FOLDER w +:+ " folder."))
       | _ => raise (mkExc Exception ("Error loading data: " +:+ exc_str e))
       end).

(** What a caller gets when it subscripts an attribute that is still
    [None]; after a successful [load_data] this cannot happen. *)
Definition subscript_frame {A} (attr : option A) : M t A :=
  match attr with
  | Some df => ret df
  | None => raise (mkExc TypeError "'NoneType' object is not subscriptable")
  end.

Definition get_alert_data (w : World) : M t (list AlertRecord) :=
  cur <- gets alert_df ;;
  do (if cur is None then do load_data w ;; ret tt else ret tt) ;;
  cur <- gets alert_df ;;
  subscript_frame cur.

Definition get_bol_data (w : World) : M t (list BolRecord) :=
  cur <- gets bol_df ;;
  do (if cur is None then do load_data w ;; ret tt else ret tt) ;;
  cur <- gets bol_df ;;
  subscript_frame cur.

Definition get_combined_data (w : World) : M t (list JoinedRow) :=
  cur <- gets combined_df ;;
  do (if cur is None then do load_data w ;; ret tt else ret tt) ;;
  cur <- gets combined_df ;;
  subscript_frame cur.

Definition refresh_data (w : World) : M t unit :=
  do load_data w ;; ret tt.

End DataLoader.

(* ===================================================================== *)
(** * tools/query_functions.py *)
(* ===================================================================== *)

Module Query.

(** [column.str.contains(pat, case=False, na=False)] as a predicate on
    the rows: the pattern is compiled once, which may raise, and a missing
    cell never matches.  This is the accessor of a column of texts; the
    dtype of the column is not modelled, and on a column that holds no
    text at all (a float column for pandas) the code raises
    [AttributeError] before it compiles the pattern. *)
Definition str_contains {S A} (w : World) (column : A -> cell) (pat : string)
    : M S (A -> bool) :=
  search <- eval (re_compile_ignorecase w pat) ;;
  ret (fun r => match column r with
                | Some text => search text
                | None => false
                end).

(** [column == text] on a column of text cells. *)
Definition cell_eq (c : cell) (text : string) : bool :=
  bool_decide (c = Some text).

Definition get_alerts_by_customer_facility (w : World)
    (customer facility date : string) : M DataLoader.t (list JoinedRow) :=
  df <- DataLoader.get_combined_data w ;;
  (* Filter by customer and facility *)
  by_customer <- str_contains w (fun r => Customer (of_alert r)) customer ;;
  by_facility <- str_contains w (fun r => Facility (of_alert r)) facility ;;
  let result := filter (fun r => by_customer r && by_facility r) df in
  (* Apply date filter if needed *)
  if decide (lower date = "today") then
    let today := now_strftime w "%Y-%m-%d" in
    ret (filter (fun r => cell_eq (Alert_Start_Date (of_alert r)) today) result)
  else if decide (lower date = "yesterday") then
    let yesterday := yesterday_strftime w "%Y-%m-%d" in
    ret (filter (fun r => cell_eq (Alert_Start_Date (of_alert r)) yesterday) result)
  else
    ret result.

(** ** Sorting

    [df.sort_values(column, ascending=...)] on a numeric column.  pandas
    sorts with an unstable algorithm, so the order among rows of equal
    key is not fixed by the source; the merge sort below fixes one, and
    no statement of this file depends on which. *)
Definition ascending_by {A} (key : A -> Q) (a b : A) : Prop :=
  Qle_bool (key a) (key b).
Definition descending_by {A} (key : A -> Q) (a b : A) : Prop :=
  Qle_bool (key b) (key a).

#[export] Instance ascending_by_dec {A} (key : A -> Q) a b :
  Decision (ascending_by key a b).
Proof. unfold ascending_by. apply _. Defined.
#[export] Instance descending_by_dec {A} (key : A -> Q) a b :
  Decision (descending_by key a b).
Proof. unfold descending_by. apply _. Defined.

Definition sort_values {A} (key : A -> Q) (ascending : bool) (df : list A)
    : list A :=
  if ascending then merge_sort (ascending_by key) df
  else merge_sort (descending_by key) df.

Definition risk (r : JoinedRow) : Q := OTIF_Risk_Score (of_alert r).

Definition get_high_risk_alerts (w : World) (risk_threshold : Q)
    : M DataLoader.t (list JoinedRow) :=
  df <- DataLoader.get_combined_data w ;;
  let result := filter (fun r => Qle_bool risk_threshold (risk r)) df in
  ret (sort_values risk false result).

(** ** Carrier performance *)

(** One row of the frame returned by [get_carrier_performance]. *)
Record CarrierStats := mkStats {
  Carrier : string;
  Total_Shipments : Z;
  Avg_Delay_Hours : Q;
  On_Time_Count : Z;
  On_Time_Rate : Q
}.

Definition carrier (r : JoinedRow) : cell := Carrier_Name_bol (of_bol r).

(** The rows that name a carrier. *)
Definition has_carrier (r : JoinedRow) : Prop := is_Some (carrier r).

Definition string_le (a b : string) : Prop := String.leb a b.
#[export] Instance string_le_dec a b : Decision (string_le a b).
Proof. unfold string_le. apply _. Defined.

(** The keys of [df.groupby('Carrier_Name_bol')]: the distinct carrier
    names in increasing order; rows with a missing carrier belong to no
    group. *)
Definition group_keys (df : list JoinedRow) : list string :=
  merge_sort string_le (remove_dups (omap carrier df)).

Definition group (df : list JoinedRow) (key : string) : list JoinedRow :=
  filter (fun r => carrier r = Some key) df.

(** ['BOL': 'count']: every row of the view has its key. *)
Definition agg_count (g : list JoinedRow) : Z := Z.of_nat (length g).

(** ['No_of_Hours_Delayed': 'mean']: the float sum of the hours of the
    group divided by its size.  The sum is taken exactly: the hours are
    integers whose sums stay below [2^53], where float addition is
    exact. *)
Definition agg_mean (g : list JoinedRow) : Q :=
  fdiv (float_of_int (sum_ints (map (fun r => No_of_Hours_Delayed (of_bol r)) g)))
       (float_of_int (Z.of_nat (length g))).

(** ['Delivery_Status': lambda x: (x == 'On Time').sum()] *)
Definition agg_on_time (g : list JoinedRow) : Z :=
  Z.of_nat (length (filter (fun r => cell_eq (Delivery_Status (of_bol r)) "On Time") g)).

(** [(On_Time_Count / Total_Shipments * 100).round(1)]: the division of
    the two integer columns and the product with [100] are float
    operations. *)
Definition on_time_rate (on_time total : Z) : Q :=
  round1 (fmul (fdiv (float_of_int on_time) (float_of_int total)) (float_of_int 100)).

Definition carrier_row (df : list JoinedRow) (key : string) : CarrierStats :=
  let g := group df key in
  {| Carrier := key;
     Total_Shipments := agg_count g;
     Avg_Delay_Hours := agg_mean g;
     On_Time_Count := agg_on_time g;
     On_Time_Rate := on_time_rate (agg_on_time g) (agg_count g) |}.

Definition get_carrier_performance (w : World)
    : M DataLoader.t (list CarrierStats) :=
  df <- DataLoader.get_combined_data w ;;
  let carrier_stats := map (carrier_row df) (group_keys df) in
  ret (sort_values Avg_Delay_Hours false carrier_stats).

End Query.

(* ===================================================================== *)
(** * tools/action_functions.py *)
(* ===================================================================== *)

Module Actions.

(** The attributes of an [ActionExecutor] object. *)
Record ActionExecutor := mkExecutor { action_log : list dict }.

(** [ActionExecutor()] *)
Definition init : ActionExecutor := {| action_log := [] |}.

(** The two module-level objects an action works on: [data_loader] and
    the executor itself. *)
Record Globals := mkGlobals {
  data_loader : DataLoader.t;
  self : ActionExecutor
}.

Definition on_loader {A} (c : M DataLoader.t A) : M Globals A :=
  zoom data_loader (fun ld g => {| data_loader := ld; self := self g |}) c.

(** [self.action_log.append(action)] *)
Definition log_append (action : dict) : M Globals unit :=
  modify (fun g => {| data_loader := data_loader g;
                      self := {| action_log := action_log (self g) ++ [action] |} |}).

(** [get_action_log] *)
Definition get_action_log : M Globals (list dict) :=
  gets (fun g => action_log (self g)).

(** The result every handler and every not-found branch returns. *)
Definition failure (message bol : string) : dict :=
  [("success", VBool false); ("message", VStr message); ("bol", VStr bol)].

(** [rephrase_note_with_llm]: whatever goes wrong inside the [try], the
    original note is returned. *)
Definition rephrase_note_with_llm (w : World) (note : string) : string :=
  catch (chat_rephrase w note) (fun _ => note).

(** The [try] block of [stop_alert]. *)
Definition stop_alert_try (w : World) (bol reason : string) : M Globals dict :=
  df <- on_loader (DataLoader.get_alert_data w) ;;
  if negb (isin bol (map alert_BOL df)) then
    ret (failure ("BOL " +:+ bol +:+ " not found") bol)
  else
    (* Update Stop_Alert column *)
    do on_loader (modify (DataLoader.set_alert_df
                            (loc_assign bol (set_Stop_Alert (Some "Yes")) df))) ;;
    (* Log action *)
    let action :=
      [("timestamp", VStr (now_isoformat w)); ("action", VStr "stop_alert");
       ("bol", VStr bol); ("reason", VStr reason); ("success", VBool true)] in
    do log_append action ;;
    ret [("success", VBool true);
         ("message", VStr ("Alert for BOL " +:+ bol +:+ " has been stopped"));
         ("bol", VStr bol); ("reason", VStr reason)].

Definition stop_alert (w : World) (bol reason : string) : M Globals dict :=
  try_except (stop_alert_try w bol reason)
    (fun e => ret (failure ("Error stopping alert: " +:+ exc_str e) bol)).

(** ** Notes *)

(** [bool(x)] of one element of the notes array: a string is true when it
    is not empty, NaN is a non-zero float. *)
Definition cell_truth (c : cell) : bool :=
  match c with
  | Some text => negb (bool_decide (text = ""))
  | None => true
  end.

(** The condition [pd.notna(current_note) and current_note], where
    [current_note] is the array of the notes of all rows with the key: the
    truth value of the first array decides whether the second is looked
    at. *)
Definition note_present (current_note : list cell) : outcome bool :=
  match ndarray_bool (map (fun c => bool_decide (is_Some c)) current_note) with
  | Ret true => ndarray_bool (map cell_truth current_note)
  | Ret false => Ret false
  | Raise e => Raise e
  end.

Definition repr_cell (c : cell) : string :=
  match c with
  | Some text => repr text
  | None => "nan"
  end.

Fixpoint join (sep : string) (parts : list string) : string :=
  match parts with
  | [] => ""
  | [p] => p
  | p :: rest => p +:+ sep +:+ join sep rest
  end.

(** [str(current_note)]: numpy prints an array of objects as the [repr] of
    its elements between brackets. *)
Definition ndarray_str (a : list cell) : string :=
  "[" +:+ join " " (map repr_cell a) +:+ "]".

(** The [try] block of [add_note]. *)
Definition add_note_try (w : World) (bol note : string) : M Globals dict :=
  df <- on_loader (DataLoader.get_alert_data w) ;;
  if negb (isin bol (map alert_BOL df)) then
    ret (failure ("BOL " +:+ bol +:+ " not found") bol)
  else
    (* Rephrase note using LLM for consistency and professionalism *)
    let rephrased_note := rephrase_note_with_llm w note in
    (* Update User_Notes column *)
    let current_note := loc_User_Notes bol df in
    present <- eval (note_present current_note) ;;
    let new_note :=
      if (present : bool) then ndarray_str current_note +:+ "; " +:+ rephrased_note
      else rephrased_note in
    do on_loader (modify (DataLoader.set_alert_df
                            (loc_assign bol (set_User_Notes (Some new_note)) df))) ;;
    (* Log action with both original and rephrased notes *)
    let action :=
      [("timestamp", VStr (now_isoformat w)); ("action", VStr "add_note");
       ("bol", VStr bol); ("original_note", VStr note);
       ("rephrased_note", VStr rephrased_note); ("success", VBool true)] in
    do log_append action ;;
    ret [("success", VBool true);
         ("message", VStr ("Note added to BOL " +:+ bol));
         ("bol", VStr bol); ("original_note", VStr note);
         ("rephrased_note", VStr rephrased_note)].

Definition add_note (w : World) (bol note : string) : M Globals dict :=
  try_except (add_note_try w bol note)
    (fun e => ret (failure ("Error adding note: " +:+ exc_str e) bol)).

(** The value of [new_note] in [add_note], given the truth value
    [present] of its condition. *)
Definition written_note (w : World) (bol note : string) (df : list AlertRecord)
    (present : bool) : string :=
  if present
  then ndarray_str (loc_User_Notes bol df) +:+ "; " +:+ rephrase_note_with_llm w note
  else rephrase_note_with_llm w note.

(** ** E-mail *)

Definition indent : string := "                    ".

(** [generate_email_body_with_llm]: the model's text, or the default
    template when anything fails inside the [try]. *)
Definition generate_email_body_with_llm (w : World) (alert_data : AlertData)
    (escalate : bool) : string :=
  catch (chat_email_body w alert_data escalate)
    (fun _ =>
       nl +:+ indent +:+ "Alert Details:"
       +:+ nl +:+ indent +:+ "- Customer: " +:+ str_cell (ad_Customer alert_data)
       +:+ nl +:+ indent +:+ "- Facility: " +:+ str_cell (ad_Facility alert_data)
       +:+ nl +:+ indent +:+ "- Alert Type: " +:+ str_cell (ad_Alert_Type alert_data)
       +:+ nl +:+ indent +:+ "- OTIF Risk Score: "
           +:+ format_float w ".2%" (ad_OTIF_Risk_Score alert_data)
       +:+ nl +:+ indent +:+ "- Days Left: "
           +:+ pretty (ad_Days_Left_for_Delivery alert_data) +:+ " days"
       +:+ nl +:+ indent +:+ "- Delivery Status: "
           +:+ str_cell (ad_Delivery_Status alert_data)
       +:+ nl +:+ indent +:+ "- Hours Delayed: "
           +:+ pretty (ad_No_of_Hours_Delayed alert_data) +:+ " hours"
       +:+ nl
       +:+ nl +:+ indent +:+ "Action Required: Please review and take necessary action."
       +:+ nl +:+ indent).

(** [frame.iloc]: the positional indexer of a frame. *)
Record iLocIndexer := iloc { indexed : list JoinedRow }.

(** [indexer[label]] with a string between the brackets: positional
    indexing accepts integers only, whatever the frame holds. *)
Definition iloc_getitem {A} (indexer : iLocIndexer) (label : string) : outcome A :=
  Raise (mkExc TypeError "Cannot index by location index with a non-integer key").

(** The [try] block of [send_email_alert]. *)
Definition send_email_alert_try (w : World) (bol : string) (escalate : bool)
    : M Globals dict :=
  df <- on_loader (DataLoader.get_combined_data w) ;;
  if negb (isin bol (map BOL df)) then
    ret (failure ("BOL " +:+ bol +:+ " not found") bol)
  else
    (* Get alert details *)
    let alert_row := iloc (filter (fun r => BOL r = bol) df) in
    (* Prepare alert data dictionary *)
    customer <- eval (iloc_getitem alert_row "Customer") ;;
    facility <- eval (iloc_getitem alert_row "Facility") ;;
    alert_type <- eval (iloc_getitem alert_row "Alert_Type") ;;
    risk_score <- eval (iloc_getitem alert_row "OTIF_Risk_Score") ;;
    days_left <- eval (iloc_getitem alert_row "Days_Left_for_Delivery") ;;
    status <- eval (iloc_getitem alert_row "Delivery_Status") ;;
    hours <- eval (iloc_getitem alert_row "No_of_Hours_Delayed") ;;
    let alert_data :=
      {| ad_Customer := customer; ad_Facility := facility;
         ad_Alert_Type := alert_type; ad_OTIF_Risk_Score := risk_score;
         ad_Days_Left_for_Delivery := days_left; ad_Delivery_Status := status;
         ad_No_of_Hours_Delayed := hours; ad_BOL := bol |} in
    (* Generate email body using LLM *)
    let email_body := generate_email_body_with_llm w alert_data escalate in
    to <- eval (iloc_getitem alert_row "User_Email_ID") ;;
    subject_type <- eval (iloc_getitem alert_row "Alert_Type") ;;
    let email_details :=
      [("to", VCell to);
       ("subject", VStr ((if escalate then "[ESCALATED] " else "")
                         +:+ "OTIF Alert: " +:+ str_cell subject_type
                         +:+ " - BOL " +:+ bol));
       ("body", VStr email_body);
       ("escalated", VBool escalate)] in
    (* Log action *)
    let action :=
      [("timestamp", VStr (now_isoformat w)); ("action", VStr "send_email");
       ("bol", VStr bol); ("email", VDict email_details);
       ("escalated", VBool escalate); ("success", VBool true)] in
    do log_append action ;;
    ret [("success", VBool true);
         ("message", VStr ("Email sent for BOL " +:+ bol
                           +:+ (if escalate then " (ESCALATED)" else "")));
         ("bol", VStr bol); ("email_to", VCell to)].

Definition send_email_alert (w : World) (bol : string) (escalate : bool)
    : M Globals dict :=
  try_except (send_email_alert_try w bol escalate)
    (fun e => ret (failure ("Error sending email: " +:+ exc_str e) bol)).

End Actions.

(** The three actions, run on the same state. *)
Inductive action_run (w : World) (bol : string) (g : Actions.Globals)
    : Actions.Globals * outcome dict -> Prop :=
| run_stop_alert reason : action_run w bol g (Actions.stop_alert w bol reason g)
| run_add_note note : action_run w bol g (Actions.add_note w bol note g)
| run_send_email_alert escalate :
    action_run w bol g (Actions.send_email_alert w bol escalate g).

(** The columns of an alert row that no action writes: the row with
    [Stop_Alert] and [User_Notes] blanked. *)
Definition untouched (r : AlertRecord) : AlertRecord :=
  set_Stop_Alert None (set_User_Notes None r).

(* ===================================================================== *)
(** * tools/report_functions.py *)
(* ===================================================================== *)

Module Report.

(** [s * n]: a string repeated. *)
Fixpoint repeat_string (s : string) (n : nat) : string :=
  match n with
  | O => ""
  | S m => s +:+ repeat_string s m
  end.

(** The padding of [format(s, '<width')] and [format(s, '>width')]; the
    width is counted in bytes, which are the characters of ASCII text. *)
Definition ljust (width : nat) (s : string) : string :=
  s +:+ repeat_string " " (width - String.length s).
Definition rjust (width : nat) (s : string) : string :=
  repeat_string " " (width - String.length s) +:+ s.

(** [column.value_counts()]: the distinct values that are present, each
    with its number of rows, by decreasing count. *)
Definition value_counts (column : list cell) : list (string * Z) :=
  let present := omap id column in
  let count v := Z.of_nat (length (filter (fun x => x = v) present)) in
  Query.sort_values (fun kv => inject_Z (snd kv)) false
    (map (fun v => (v, count v)) (remove_dups present)).

(** [for x in items: acc = body(acc, x)] *)
Fixpoint for_each {S A B} (items : list A) (acc : B) (body : B -> A -> M S B)
    : M S B :=
  match items with
  | [] => ret acc
  | x :: rest => acc' <- body acc x ;; for_each rest acc' body
  end.

(** [f"{a/b*100:spec}"] *)
Definition percent_of (w : World) (spec : string) (a b : Z) : outcome string :=
  match truediv a b with
  | Ret q => Ret (format_float w spec (q * inject_Z 100))
  | Raise e => Raise e
  end.

Definition box_top : string := "╔════════════════════════════════════════════════════════════╗".
Definition box_title : string := "║         OTIF ALERT MANAGEMENT - DAILY SUMMARY REPORT       ║".
Definition box_bottom : string := "╚════════════════════════════════════════════════════════════╝".
Definition rule : string := "───────────────────────────────────────────────────────────────".

Definition generate_daily_alert_summary (w : World) : M DataLoader.t string :=
  df <- DataLoader.get_combined_data w ;;
  (* Summary statistics *)
  let total_alerts := Z.of_nat (length df) in
  let high_risk :=
    Z.of_nat (length (filter (fun r => negb (Qle_bool (Query.risk r) (7 # 10))) df)) in
  let delayed :=
    Z.of_nat (length (filter (fun r => 0 <? No_of_Hours_Delayed (of_bol r)) df)) in
  (* Alert type breakdown *)
  let alert_type_counts := value_counts (map (fun r => Alert_Type (of_alert r)) df) in
  (* Delivery status breakdown *)
  let delivery_status := value_counts (map (fun r => Delivery_Status (of_bol r)) df) in
  (* Top customers by alert count *)
  let top_customers := take 5 (value_counts (map (fun r => Customer (of_alert r)) df)) in
  (* Top facilities by alert count *)
  let top_facilities := take 5 (value_counts (map (fun r => Facility (of_alert r)) df)) in
  (* Build report *)
  high_risk_pct <- eval (percent_of w ".1f" high_risk total_alerts) ;;
  delayed_pct <- eval (percent_of w ".1f" delayed total_alerts) ;;
  let report :=
    nl +:+ box_top
    +:+ nl +:+ box_title
    +:+ nl +:+ "║                  " +:+ now_strftime w "%B %d, %Y %H:%M" +:+ "                    ║"
    +:+ nl +:+ box_bottom
    +:+ nl
    +:+ nl +:+ "📊 OVERVIEW"
    +:+ nl +:+ rule
    +:+ nl +:+ "Total Active Alerts:        " +:+ pretty total_alerts
    +:+ nl +:+ "High Risk (>70%):          " +:+ pretty high_risk
        +:+ " (" +:+ high_risk_pct +:+ "%)"
    +:+ nl +:+ "Delayed Shipments:         " +:+ pretty delayed
        +:+ " (" +:+ delayed_pct +:+ "%)"
    +:+ nl
    +:+ nl +:+ "📋 ALERT TYPE DISTRIBUTION"
    +:+ nl +:+ rule
    +:+ nl in
  report <- for_each alert_type_counts report (fun report '(alert_type, count) =>
    pct <- eval (percent_of w ">5.1f" count total_alerts) ;;
    ret (report +:+ ljust 40 alert_type +:+ " " +:+ rjust 5 (pretty count)
         +:+ " (" +:+ pct +:+ "%)" +:+ nl)) ;;
  let report := report
    +:+ nl +:+ "🚚 DELIVERY STATUS"
    +:+ nl +:+ rule
    +:+ nl in
  report <- for_each delivery_status report (fun report '(status, count) =>
    pct <- eval (percent_of w ">5.1f" count total_alerts) ;;
    ret (report +:+ ljust 20 status +:+ " " +:+ rjust 5 (pretty count)
         +:+ " (" +:+ pct +:+ "%)" +:+ nl)) ;;
  let report := report
    +:+ nl +:+ "🏢 TOP 5 CUSTOMERS BY ALERT COUNT"
    +:+ nl +:+ rule
    +:+ nl in
  report <- for_each top_customers report (fun report '(customer, count) =>
    ret (report +:+ ljust 30 customer +:+ " " +:+ rjust 5 (pretty count) +:+ nl)) ;;
  let report := report
    +:+ nl +:+ "🏭 TOP 5 FACILITIES BY ALERT COUNT"
    +:+ nl +:+ rule
    +:+ nl in
  report <- for_each top_facilities report (fun report '(facility, count) =>
    ret (report +:+ ljust 30 facility +:+ " " +:+ rjust 5 (pretty count) +:+ nl)) ;;
  ret (report +:+ nl +:+ repeat_string "=" 60 +:+ nl).

(** [column.mean()] *)
Definition mean (xs : list Q) : Q :=
  Qred (foldr Qplus 0%Q xs / inject_Z (Z.of_nat (length xs))).

(** [generate_detailed_alert_report]: an empty frame is answered with a
    message before any statistic is computed. *)
Definition generate_detailed_alert_report (w : World) (df : list JoinedRow)
    (title : string) : string :=
  match df with
  | [] =>
      nl +:+ title +:+ nl +:+ repeat_string "=" 60 +:+ nl
      +:+ "No alerts found matching criteria." +:+ nl
  | _ =>
      let display_df := take 20 df in  (* Limit to 20 rows for readability *)
      nl +:+ title
      +:+ nl +:+ repeat_string "=" 80
      +:+ nl +:+ "Total Records: " +:+ pretty (Z.of_nat (length df))
      +:+ nl +:+ "Showing: " +:+ pretty (Z.of_nat (length display_df)) +:+ " records"
      +:+ nl
      +:+ nl +:+ tabulate_grid w display_df
      +:+ nl
      +:+ nl +:+ "Summary Statistics:"
      +:+ nl +:+ "- Average OTIF Risk Score: "
          +:+ format_float w ".3f" (mean (map Query.risk df))
      +:+ nl +:+ "- Average Days Left: "
          +:+ format_float w ".1f"
                (mean (map (fun r => inject_Z (Days_Left_for_Delivery (of_alert r))) df))
          +:+ " days"
      +:+ nl +:+ "- Average Delay: "
          +:+ format_float w ".1f"
                (mean (map (fun r => inject_Z (No_of_Hours_Delayed (of_bol r))) df))
          +:+ " hours"
      +:+ nl
  end.

(** ** Saving a report *)

(** The attribute of a [ReportGenerator] object. *)
Record ReportGenerator := mkGenerator { report_count : Z }.

(** What [save_report_to_file] works on: the generator and the files on
    disk, by path. *)
Record Desk := mkDesk {
  generator : ReportGenerator;
  disk : gmap string string
}.

(** [Config.REPORT_OUTPUT_FOLDER] *)
Definition REPORT_OUTPUT_FOLDER : string := "./reports".

(** [save_report_to_file]; [filename] is [None] when the argument is left
    out.  [open_write path] tells whether [open(path, 'w')] succeeds (the
    folder may be missing or protected); the function has no handler, so a
    failure to open propagates, before anything is written or counted. *)
Definition save_report_to_file (open_write : string -> outcome unit) (w : World)
    (report_content : string) (filename : option string) : M Desk string :=
  let filename :=
    match filename with
    | None => "OTIF_Report_" +:+ now_strftime w "%Y%m%d_%H%M%S" +:+ ".txt"
    | Some name => name
    end in
  let filepath := path_join REPORT_OUTPUT_FOLDER filename in
  do eval (open_write filepath) ;;
  do modify (fun d => {| generator := generator d;
                         disk := <[filepath := report_content]> (disk d) |}) ;;
  do modify (fun d => {| generator := {| report_count := report_count (generator d) + 1 |};
                         disk := disk d |}) ;;
  ret filepath.

End Report.

(* ===================================================================== *)
(** * memory/conversation_memory.py *)
(* ===================================================================== *)

Module Memory.

(** A message dictionary: the four keys written by [add_message]. *)
Record Message := mkMessage {
  timestamp : string;
  role : string;
  content : string;
  metadata : list (string * string)
}.

(** The attributes of a [ConversationMemory] object. *)
Record ConversationMemory := mkMemory {
  max_messages : Z;
  messages : list Message;
  session_start : string
}.

(** [ConversationMemory(max_messages)], created at time [now]. *)
Definition init (now : string) (max : Z) : ConversationMemory :=
  {| max_messages := max; messages := []; session_start := now |}.

(** The dictionary built at the top of [add_message]; [now] is the value
    of [datetime.now().isoformat()] and [metadata or {}] replaces [None]
    by the empty dictionary. *)
Definition make_message (now role content : string)
    (md : option (list (string * string))) : Message :=
  {| timestamp := now; role := role; content := content;
     metadata := default [] md |}.

Definition add_message (now role content : string)
    (md : option (list (string * string)))
    (self : ConversationMemory) : ConversationMemory :=
  let appended := messages self ++ [make_message now role content md] in
  (* Trim if exceeds max *)
  let trimmed :=
    if max_messages self <? Z.of_nat (length appended)
    then Py.slice_from (- max_messages self) appended
    else appended in
  {| max_messages := max_messages self;
     messages := trimmed;
     session_start := session_start self |}.

Definition get_recent_messages (n : Z) (self : ConversationMemory)
    : list Message :=
  Py.slice_from (- n) (messages self).

Definition get_all_messages (self : ConversationMemory) : list Message :=
  messages self.

Definition clear (now : string) (self : ConversationMemory)
    : ConversationMemory :=
  {| max_messages := max_messages self; messages := [];
     session_start := now |}.

(** [search_messages]: the messages whose content holds the query,
    letter case ignored, in their order in the log. *)
Definition search_messages (query : string) (self : ConversationMemory)
    : list Message :=
  filter (fun msg => str_in (lower query) (lower (content msg))) (messages self).

(** The arguments of one call of [add_message], with the time of the
    call. *)
Record Call := mkCall {
  call_now : string;
  call_role : string;
  call_content : string;
  call_metadata : option (list (string * string))
}.

Definition message_of (c : Call) : Message :=
  make_message (call_now c) (call_role c) (call_content c) (call_metadata c).

(** A series of calls of [add_message], the first of the list first. *)
Definition add_messages (calls : list Call) (self : ConversationMemory)
    : ConversationMemory :=
  foldl (fun m c => add_message (call_now c) (call_role c) (call_content c)
                      (call_metadata c) m) self calls.

End Memory.

(* ===================================================================== *)
(** * tools/query_functions.py, the other queries *)
(* ===================================================================== *)

Module Queries.

Definition delay (r : JoinedRow) : Z := No_of_Hours_Delayed (of_bol r).

Definition days_left (r : JoinedRow) : Z := Days_Left_for_Delivery (of_alert r).

Definition get_delayed_bols (w : World) (min_hours : Z)
    : M DataLoader.t (list JoinedRow) :=
  df <- DataLoader.get_combined_data w ;;
  let result := filter (fun r => min_hours <? delay r) df in
  ret (Query.sort_values (fun r => inject_Z (delay r)) false result).

Definition get_alerts_by_type (w : World) (alert_type : string)
    : M DataLoader.t (list JoinedRow) :=
  df <- DataLoader.get_combined_data w ;;
  by_type <- Query.str_contains w (fun r => Alert_Type (of_alert r)) alert_type ;;
  ret (filter (fun r => by_type r) df).

Definition get_alerts_by_days_left (w : World) (max_days : Z)
    : M DataLoader.t (list JoinedRow) :=
  df <- DataLoader.get_combined_data w ;;
  let result := filter (fun r => days_left r <=? max_days) df in
  ret (Query.sort_values (fun r => inject_Z (days_left r)) true result).

(** [get_delivery_status_summary] reads the BOL sheet, not the combined
    view; the dictionary is given by its items. *)
Definition get_delivery_status_summary (w : World)
    : M DataLoader.t (list (string * Z)) :=
  df <- DataLoader.get_bol_data w ;;
  ret (Report.value_counts (map Delivery_Status df)).

Definition search_alerts (w : World) (query_text : string)
    : M DataLoader.t (list JoinedRow) :=
  df <- DataLoader.get_combined_data w ;;
  (* Search across multiple columns *)
  in_customer <- Query.str_contains w (fun r => Customer (of_alert r)) query_text ;;
  in_facility <- Query.str_contains w (fun r => Facility (of_alert r)) query_text ;;
  in_type <- Query.str_contains w (fun r => Alert_Type (of_alert r)) query_text ;;
  in_material <- Query.str_contains w (fun r => Material_Name (of_alert r)) query_text ;;
  ret (filter (fun r => in_customer r || in_facility r || in_type r || in_material r) df).

(** A column of the view that holds a text on some row.  pandas keeps
    such a column with dtype [object], the dtype on which the [.str]
    accessor is available; a column without any text is read from the
    sheet as a column of floats, on which [.str] raises
    [AttributeError]. *)
Definition has_text (column : JoinedRow -> cell) (df : list JoinedRow) : Prop :=
  exists r, r ∈ df /\ is_Some (column r).

(** What a row of the mask of [str.contains(..., na=False)] says: the
    cell holds a text, and [search] finds the pattern in it. *)
Definition found (search : string -> bool) (c : cell) : Prop :=
  exists text, c = Some text /\ search text = true.

End Queries.

(* ===================================================================== *)
(** * main.py: one turn of the conversation loop *)
(* ===================================================================== *)

Module Main.

(** The module-level objects the loop works on. *)
Record App := mkApp {
  globals : Actions.Globals;
  memory : Memory.ConversationMemory
}.

(** How one pass through the [while True] body ends. *)
Inductive control := Break | Continue.

(** The words that end the session, and the other commands the loop
    handles itself. *)
Definition exit_words : list string := ["exit"; "quit"; "bye"].
Definition local_words : list string :=
  ["help"; "status"; "refresh"; "memory"; "clear"].

(** [self.user_proxy.initiate_chat(orchestrator, message=...)]: the
    agents may do anything to the objects of the program, and may fail. *)
Definition Chat := string -> App -> App * outcome unit.

Definition on_globals {A} (c : M Actions.Globals A) : M App A :=
  zoom globals (fun g a => {| globals := g; memory := memory a |}) c.

Definition on_memory (f : Memory.ConversationMemory -> Memory.ConversationMemory)
    : M App unit :=
  modify (fun a => {| globals := globals a; memory := f (memory a) |}).

(** [print_status]: the two counts are read through the loader, which
    loads the sheets when they are not there yet; the rest of the text
    reads the other objects and changes none. *)
Definition print_status (w : World) : M App unit :=
  alerts <- on_globals (Actions.on_loader (DataLoader.get_alert_data w)) ;;
  bols <- on_globals (Actions.on_loader (DataLoader.get_bol_data w)) ;;
  ret tt.

(** The [try] block of the loop body.  [line] is what
    [input(...).strip()] produced. *)
Definition turn_try (w : World) (chat : Chat) (line : outcome string)
    : M App control :=
  (* Get user input *)
  user_input <- eval line ;;
  if decide (user_input = "") then ret Continue
  (* Handle special commands *)
  else if bool_decide (lower user_input ∈ ["exit"; "quit"; "bye"]) then ret Break
  else if decide (lower user_input = "help") then ret Continue
  else if decide (lower user_input = "status") then
    do print_status w ;; ret Continue
  else if decide (lower user_input = "refresh") then
    do on_globals (Actions.on_loader (DataLoader.refresh_data w)) ;; ret Continue
  else if decide (lower user_input = "memory") then ret Continue
  else if decide (lower user_input = "clear") then
    do on_memory (Memory.clear (now_isoformat w)) ;; ret Continue
  else
    (* Add to conversation memory *)
    do on_memory (Memory.add_message (now_isoformat w) "user" user_input None) ;;
    (* Route to orchestrator *)
    do chat user_input ;;
    ret Continue.

(** The loop body: both handlers, for [KeyboardInterrupt] and for
    [Exception], report and go on with the next turn. *)
Definition turn (w : World) (chat : Chat) (line : outcome string) : M App control :=
  try_except (turn_try w chat line) (fun _ => ret Continue).

(** The loop over the lines typed so far: it stops at the first [Break]. *)
Fixpoint run (w : World) (chat : Chat) (lines : list (outcome string)) (a : App)
    : App * control :=
  match lines with
  | [] => (a, Continue)
  | line :: rest =>
      match turn w chat line a with
      | (a', Ret Break) => (a', Break)
      | (a', _) => run w chat rest a'
      end
  end.

End Main.

(* ===================================================================== *)
(** * Sample data for the examples *)
(* ===================================================================== *)

Module Fixtures.

(** Case-insensitive search of a literal text: what a pattern without
    regular-expression operators compiles to. *)
Fixpoint find_literal (pat text : string) : bool :=
  if String.prefix pat text then true
  else match text with
       | EmptyString => false
       | String _ rest => find_literal pat rest
       end.

(** A world whose spreadsheets hold the given rows (or are missing), and
    whose chat-completion service fails, so that notes are kept as typed
    and e-mails use the default template. *)
Definition world_of (alerts : outcome (list AlertRecord))
    (bols : outcome (list BolRecord)) : World :=
  {| read_alert_excel := alerts;
     read_bol_excel := bols;
     DATA_FOLDER := "./data";
     now_isoformat := "2024-01-16T09:30:00.000000";
     now_strftime := fun fmt => if decide (fmt = "%Y-%m-%d") then "2024-01-16" else fmt;
     yesterday_strftime := fun fmt => if decide (fmt = "%Y-%m-%d") then "2024-01-15" else fmt;
     re_compile_ignorecase := fun pat => Ret (fun text => find_literal (lower pat) (lower text));
     chat_rephrase := fun _ =>
       Raise (mkExc AttributeError "'list' object has no attribute 'message'");
     chat_email_body := fun _ _ =>
       Raise (mkExc AttributeError "'list' object has no attribute 'message'");
     format_float := fun spec _ => "{:" +:+ spec +:+ "}";
     tabulate_grid := fun _ => "" |}.

Definition no_file {A} : outcome A :=
  Raise (mkExc FileNotFoundError "[Errno 2] No such file or directory").

(** A world without spreadsheets: every load fails. *)
Definition world_without_files : World := world_of no_file no_file.

Definition alert_B1 : AlertRecord :=
  {| alert_BOL := "B1"; Customer := Some "Acme"; Facility := Some "Dallas DC";
     Alert_Type := Some "Late Pickup"; Material_Name := Some "Steel Coil";
     OTIF_Risk_Score := 9 # 10; Days_Left_for_Delivery := 1;
     Stop_Alert := Some "No"; User_Notes := None;
     Alert_Start_Date := Some "2024-01-16"; Carrier_Name_alert := Some "X" |}.

Definition alert_B2 : AlertRecord :=
  {| alert_BOL := "B2"; Customer := Some "Globex"; Facility := Some "Reno DC";
     Alert_Type := Some "Weather"; Material_Name := None;
     OTIF_Risk_Score := 75 # 100; Days_Left_for_Delivery := 4;
     Stop_Alert := Some "No"; User_Notes := None;
     Alert_Start_Date := Some "2024-01-15"; Carrier_Name_alert := Some "Y" |}.

Definition bol_B1 : BolRecord :=
  {| bol_BOL := "B1"; Carrier_Name_bol := Some "X"; Delivery_Status := Some "Delayed";
     No_of_Hours_Delayed := 20; User_Email_ID := Some "ops@acme.example" |}.

Definition bol_B2 : BolRecord :=
  {| bol_BOL := "B2"; Carrier_Name_bol := Some "Y"; Delivery_Status := Some "On Time";
     No_of_Hours_Delayed := 0; User_Email_ID := Some "ops@globex.example" |}.

(** A shipment whose carrier cell is empty in BOL.xlsx. *)
Definition bol_B1_no_carrier : BolRecord :=
  {| bol_BOL := "B1"; Carrier_Name_bol := None; Delivery_Status := Some "Delayed";
     No_of_Hours_Delayed := 20; User_Email_ID := Some "ops@acme.example" |}.

(** A loader that has loaded the given sheets. *)
Definition loaded (alerts : list AlertRecord) (bols : list BolRecord) : DataLoader.t :=
  {| DataLoader.alert_df := Some alerts;
     DataLoader.bol_df := Some bols;
     DataLoader.combined_df := Some (merge alerts bols) |}.

Definition sheets_world : World := world_of (Ret [alert_B1; alert_B2]) (Ret [bol_B1; bol_B2]).

(** The program state right after start: nothing loaded, nothing logged. *)
Definition fresh : Actions.Globals :=
  {| Actions.data_loader := DataLoader.init; Actions.self := Actions.init |}.

(** The program state once the two sample sheets are loaded. *)
Definition ready : Actions.Globals :=
  {| Actions.data_loader := loaded [alert_B1; alert_B2] [bol_B1; bol_B2];
     Actions.self := Actions.init |}.

(** The program once the two sample sheets are loaded, with an empty
    conversation of at most 100 messages. *)
Definition desk_app : Main.App :=
  {| Main.globals := ready;
     Main.memory := Memory.init "2024-01-16T09:00:00.000000" 100 |}.

(** Agents whose chat fails at once and changes nothing. *)
Definition chat_down : Main.Chat :=
  fun _ a => (a, Raise (mkExc OpenAIError "Connection error.")).

(** A generator that has saved nothing yet, and an empty disk. *)
Definition empty_desk : Report.Desk :=
  {| Report.generator := {| Report.report_count := 0 |}; Report.disk := ∅ |}.

End Fixtures.

(* ===================================================================== *)
(** * Facts about the Python fragment *)
(* ===================================================================== *)

Section SliceFacts.
Context {A : Type}.
Implicit Types l : list A.

Lemma slice_from_zero l : Py.slice_from 0 l = l.
Proof.
  unfold Py.slice_from. simpl.
  replace (Z.to_nat (Z.min 0 (Z.of_nat (length l)))) with 0%nat by lia.
  reflexivity.
Qed.

Lemma slice_from_neg l (n : Z) :
  1 <= n -> Py.slice_from (- n) l = Py.lastn (Z.to_nat n) l.
Proof.
  intros Hn. unfold Py.slice_from, Py.lastn.
  destruct (Z.ltb_spec (- n) 0) as [_|?]; [|lia].
  f_equal. lia.
Qed.

Lemma lastn_length l k : length (Py.lastn k l) = Nat.min k (length l).
Proof. unfold Py.lastn. rewrite length_drop. lia. Qed.

Lemma lastn_all l k : (length l <= k)%nat -> Py.lastn k l = l.
Proof.
  intros H. unfold Py.lastn.
  replace (length l - k)%nat with 0%nat by lia. reflexivity.
Qed.

End SliceFacts.

(* ===================================================================== *)
(** * The data loader *)
(* ===================================================================== *)

Section LoaderFacts.
Import DataLoader.
Variable w : World.

Lemma get_alert_data_inv ld ld' df :
  get_alert_data w ld = (ld', Ret df) -> alert_df ld' = Some df.
Proof.
  unfold get_alert_data, subscript_frame, bind, gets, ret, raise.
  destruct (alert_df ld) as [cur|] eqn:Hcur.
  - rewrite Hcur. intros [= <- <-]. assumption.
  - destruct (load_data w ld) as [ld1 [x|e]]; [|discriminate].
    destruct (alert_df ld1) eqn:H1; [|discriminate].
    intros [= <- <-]. assumption.
Qed.

Lemma get_alert_data_loaded ld df :
  alert_df ld = Some df -> get_alert_data w ld = (ld, Ret df).
Proof.
  intros H. unfold get_alert_data, subscript_frame, bind, gets, ret.
  rewrite H. rewrite H. reflexivity.
Qed.

Lemma get_combined_data_inv ld ld' df :
  get_combined_data w ld = (ld', Ret df) -> combined_df ld' = Some df.
Proof.
  unfold get_combined_data, subscript_frame, bind, gets, ret, raise.
  destruct (combined_df ld) as [cur|] eqn:Hcur.
  - rewrite Hcur. intros [= <- <-]. assumption.
  - destruct (load_data w ld) as [ld1 [x|e]]; [|discriminate].
    destruct (combined_df ld1) eqn:H1; [|discriminate].
    intros [= <- <-]. assumption.
Qed.

Lemma get_combined_data_loaded ld df :
  combined_df ld = Some df -> get_combined_data w ld = (ld, Ret df).
Proof.
  intros H. unfold get_combined_data, subscript_frame, bind, gets, ret.
  rewrite H. rewrite H. reflexivity.
Qed.

(** Asking for the view a second time changes nothing and returns the
    same frame. *)
Lemma get_combined_data_again ld ld' df :
  get_combined_data w ld = (ld', Ret df) -> get_combined_data w ld' = (ld', Ret df).
Proof. intros H. apply get_combined_data_loaded, (get_combined_data_inv _ _ _ H). Qed.

(** A successful load stores the two sheets and their inner join. *)
Lemma load_data_merge ld ld' a b c :
  load_data w ld = (ld', Ret (a, b, c)) ->
  c = merge a b /\ alert_df ld' = Some a /\ bol_df ld' = Some b
  /\ combined_df ld' = Some c.
Proof.
  unfold load_data, try_except, bind, eval, modify, ret, raise.
  destruct (read_alert_excel w) as [a'|e].
  - destruct (read_bol_excel w) as [b'|e].
    + intros [= <- <- <- <-]. auto.
    + destruct (exc_cls e); discriminate.
  - destruct (exc_cls e); discriminate.
Qed.

End LoaderFacts.

(* ===================================================================== *)
(** * The action executor *)
(* ===================================================================== *)

Section ActionFacts.
Import Actions.
Variable w : World.

Lemma try_except_run {S A} (body : M S A) (handler : exc -> M S A) (s : S) :
  try_except body handler s =
  match body s with
  | (s', Ret a) => (s', Ret a)
  | (s', Raise e) => handler e s'
  end.
Proof. reflexivity. Qed.

(** What the [try] block of [stop_alert] does, by cases on the alert
    table it obtains. *)
Lemma stop_alert_try_run bol reason g :
  stop_alert_try w bol reason g =
  match DataLoader.get_alert_data w (data_loader g) with
  | (ld', Ret df) =>
      if isin bol (map alert_BOL df) then
        ({| data_loader :=
              DataLoader.set_alert_df (loc_assign bol (set_Stop_Alert (Some "Yes")) df) ld';
            self := {| action_log := action_log (self g) ++
               [[("timestamp", VStr (now_isoformat w)); ("action", VStr "stop_alert");
                 ("bol", VStr bol); ("reason", VStr reason); ("success", VBool true)]] |} |},
         Ret [("success", VBool true);
              ("message", VStr ("Alert for BOL " +:+ bol +:+ " has been stopped"));
              ("bol", VStr bol); ("reason", VStr reason)])
      else ({| data_loader := ld'; self := self g |},
            Ret (failure ("BOL " +:+ bol +:+ " not found") bol))
  | (ld', Raise e) => ({| data_loader := ld'; self := self g |}, Raise e)
  end.
Proof.
  unfold stop_alert_try, bind, on_loader, zoom.
  destruct (DataLoader.get_alert_data w (data_loader g)) as [ld' [df|e]]; [|reflexivity].
  destruct (isin bol (map alert_BOL df)); reflexivity.
Qed.

Lemma add_note_try_run bol note g :
  add_note_try w bol note g =
  match DataLoader.get_alert_data w (data_loader g) with
  | (ld', Ret df) =>
      if isin bol (map alert_BOL df) then
        match note_present (loc_User_Notes bol df) with
        | Ret present =>
            ({| data_loader :=
                  DataLoader.set_alert_df
                    (loc_assign bol
                       (set_User_Notes (Some (written_note w bol note df present))) df) ld';
                self := {| action_log := action_log (self g) ++
                   [[("timestamp", VStr (now_isoformat w)); ("action", VStr "add_note");
                     ("bol", VStr bol); ("original_note", VStr note);
                     ("rephrased_note", VStr (rephrase_note_with_llm w note));
                     ("success", VBool true)]] |} |},
             Ret [("success", VBool true);
                  ("message", VStr ("Note added to BOL " +:+ bol));
                  ("bol", VStr bol); ("original_note", VStr note);
                  ("rephrased_note", VStr (rephrase_note_with_llm w note))])
        | Raise e => ({| data_loader := ld'; self := self g |}, Raise e)
        end
      else ({| data_loader := ld'; self := self g |},
            Ret (failure ("BOL " +:+ bol +:+ " not found") bol))
  | (ld', Raise e) => ({| data_loader := ld'; self := self g |}, Raise e)
  end.
Proof.
  unfold add_note_try, written_note, bind, on_loader, zoom, eval.
  destruct (DataLoader.get_alert_data w (data_loader g)) as [ld' [df|e]]; [|reflexivity].
  destruct (isin bol (map alert_BOL df)); [|reflexivity]. cbn.
  destruct (note_present (loc_User_Notes bol df)) as [[|]|e]; reflexivity.
Qed.

(** In [send_email_alert] the first read of the alert row raises, so the
    block ends there whenever the key is found. *)
Lemma send_email_alert_try_run bol escalate g :
  send_email_alert_try w bol escalate g =
  match DataLoader.get_combined_data w (data_loader g) with
  | (ld', Ret df) =>
      if isin bol (map BOL df) then
        ({| data_loader := ld'; self := self g |},
         Raise (mkExc TypeError "Cannot index by location index with a non-integer key"))
      else ({| data_loader := ld'; self := self g |},
            Ret (failure ("BOL " +:+ bol +:+ " not found") bol))
  | (ld', Raise e) => ({| data_loader := ld'; self := self g |}, Raise e)
  end.
Proof.
  unfold send_email_alert_try, bind, on_loader, zoom.
  destruct (DataLoader.get_combined_data w (data_loader g)) as [ld' [df|e]]; [|reflexivity].
  destruct (isin bol (map BOL df)); reflexivity.
Qed.

Lemma isin_true (v : string) (col : list string) : isin v col = true <-> v ∈ col.
Proof. unfold isin. apply bool_decide_eq_true. Qed.

Lemma isin_false (v : string) (col : list string) : isin v col = false <-> v ∉ col.
Proof. unfold isin. apply bool_decide_eq_false. Qed.

(** After [df.loc[df['BOL'] == bol, 'Stop_Alert'] = 'Yes'] every row with
    the key carries the flag, and the other rows are the old ones. *)
Lemma loc_assign_stop bol df r :
  r ∈ loc_assign bol (set_Stop_Alert (Some "Yes")) df ->
  (alert_BOL r = bol -> Stop_Alert r = Some "Yes")
  /\ (alert_BOL r <> bol -> r ∈ df).
Proof.
  unfold loc_assign. intros Hin. apply list_elem_of_fmap in Hin as [r0 [-> Hr0]].
  destruct (decide (alert_BOL r0 = bol)) as [Heq|Hne]; cbn.
  - split; [reflexivity|]. intros Hc. contradiction.
  - split; [intros Hc; contradiction|]. intros _. assumption.
Qed.

Lemma loc_assign_keys bol set_ df :
  (forall r, alert_BOL (set_ r) = alert_BOL r) ->
  map alert_BOL (loc_assign bol set_ df) = map alert_BOL df.
Proof.
  intros Hkey. unfold loc_assign. induction df as [|r df IH]; [reflexivity|].
  cbn. rewrite IH. f_equal. destruct (decide _); [apply Hkey|reflexivity].
Qed.

End ActionFacts.

(* ===================================================================== *)
(** * Conversation memory *)
(* ===================================================================== *)

Section MemoryFacts.
Import Memory.
Implicit Types self : ConversationMemory.

Lemma add_message_max now r c md self :
  max_messages (add_message now r c md self) = max_messages self.
Proof. reflexivity. Qed.

(** With a positive maximum, the log after [add_message] is the old log
    with the new message, cut down to its last [max_messages] entries. *)
Lemma add_message_messages now r c md self :
  0 < max_messages self ->
  messages (add_message now r c md self)
  = lastn (Z.to_nat (max_messages self))
      (messages self ++ [make_message now r c md]).
Proof.
  intros Hmax. unfold add_message. cbn [messages].
  destruct (Z.ltb_spec (max_messages self)
              (Z.of_nat (length (messages self ++ [make_message now r c md]))))
    as [Hlt|Hge].
  - apply slice_from_neg. lia.
  - symmetry. apply lastn_all. lia.
Qed.

(** With the maximum 0 nothing is ever evicted: [l[-0:]] is all of [l]. *)
Lemma add_message_max_zero now r c md self :
  max_messages self = 0 ->
  messages (add_message now r c md self) = messages self ++ [make_message now r c md].
Proof.
  intros Hz. unfold add_message. cbn [messages]. rewrite Hz.
  rewrite slice_from_zero. destruct (_ <? _); reflexivity.
Qed.

End MemoryFacts.




(** C10. For every [n >= 1], [get_recent_messages(n)] is the last
    [min(n, len)] messages in their order of arrival; for [n = 0] it is the
    whole log, not the empty list. *)
Theorem get_recent_messages_spec (self : Memory.ConversationMemory) (n : Z) :
  (1 <= n ->
     Memory.get_recent_messages n self
       = lastn (Nat.min (Z.to_nat n) (length (Memory.messages self))) (Memory.messages self)
     /\ length (Memory.get_recent_messages n self)
        = Nat.min (Z.to_nat n) (length (Memory.messages self)))
  /\ Memory.get_recent_messages 0 self = Memory.messages self.
Proof.
  split.
  - intros Hn. unfold Memory.get_recent_messages.
    rewrite slice_from_neg by assumption. split.
    + unfold lastn. f_equal. lia.
    + apply lastn_length.
  - unfold Memory.get_recent_messages. apply slice_from_zero.
Qed.

Lemma get_recent_messages_spec_witness :
  let self := Memory.add_message "t2" "assistant" "hi" None
                (Memory.add_message "t1" "user" "hello" None (Memory.init "t0" 5)) in
  Memory.get_recent_messages 1 self = [Memory.make_message "t2" "assistant" "hi" None]
  /\ Memory.get_recent_messages 0 self = Memory.messages self.
Proof.
  intros self.
  destruct (get_recent_messages_spec self 1) as [Hrecent Hzero].
  split; [|exact Hzero].
  destruct (Hrecent ltac:(lia)) as [Heq _]. exact Heq.
Defined.

(* ===================================================================== *)
(** * Actions: results, failures and the log *)
(* ===================================================================== *)

(** C5. Once the alert table is available, [stop_alert] on a key of the
    table sets [Stop_Alert] to ['Yes'] on the rows with that key, appends
    one entry with action ["stop_alert"] to the log and returns a success
    carrying the reason; on a key that is not in the table it returns the
    not-found failure and leaves the log as it was. *)
Theorem stop_alert_present_absent (w : World) (g : Actions.Globals)
    (bol reason : string) (ld' : DataLoader.t) (df : list AlertRecord)
    (Htable : DataLoader.get_alert_data w (Actions.data_loader g) = (ld', Ret df)) :
  (bol ∈ map alert_BOL df ->
     exists g' entry result,
       Actions.stop_alert w bol reason g = (g', Ret result)
       /\ DataLoader.alert_df (Actions.data_loader g')
          = Some (loc_assign bol (set_Stop_Alert (Some "Yes")) df)
       /\ (forall r, r ∈ loc_assign bol (set_Stop_Alert (Some "Yes")) df ->
             alert_BOL r = bol -> Stop_Alert r = Some "Yes")
       /\ Actions.action_log (Actions.self g')
          = Actions.action_log (Actions.self g) ++ [entry]
       /\ dict_get "action" entry = Some (VStr "stop_alert")
       /\ dict_get "bol" entry = Some (VStr bol)
       /\ dict_get "success" result = Some (VBool true)
       /\ dict_get "reason" result = Some (VStr reason))
  /\ (bol ∉ map alert_BOL df ->
     exists g',
       Actions.stop_alert w bol reason g
         = (g', Ret (Actions.failure ("BOL " +:+ bol +:+ " not found") bol))
       /\ DataLoader.alert_df (Actions.data_loader g') = Some df
       /\ Actions.action_log (Actions.self g') = Actions.action_log (Actions.self g)).
Proof.
  pose proof (get_alert_data_inv w _ _ _ Htable) as Hstored.
  split; intros Hbol.
  - apply isin_true in Hbol.
    unfold Actions.stop_alert. rewrite try_except_run, stop_alert_try_run, Htable, Hbol.
    do 3 eexists. split; [reflexivity|]. cbn.
    repeat split; try reflexivity.
    intros r Hr. apply (loc_assign_stop bol df r Hr).
  - apply isin_false in Hbol.
    unfold Actions.stop_alert. rewrite try_except_run, stop_alert_try_run, Htable, Hbol.
    eexists. split; [reflexivity|]. cbn. split; [assumption|reflexivity].
Qed.

Lemma stop_alert_present_absent_witness :
  exists g' entry result,
    Actions.stop_alert Fixtures.sheets_world "B1" "resolved" Fixtures.ready
      = (g', Ret result)
    /\ DataLoader.alert_df (Actions.data_loader g')
       = Some [set_Stop_Alert (Some "Yes") Fixtures.alert_B1; Fixtures.alert_B2]
    /\ Actions.action_log (Actions.self g') = [entry]
    /\ dict_get "action" entry = Some (VStr "stop_alert")
    /\ dict_get "reason" result = Some (VStr "resolved").
Proof.
  destruct (stop_alert_present_absent Fixtures.sheets_world Fixtures.ready
              "B1" "resolved" _ _ eq_refl) as [Hpresent _].
  destruct Hpresent as (g' & entry & result & Hrun & Htab & _ & Hlog & Hact & _ & _ & Hreason).
  - apply (bool_decide_unpack _). vm_compute. exact I.
  - exists g', entry, result. repeat split; assumption.
Defined.

(** The two ways a run can end, once it is reduced to a pair. *)
Ltac ends_logged :=
  do 2 eexists; split; [reflexivity|]; left; eexists; split; reflexivity.
Ltac ends_failed :=
  do 2 eexists; split; [reflexivity|]; right; eexists; split; reflexivity.

(** What an action can end with: a success that logged one more entry, or
    the failure dictionary with the log untouched.  It never ends with an
    exception. *)
Lemma action_run_cases w bol g run :
  action_run w bol g run ->
  exists g' d, run = (g', Ret d)
    /\ ((exists entry,
           dict_get "success" d = Some (VBool true)
           /\ Actions.action_log (Actions.self g')
              = Actions.action_log (Actions.self g) ++ [entry])
        \/ (exists msg,
              d = Actions.failure msg bol
              /\ Actions.action_log (Actions.self g')
                 = Actions.action_log (Actions.self g))).
Proof.
  intros [reason|note|escalate].
  - unfold Actions.stop_alert. rewrite try_except_run, stop_alert_try_run.
    destruct (DataLoader.get_alert_data w (Actions.data_loader g)) as [ld' [df|e]];
      [|ends_failed].
    destruct (isin bol (map alert_BOL df)); [ends_logged|ends_failed].
  - unfold Actions.add_note. rewrite try_except_run, add_note_try_run.
    destruct (DataLoader.get_alert_data w (Actions.data_loader g)) as [ld' [df|e]];
      [|ends_failed].
    destruct (isin bol (map alert_BOL df)); [|ends_failed].
    destruct (Actions.note_present (loc_User_Notes bol df)) as [present|e];
      [ends_logged|ends_failed].
  - unfold Actions.send_email_alert. rewrite try_except_run, send_email_alert_try_run.
    destruct (DataLoader.get_combined_data w (Actions.data_loader g)) as [ld' [df|e]];
      [|ends_failed].
    destruct (isin bol (map BOL df)); ends_failed.
Qed.

(** C6. Whatever the world, the state and the arguments, [stop_alert],
    [add_note] and [send_email_alert] return a dictionary and never end with
    an exception; an exception raised inside their [try] block becomes the
    result with [success] false, a message made of the action's prefix and
    the text of the exception, and the [bol]; and every result with
    [success] false has exactly these three entries. *)
Theorem actions_never_raise (w : World) (g : Actions.Globals)
    (bol reason note : string) (escalate : bool) :
  (exists g' d, Actions.stop_alert w bol reason g = (g', Ret d))
  /\ (exists g' d, Actions.add_note w bol note g = (g', Ret d))
  /\ (exists g' d, Actions.send_email_alert w bol escalate g = (g', Ret d))
  /\ (forall g' e, Actions.stop_alert_try w bol reason g = (g', Raise e) ->
        Actions.stop_alert w bol reason g
        = (g', Ret [("success", VBool false);
                    ("message", VStr ("Error stopping alert: " +:+ exc_str e));
                    ("bol", VStr bol)]))
  /\ (forall g' e, Actions.add_note_try w bol note g = (g', Raise e) ->
        Actions.add_note w bol note g
        = (g', Ret [("success", VBool false);
                    ("message", VStr ("Error adding note: " +:+ exc_str e));
                    ("bol", VStr bol)]))
  /\ (forall g' e, Actions.send_email_alert_try w bol escalate g = (g', Raise e) ->
        Actions.send_email_alert w bol escalate g
        = (g', Ret [("success", VBool false);
                    ("message", VStr ("Error sending email: " +:+ exc_str e));
                    ("bol", VStr bol)]))
  /\ (forall run g' d, action_run w bol g run -> run = (g', Ret d) ->
        dict_get "success" d = Some (VBool false) ->
        exists msg, d = [("success", VBool false); ("message", VStr msg);
                         ("bol", VStr bol)]).
Proof.
  repeat split.
  - destruct (action_run_cases w bol g _ (run_stop_alert w bol g reason))
      as (g' & d & Hrun & _). eauto.
  - destruct (action_run_cases w bol g _ (run_add_note w bol g note))
      as (g' & d & Hrun & _). eauto.
  - destruct (action_run_cases w bol g _ (run_send_email_alert w bol g escalate))
      as (g' & d & Hrun & _). eauto.
  - intros g' e Hbody. unfold Actions.stop_alert.
    rewrite try_except_run, Hbody. reflexivity.
  - intros g' e Hbody. unfold Actions.add_note.
    rewrite try_except_run, Hbody. reflexivity.
  - intros g' e Hbody. unfold Actions.send_email_alert.
    rewrite try_except_run, Hbody. reflexivity.
  - intros run g' d Hrun Heq Hfalse.
    destruct (action_run_cases w bol g run Hrun) as (g1 & d1 & Hrun1 & Hcases).
    rewrite Heq in Hrun1. injection Hrun1 as <- <-.
    destruct Hcases as [(entry & Htrue & _)|(msg & Hd & _)].
    + rewrite Htrue in Hfalse. discriminate.
    + exists msg. exact Hd.
Qed.

Lemma actions_never_raise_witness :
  Actions.stop_alert Fixtures.world_without_files "B1" "resolved" Fixtures.fresh
  = (Fixtures.fresh,
     Ret [("success", VBool false);
          ("message",
           VStr ("Error stopping alert: Data files not found. "
                 +:+ "Please ensure Alert.xlsx and BOL.xlsx are in the ./data folder."));
          ("bol", VStr "B1")])
  /\ Actions.send_email_alert Fixtures.sheets_world "B1" true Fixtures.ready
     = (Fixtures.ready,
        Ret [("success", VBool false);
             ("message",
              VStr "Error sending email: Cannot index by location index with a non-integer key");
             ("bol", VStr "B1")]).
Proof.
  split.
  - destruct (actions_never_raise Fixtures.world_without_files Fixtures.fresh
                "B1" "resolved" "" false) as (_ & _ & _ & Hstop & _).
    apply (Hstop Fixtures.fresh
             (mkExc FileNotFoundError
                ("Data files not found. "
                 +:+ "Please ensure Alert.xlsx and BOL.xlsx are in the ./data folder."))).
    reflexivity.
  - destruct (actions_never_raise Fixtures.sheets_world Fixtures.ready
                "B1" "" "" true) as (_ & _ & _ & _ & _ & Hmail & _).
    apply (Hmail Fixtures.ready
             (mkExc TypeError "Cannot index by location index with a non-integer key")).
    reflexivity.
Defined.

(** C9. When [stop_alert], [add_note] or [send_email_alert] returns a
    result with [success] false, the action log after the call is the log
    before it. *)
Theorem failed_action_keeps_log (w : World) (g g' : Actions.Globals)
    (bol reason note : string) (escalate : bool) (d : dict)
    (Hrun : Actions.stop_alert w bol reason g = (g', Ret d)
            \/ Actions.add_note w bol note g = (g', Ret d)
            \/ Actions.send_email_alert w bol escalate g = (g', Ret d))
    (Hfailed : dict_get "success" d = Some (VBool false)) :
  Actions.action_log (Actions.self g') = Actions.action_log (Actions.self g).
Proof.
  assert (exists run, action_run w bol g run /\ run = (g', Ret d)) as (run & Hact & Heq).
  { destruct Hrun as [H|[H|H]]; rewrite <- H; eexists; split; try reflexivity;
      constructor. }
  destruct (action_run_cases w bol g run Hact) as (g1 & d1 & Hrun1 & Hcases).
  rewrite Heq in Hrun1. injection Hrun1 as <- <-.
  destruct Hcases as [(entry & Htrue & _)|(msg & _ & Hlog)].
  - rewrite Htrue in Hfailed. discriminate.
  - exact Hlog.
Qed.

Lemma failed_action_keeps_log_witness :
  Actions.action_log
    (Actions.self (fst (Actions.add_note Fixtures.sheets_world "B9" "late" Fixtures.ready)))
  = Actions.action_log (Actions.self Fixtures.ready).
Proof.
  apply (failed_action_keeps_log Fixtures.sheets_world Fixtures.ready _
           "B9" "" "late" false (Actions.failure "BOL B9 not found" "B9")).
  - right. left. reflexivity.
  - reflexivity.
Defined.

(* ===================================================================== *)
(** * Notes *)
(* ===================================================================== *)

Section NoteFacts.
Import Actions.
Variable w : World.

Lemma loc_User_Notes_assign bol v df :
  loc_User_Notes bol (loc_assign bol (set_User_Notes v) df)
  = map (fun _ => v) (loc_User_Notes bol df).
Proof.
  unfold loc_User_Notes, loc_assign. induction df as [|r df IH]; [reflexivity|].
  cbn [map]. destruct (decide (alert_BOL r = bol)) as [Heq|Hne].
  - rewrite !filter_cons_True by (cbn; assumption). cbn. f_equal. exact IH.
  - rewrite !filter_cons_False by assumption. exact IH.
Qed.

Lemma loc_User_Notes_key bol df :
  loc_User_Notes bol df <> [] -> bol ∈ map alert_BOL df.
Proof.
  unfold loc_User_Notes. induction df as [|r df IH]; [intros H; contradiction|].
  intros H. cbn [map]. destruct (decide (alert_BOL r = bol)) as [Heq|Hne].
  - rewrite <- Heq. apply list_elem_of_here.
  - rewrite filter_cons_False in H by assumption.
    apply list_elem_of_further, IH, H.
Qed.

(** [add_note] on a key that names one row: the call succeeds and that
    row's note becomes [written_note], for the truth value of the old
    note. *)
Lemma add_note_single_row bol note g ld' df c :
  DataLoader.get_alert_data w (data_loader g) = (ld', Ret df) ->
  loc_User_Notes bol df = [c] ->
  exists g' result,
    add_note w bol note g = (g', Ret result)
    /\ dict_get "success" result = Some (VBool true)
    /\ DataLoader.alert_df (data_loader g')
       = Some (loc_assign bol
                 (set_User_Notes
                    (Some (written_note w bol note df (bool_decide (is_Some c) && cell_truth c))))
                 df)
    /\ loc_User_Notes bol
         (loc_assign bol
            (set_User_Notes
               (Some (written_note w bol note df (bool_decide (is_Some c) && cell_truth c))))
            df)
       = [Some (written_note w bol note df (bool_decide (is_Some c) && cell_truth c))].
Proof.
  intros Htable Hone.
  assert (isin bol (map alert_BOL df) = true) as Hin.
  { apply isin_true, loc_User_Notes_key. rewrite Hone. discriminate. }
  unfold add_note. rewrite try_except_run, add_note_try_run, Htable, Hin.
  unfold note_present. rewrite Hone. cbn [map ndarray_bool].
  rewrite loc_User_Notes_assign, Hone.
  destruct (bool_decide (is_Some c)); cbn [andb map];
    do 2 eexists; (split; [reflexivity|]); repeat split; reflexivity.
Qed.

(** First call: an empty note (a missing cell or the empty text) is
    replaced by the rephrased note. *)
Lemma add_note_on_empty bol note df c :
  loc_User_Notes bol df = [c] -> c = None \/ c = Some "" ->
  written_note w bol note df (bool_decide (is_Some c) && cell_truth c)
  = rephrase_note_with_llm w note.
Proof. intros _ [->| ->]; reflexivity. Qed.

(** Later call: the text in front of the separator is the printed form of
    the array holding the old note, brackets and quotes included. *)
Lemma add_note_on_prior bol note df prior :
  loc_User_Notes bol df = [Some prior] -> prior <> "" ->
  written_note w bol note df (bool_decide (is_Some (Some prior)) && cell_truth (Some prior))
  = ("[" +:+ repr prior +:+ "]") +:+ "; " +:+ rephrase_note_with_llm w note.
Proof.
  intros Hone Hne. unfold written_note, cell_truth.
  rewrite (bool_decide_eq_true_2 (is_Some (Some prior))) by eauto.
  rewrite (bool_decide_eq_false_2 (prior = "")) by assumption.
  cbn [andb negb]. unfold ndarray_str. rewrite Hone. reflexivity.
Qed.

End NoteFacts.

(** C2, on the sample sheets, where the note of "B1" is empty and the
    rephrasing falls back to the text as typed.  The first [add_note] stores
    the note itself.  The second stores the printed array of the first note,
    ["['called carrier']"], then ["; "], then the second note: not the first
    note followed by the separator and the second. *)
Theorem add_note_twice_on_sample :
  let w := Fixtures.sheets_world in
  exists g1 r1 g2 r2,
    Actions.add_note w "B1" "called carrier" Fixtures.ready = (g1, Ret r1)
    /\ dict_get "success" r1 = Some (VBool true)
    /\ DataLoader.alert_df (Actions.data_loader g1)
       = Some [set_User_Notes (Some "called carrier") Fixtures.alert_B1; Fixtures.alert_B2]
    /\ Actions.add_note w "B1" "eta friday" g1 = (g2, Ret r2)
    /\ dict_get "success" r2 = Some (VBool true)
    /\ DataLoader.alert_df (Actions.data_loader g2)
       = Some [set_User_Notes (Some "['called carrier']; eta friday") Fixtures.alert_B1;
               Fixtures.alert_B2]
    /\ "['called carrier']; eta friday" <> "called carrier" +:+ "; " +:+ "eta friday".
Proof.
  cbv zeta. do 4 eexists.
  split; [vm_compute; reflexivity|].
  split; [reflexivity|].
  split; [reflexivity|].
  split; [vm_compute; reflexivity|].
  split; [reflexivity|].
  split; [reflexivity|].
  discriminate.
Qed.

(* ===================================================================== *)
(** * Queries by customer, facility and date *)
(* ===================================================================== *)

Section DateFilterFacts.
Import Query.
Variable w : World.
Variables (customer facility : string) (by_customer by_facility : string -> bool).
Hypothesis Hcustomer : re_compile_ignorecase w customer = Ret by_customer.
Hypothesis Hfacility : re_compile_ignorecase w facility = Ret by_facility.

(** The rows kept by the customer and facility filters. *)
Let matching (df : list JoinedRow) : list JoinedRow :=
  filter (fun r =>
            match Customer (of_alert r) with Some t => by_customer t | None => false end
            && match Facility (of_alert r) with Some t => by_facility t | None => false end)
         df.

Lemma get_alerts_today date ld ld' df :
  DataLoader.get_combined_data w ld = (ld', Ret df) ->
  lower date = "today" ->
  get_alerts_by_customer_facility w customer facility date ld
  = (ld', Ret (filter (fun r => Alert_Start_Date (of_alert r)
                                = Some (now_strftime w "%Y-%m-%d"))
                      (matching df))).
Proof.
  intros Hview Hdate.
  unfold get_alerts_by_customer_facility, str_contains, bind, eval, ret.
  rewrite Hview, Hcustomer, Hfacility.
  rewrite decide_True by assumption. do 2 f_equal.
  apply list_filter_iff. intros r. unfold cell_eq.
  rewrite bool_decide_spec. reflexivity.
Qed.

Lemma get_alerts_yesterday date ld ld' df :
  DataLoader.get_combined_data w ld = (ld', Ret df) ->
  lower date = "yesterday" ->
  get_alerts_by_customer_facility w customer facility date ld
  = (ld', Ret (filter (fun r => Alert_Start_Date (of_alert r)
                                = Some (yesterday_strftime w "%Y-%m-%d"))
                      (matching df))).
Proof.
  intros Hview Hdate.
  unfold get_alerts_by_customer_facility, str_contains, bind, eval, ret.
  rewrite Hview, Hcustomer, Hfacility.
  rewrite decide_False by (rewrite Hdate; discriminate).
  rewrite decide_True by assumption. do 2 f_equal.
  apply list_filter_iff. intros r. unfold cell_eq.
  rewrite bool_decide_spec. reflexivity.
Qed.

(** Any other text, a date in ISO form included, selects no branch: the
    rows are those of the customer and facility filters, whatever their
    start date. *)
Lemma get_alerts_other_date date ld ld' df :
  DataLoader.get_combined_data w ld = (ld', Ret df) ->
  lower date <> "today" -> lower date <> "yesterday" ->
  get_alerts_by_customer_facility w customer facility date ld
  = (ld', Ret (matching df)).
Proof.
  intros Hview Hnt Hny.
  unfold get_alerts_by_customer_facility, str_contains, bind, eval, ret.
  rewrite Hview, Hcustomer, Hfacility.
  rewrite !decide_False by assumption. reflexivity.
Qed.

End DateFilterFacts.

(** C4, on the sample sheets.  Asked for customer "acme", facility
    "dallas" and the date "2024-01-15", the query returns the alert of
    "B1", whose start date is 2024-01-16: the ISO date does not filter.  Asked
    for "yesterday" on 2024-01-16, the same query returns nothing. *)
Theorem explicit_date_is_ignored_on_sample :
  let ld := Actions.data_loader Fixtures.ready in
  Query.get_alerts_by_customer_facility Fixtures.sheets_world "acme" "dallas" "2024-01-15" ld
  = (ld, Ret [mkJoined Fixtures.alert_B1 Fixtures.bol_B1])
  /\ Alert_Start_Date Fixtures.alert_B1 = Some "2024-01-16"
  /\ Query.get_alerts_by_customer_facility Fixtures.sheets_world "acme" "dallas" "yesterday" ld
     = (ld, Ret []).
Proof. cbv zeta. split; [|split]; vm_compute; reflexivity. Qed.

(* ===================================================================== *)
(** * Reports *)
(* ===================================================================== *)

Section ReportFacts.
Import Report.
Variable w : World.

(** The first percentage of the overview divides by the number of rows. *)
Lemma daily_summary_of_empty_view ld ld' :
  DataLoader.get_combined_data w ld = (ld', Ret []) ->
  generate_daily_alert_summary w ld
  = (ld', Raise (mkExc ZeroDivisionError "division by zero")).
Proof.
  intros Hview. unfold generate_daily_alert_summary, bind. rewrite Hview.
  reflexivity.
Qed.

(** With at least one row the summary is produced. *)
Lemma percent_of_positive spec a b :
  0 < b -> exists text, percent_of w spec a b = Ret text.
Proof.
  intros Hb. unfold percent_of, truediv.
  destruct (Z.eqb_spec b 0) as [->|_]; [lia|]. eauto.
Qed.

(** The detailed report, in contrast, answers an empty frame with a
    message. *)
Lemma detailed_report_of_empty_frame title :
  generate_detailed_alert_report w [] title
  = nl +:+ title +:+ nl +:+ repeat_string "=" 60 +:+ nl
    +:+ "No alerts found matching criteria." +:+ nl.
Proof. reflexivity. Qed.

End ReportFacts.

(** C1, evaluated on a loaded, empty view: in every world the daily
    summary ends with [ZeroDivisionError] and returns no message. *)
Theorem daily_summary_empty_view_raises (w : World) :
  Report.generate_daily_alert_summary w (Fixtures.loaded [] [])
  = (Fixtures.loaded [] [], Raise (mkExc ZeroDivisionError "division by zero")).
Proof. apply daily_summary_of_empty_view. reflexivity. Qed.

(* ===================================================================== *)
(** * Sorting and the risk filter *)
(* ===================================================================== *)

Section SortFacts.
Import Query.
Context {A : Type} (key : A -> Q).

Lemma descending_by_spec a b : descending_by key a b <-> (key b <= key a)%Q.
Proof. unfold descending_by. rewrite Is_true_true. apply Qle_bool_iff. Qed.

#[local] Instance descending_by_total : Total (descending_by key).
Proof.
  intros a b. rewrite !descending_by_spec.
  destruct (Qlt_le_dec (key a) (key b)) as [Hlt|Hle]; [right|left]; auto.
  apply Qlt_le_weak, Hlt.
Qed.

#[local] Instance descending_by_trans : Transitive (descending_by key).
Proof.
  intros a b c. rewrite !descending_by_spec. intros H1 H2.
  eapply Qle_trans; eassumption.
Qed.

Lemma StronglySorted_weaken (R1 R2 : relation A) l :
  (forall a b, R1 a b -> R2 a b) -> StronglySorted R1 l -> StronglySorted R2 l.
Proof.
  intros Himp. induction 1 as [|a l Hs IH Hall]; constructor; [assumption|].
  eapply Forall_impl; [exact Hall|]. intros b. apply Himp.
Qed.

Lemma sort_values_descending l :
  sort_values key false l ≡ₚ l
  /\ StronglySorted (fun a b => (key b <= key a)%Q) (sort_values key false l).
Proof.
  unfold sort_values. split.
  - apply merge_sort_Permutation.
  - eapply StronglySorted_weaken; [|apply StronglySorted_merge_sort; apply _].
    intros a b. apply descending_by_spec.
Qed.
End SortFacts.

Section RiskFacts.
Import Query.
Variable w : World.

Lemma high_risk_run t ld ld' df :
  DataLoader.get_combined_data w ld = (ld', Ret df) ->
  get_high_risk_alerts w t ld
  = (ld', Ret (sort_values risk false (filter (fun r => Qle_bool t (risk r)) df))).
Proof.
  intros H. unfold get_high_risk_alerts, bind. rewrite H. reflexivity.
Qed.

Lemma high_risk_sub t1 t2 df : (t1 <= t2)%Q ->
  filter (fun r => Qle_bool t2 (risk r)) df ⊆+ filter (fun r => Qle_bool t1 (risk r)) df.
Proof.
  intros Hle. induction df as [|r df IH]; [reflexivity|].
  rewrite !filter_cons.
  destruct (decide (Is_true (Qle_bool t2 (risk r)))) as [H2|H2],
           (decide (Is_true (Qle_bool t1 (risk r)))) as [H1|H1].
  - apply submseteq_skip, IH.
  - exfalso. apply H1. apply Is_true_true, Qle_bool_iff.
    apply Is_true_true, Qle_bool_iff in H2. eapply Qle_trans; eassumption.
  - apply submseteq_cons, IH.
  - exact IH.
Qed.
End RiskFacts.

(** C8. Once the view is available, [get_high_risk_alerts(t)] returns the
    rows of the view whose score is at least [t], each as often as the view
    has it, by decreasing score; and raising the threshold only removes
    rows: for [t1 <= t2] every row returned for [t2] is returned for
    [t1]. *)
Theorem high_risk_alerts_spec (w : World) (ld ld' : DataLoader.t) (df : list JoinedRow)
    (Hview : DataLoader.get_combined_data w ld = (ld', Ret df)) :
  (forall t, exists res,
      Query.get_high_risk_alerts w t ld = (ld', Ret res)
      /\ res ≡ₚ filter (fun r => Qle_bool t (Query.risk r)) df
      /\ (forall r, r ∈ res <-> r ∈ df /\ (t <= Query.risk r)%Q)
      /\ StronglySorted (fun a b => (Query.risk b <= Query.risk a)%Q) res)
  /\ (forall t1 t2 res1 res2, (t1 <= t2)%Q ->
        Query.get_high_risk_alerts w t1 ld = (ld', Ret res1) ->
        Query.get_high_risk_alerts w t2 ld = (ld', Ret res2) ->
        res2 ⊆+ res1 /\ forall r, r ∈ res2 -> r ∈ res1).
Proof.
  split.
  - intros t. eexists. split; [apply high_risk_run, Hview|].
    destruct (sort_values_descending Query.risk
                (filter (fun r => Qle_bool t (Query.risk r)) df)) as [Hperm Hsorted].
    split; [exact Hperm|]. split; [|exact Hsorted].
    intros r. rewrite Hperm, list_elem_of_filter, Is_true_true, Qle_bool_iff.
    tauto.
  - intros t1 t2 res1 res2 Hle H1 H2.
    rewrite (high_risk_run w t1 _ _ _ Hview) in H1.
    rewrite (high_risk_run w t2 _ _ _ Hview) in H2.
    injection H1 as <-. injection H2 as <-.
    assert (Query.sort_values Query.risk false
              (filter (fun r => Qle_bool t2 (Query.risk r)) df)
            ⊆+ Query.sort_values Query.risk false
              (filter (fun r => Qle_bool t1 (Query.risk r)) df)) as Hsub.
    { rewrite (proj1 (sort_values_descending Query.risk _)).
      rewrite (proj1 (sort_values_descending Query.risk _)).
      apply high_risk_sub, Hle. }
    split; [exact Hsub|]. intros r Hr. eapply elem_of_submseteq; eassumption.
Qed.

Lemma high_risk_alerts_spec_witness :
  let ld := Actions.data_loader Fixtures.ready in
  Query.get_high_risk_alerts Fixtures.sheets_world (7 # 10) ld
  = (ld, Ret [mkJoined Fixtures.alert_B1 Fixtures.bol_B1;
              mkJoined Fixtures.alert_B2 Fixtures.bol_B2])
  /\ Query.get_high_risk_alerts Fixtures.sheets_world (9 # 10) ld
     = (ld, Ret [mkJoined Fixtures.alert_B1 Fixtures.bol_B1])
  /\ [mkJoined Fixtures.alert_B1 Fixtures.bol_B1]
     ⊆+ [mkJoined Fixtures.alert_B1 Fixtures.bol_B1;
         mkJoined Fixtures.alert_B2 Fixtures.bol_B2].
Proof.
  intros ld.
  destruct (high_risk_alerts_spec Fixtures.sheets_world ld ld
              [mkJoined Fixtures.alert_B1 Fixtures.bol_B1;
               mkJoined Fixtures.alert_B2 Fixtures.bol_B2] eq_refl)
    as [_ Hmono].
  split; [reflexivity|]. split; [reflexivity|].
  apply (Hmono (7 # 10) (9 # 10))%Q; [|reflexivity..].
  unfold Qle. cbn. lia.
Defined.

(* ===================================================================== *)
(** * Carrier performance *)
(* ===================================================================== *)

Section GroupSizes.
Import Query.

Lemma sum_ints_perm l1 l2 : l1 ≡ₚ l2 -> sum_ints l1 = sum_ints l2.
Proof.
  unfold sum_ints. induction 1; cbn; try lia.
Qed.

(** The number of keys of a duplicate-free list that equal a given cell. *)
Lemma indicator_sum (keys : list string) (c : cell) :
  NoDup keys ->
  sum_ints (map (fun k => if decide (c = Some k) then 1 else 0) keys)
  = if decide (c ∈ map Some keys) then 1 else 0.
Proof.
  unfold sum_ints.
  induction 1 as [|k keys Hk Hnd IH]; cbn [map foldr].
  - rewrite decide_False; [reflexivity|]. intros Hin. inversion Hin.
  - rewrite IH. destruct (decide (c = Some k)) as [->|Hne].
    + rewrite decide_False.
      2:{ intros Hin. apply list_elem_of_fmap in Hin as (k' & [= <-] & Hin). contradiction. }
      rewrite decide_True; [reflexivity|]. left.
    + destruct (decide (c ∈ map Some keys)) as [Hin|Hnin].
      * rewrite decide_True; [reflexivity|]. right. assumption.
      * rewrite decide_False; [reflexivity|].
        intros Hin. inversion Hin; subst; [congruence|contradiction].
Qed.

Lemma group_cons r df key :
  group (r :: df) key = if decide (carrier r = Some key) then r :: group df key else group df key.
Proof. unfold group. rewrite filter_cons. reflexivity. Qed.

Lemma sum_ints_pointwise {A} (f g : A -> Z) l :
  sum_ints (map (fun k => f k + g k) l) = sum_ints (map f l) + sum_ints (map g l).
Proof. unfold sum_ints. induction l as [|x l IH]; cbn; [reflexivity|]. rewrite IH. lia. Qed.

Lemma group_sizes (keys : list string) (df : list JoinedRow) :
  NoDup keys ->
  (forall r c, r ∈ df -> carrier r = Some c -> c ∈ keys) ->
  sum_ints (map (fun k => agg_count (group df k)) keys)
  = Z.of_nat (length (filter has_carrier df)).
Proof.
  intros Hnd. induction df as [|r df IH]; intros Hcover.
  - clear Hnd Hcover. unfold sum_ints.
    induction keys as [|k keys IHk]; cbn; [reflexivity|exact IHk].
  - assert (forall r c, r ∈ df -> carrier r = Some c -> c ∈ keys) as Hcover'.
    { intros r0 c Hin. apply Hcover. right. assumption. }
    specialize (IH Hcover').
    rewrite (map_ext _ (fun k => (if decide (carrier r = Some k) then 1 else 0)
                                 + agg_count (group df k))).
    2:{ intros k. rewrite group_cons. unfold agg_count.
        destruct (decide (carrier r = Some k)); cbn [length]; lia. }
    rewrite sum_ints_pointwise, IH, indicator_sum by assumption.
    rewrite filter_cons.
    destruct (decide (has_carrier r)) as [Hp|Hnp],
             (decide (carrier r ∈ map Some keys)) as [Hin|Hnin]; cbn [length]; try lia.
    + exfalso. apply Hnin. destruct Hp as [c Hc]. rewrite Hc.
      apply list_elem_of_fmap. exists c. split; [reflexivity|].
      eapply Hcover; [left|exact Hc].
    + exfalso. apply Hnp. apply list_elem_of_fmap in Hin as (k & Hk & _).
      exists k. exact Hk.
Qed.
End GroupSizes.

Section CarrierFacts.
Import Query.

Lemma group_keys_perm df : group_keys df ≡ₚ remove_dups (omap carrier df).
Proof. apply merge_sort_Permutation. Qed.

Lemma group_keys_NoDup df : NoDup (group_keys df).
Proof. rewrite group_keys_perm. apply NoDup_remove_dups. Qed.

Lemma group_keys_elem df c :
  c ∈ group_keys df <-> exists r, r ∈ df /\ carrier r = Some c.
Proof.
  rewrite group_keys_perm, elem_of_remove_dups, list_elem_of_omap. reflexivity.
Qed.

Lemma carrier_of_row df key : Carrier (carrier_row df key) = key.
Proof. reflexivity. Qed.

Lemma agg_on_time_spec g :
  agg_on_time g
  = Z.of_nat (length (filter (fun r => Delivery_Status (of_bol r) = Some "On Time") g)).
Proof.
  unfold agg_on_time. do 2 f_equal. apply list_filter_iff.
  intros r. unfold cell_eq. rewrite bool_decide_spec. reflexivity.
Qed.

(** The rate of 23 on-time shipments of 80.  The exact value of
    [23 / 80 * 100] is 28.75, which rounds to 28.8; the float product is
    the float just below 28.75, and the rate is the float 28.7.  The
    scaling by 10 rounds as well: for 3 of 2000 the float product lies
    below 0.15, yet ten times it is the float 1.5, and the rate is 0.2. *)
Lemma on_time_rate_23_of_80 :
  (fmul (fdiv (float_of_int 23) (float_of_int 80)) (float_of_int 100) < 2875 # 100)%Q
  /\ on_time_rate 23 80 = f64 (287 # 10)
  /\ on_time_rate 23 80 <> f64 (288 # 10)
  /\ on_time_rate 1 2 = inject_Z 50
  /\ on_time_rate 1 3 = f64 (333 # 10)
  /\ (fmul (fdiv (float_of_int 3) (float_of_int 2000)) (float_of_int 100) < 15 # 100)%Q
  /\ on_time_rate 3 2000 = f64 (2 # 10).
Proof. repeat split; vm_compute; congruence. Qed.

Lemma carrier_performance_run w ld ld' df :
  DataLoader.get_combined_data w ld = (ld', Ret df) ->
  get_carrier_performance w ld
  = (ld', Ret (sort_values Avg_Delay_Hours false (map (carrier_row df) (group_keys df)))).
Proof. intros H. unfold get_carrier_performance, bind. rewrite H. reflexivity. Qed.

End CarrierFacts.

(** C3, as the code has it.  Once the view is available,
    [get_carrier_performance] returns one row per carrier named in the
    view.  For a carrier with [n] shipments of which [k] are "On Time" the
    row holds [n], [k] and the rate [(k / n * 100).round(1)] as floats
    compute it: the quotient and the product rounded to binary64, then
    numpy's rounding to one decimal; [n] is positive.  The shipment totals
    add up to the number of rows that name a carrier, which is the number
    of rows of the view when every row names one.  The rows come by
    decreasing mean delay. *)
Theorem carrier_performance_spec (w : World) (ld ld' : DataLoader.t)
    (df : list JoinedRow)
    (Hview : DataLoader.get_combined_data w ld = (ld', Ret df)) :
  exists stats,
    Query.get_carrier_performance w ld = (ld', Ret stats)
    /\ NoDup (map Query.Carrier stats)
    /\ (forall c, c ∈ map Query.Carrier stats
                  <-> exists r, r ∈ df /\ Query.carrier r = Some c)
    /\ (forall s, s ∈ stats ->
          let shipments := filter (fun r => Query.carrier r = Some (Query.Carrier s)) df in
          let on_time :=
            filter (fun r => Delivery_Status (of_bol r) = Some "On Time") shipments in
          Query.Total_Shipments s = Z.of_nat (length shipments)
          /\ 0 < Query.Total_Shipments s
          /\ Query.On_Time_Count s = Z.of_nat (length on_time)
          /\ Query.On_Time_Rate s
             = round1 (fmul (fdiv (float_of_int (Z.of_nat (length on_time)))
                                  (float_of_int (Z.of_nat (length shipments))))
                            (float_of_int 100))
          /\ Query.Avg_Delay_Hours s = Query.agg_mean shipments)
    /\ sum_ints (map Query.Total_Shipments stats)
       = Z.of_nat (length (filter Query.has_carrier df))
    /\ ((forall r, r ∈ df -> Query.has_carrier r) ->
        sum_ints (map Query.Total_Shipments stats) = Z.of_nat (length df))
    /\ StronglySorted
         (fun a b => (Query.Avg_Delay_Hours b <= Query.Avg_Delay_Hours a)%Q) stats.
Proof.
  eexists. split; [apply carrier_performance_run, Hview|].
  destruct (sort_values_descending Query.Avg_Delay_Hours
              (map (Query.carrier_row df) (Query.group_keys df))) as [Hperm Hsorted].
  assert (map Query.Carrier (map (Query.carrier_row df) (Query.group_keys df))
          = Query.group_keys df) as Hkeys.
  { rewrite map_map. apply map_id. }
  assert (sum_ints (map Query.Total_Shipments
            (Query.sort_values Query.Avg_Delay_Hours false
               (map (Query.carrier_row df) (Query.group_keys df))))
          = Z.of_nat (length (filter Query.has_carrier df))) as Hsum.
  { rewrite (sum_ints_perm _ (map Query.Total_Shipments
                                (map (Query.carrier_row df) (Query.group_keys df)))).
    2:{ apply Permutation_map, Hperm. }
    rewrite map_map. cbn [Query.Total_Shipments Query.carrier_row].
    apply group_sizes; [apply group_keys_NoDup|].
    intros r c Hr Hc. apply group_keys_elem. eauto. }
  split; [|split; [|split; [|split; [|split]]]].
  - rewrite (Permutation_map Query.Carrier Hperm), Hkeys. apply group_keys_NoDup.
  - intros c. rewrite (Permutation_map Query.Carrier Hperm), Hkeys.
    apply group_keys_elem.
  - intros s Hs. rewrite Hperm in Hs.
    apply list_elem_of_fmap in Hs as (key & -> & Hkey).
    cbn [Query.Carrier Query.carrier_row Query.Total_Shipments Query.On_Time_Count
         Query.On_Time_Rate Query.Avg_Delay_Hours].
    fold (Query.group df key). rewrite agg_on_time_spec. unfold Query.agg_count.
    repeat split.
    apply group_keys_elem in Hkey as (r & Hr & Hc).
    assert (r ∈ Query.group df key) as Hin.
    { unfold Query.group. apply list_elem_of_filter. auto. }
    destruct (Query.group df key); [inversion Hin|cbn [length]; lia].
  - exact Hsum.
  - intros Hall. rewrite Hsum. do 2 f_equal.
    clear -Hall. induction df as [|r df IH]; [reflexivity|].
    rewrite filter_cons, decide_True by (apply Hall; left).
    f_equal. apply IH. intros r0 Hr0. apply Hall. right. assumption.
  - exact Hsorted.
Qed.

Lemma carrier_performance_spec_witness :
  let ld := Actions.data_loader Fixtures.ready in
  exists stats,
    Query.get_carrier_performance Fixtures.sheets_world ld = (ld, Ret stats)
    /\ sum_ints (map Query.Total_Shipments stats) = 2.
Proof.
  intros ld.
  destruct (carrier_performance_spec Fixtures.sheets_world ld ld
              [mkJoined Fixtures.alert_B1 Fixtures.bol_B1;
               mkJoined Fixtures.alert_B2 Fixtures.bol_B2] eq_refl)
    as (stats & Hrun & _ & _ & _ & _ & Hall & _).
  exists stats. split; [exact Hrun|].
  apply Hall. intros r Hr.
  apply (Forall_forall Query.has_carrier
           [mkJoined Fixtures.alert_B1 Fixtures.bol_B1;
            mkJoined Fixtures.alert_B2 Fixtures.bol_B2]); [|exact Hr].
  apply (bool_decide_unpack _). vm_compute. exact I.
Defined.

(** A shipment without a carrier name belongs to no group: the totals add
    up to 0 while the view has one row. *)
Lemma carrier_totals_counterexample :
  let ld := Fixtures.loaded [Fixtures.alert_B1] [Fixtures.bol_B1_no_carrier] in
  DataLoader.get_combined_data Fixtures.sheets_world ld
  = (ld, Ret [mkJoined Fixtures.alert_B1 Fixtures.bol_B1_no_carrier])
  /\ Query.get_carrier_performance Fixtures.sheets_world ld = (ld, Ret [])
  /\ sum_ints (map Query.Total_Shipments [])
     <> Z.of_nat (length [mkJoined Fixtures.alert_B1 Fixtures.bol_B1_no_carrier]).
Proof. cbv zeta. split; [|split]; [vm_compute; reflexivity..|discriminate]. Qed.

(* ===================================================================== *)
(** * The loader: what [load_data] builds and what it leaves on failure *)
(* ===================================================================== *)

Section JoinFacts.

Lemma merge_elem a b r :
  r ∈ merge a b
  <-> of_alert r ∈ a /\ of_bol r ∈ b /\ bol_BOL (of_bol r) = alert_BOL (of_alert r).
Proof.
  unfold merge. rewrite list_elem_of_In, in_flat_map. split.
  - intros (x & Hx & Hr). apply list_elem_of_In in Hx.
    apply list_elem_of_In, list_elem_of_fmap in Hr as (y & -> & Hy).
    apply list_elem_of_filter in Hy as [Hkey Hy]. cbn. auto.
  - intros (Ha & Hb & Hkey). exists (of_alert r). split; [apply list_elem_of_In, Ha|].
    apply list_elem_of_In, list_elem_of_fmap. exists (of_bol r). split.
    + destruct r; reflexivity.
    + apply list_elem_of_filter. auto.
Qed.

Lemma merge_cons_l x a b :
  merge (x :: a) b
  = map (mkJoined x) (filter (fun y => bol_BOL y = alert_BOL x) b) ++ merge a b.
Proof. reflexivity. Qed.

Lemma key_filter_le_1 {A} (f : A -> string) (k : string) (l : list A) :
  NoDup (map f l) -> (length (filter (fun y => f y = k) l) <= 1)%nat.
Proof.
  induction l as [|y l IH]; cbn [map]; intros Hnd; [cbn; lia|].
  apply NoDup_cons in Hnd as [Hy Hnd]. rewrite filter_cons.
  destruct (decide (f y = k)) as [Hk|Hk]; [|auto].
  cbn [length]. assert (filter (fun y0 => f y0 = k) l = []) as ->; [|cbn; lia].
  destruct (filter (fun y0 => f y0 = k) l) as [|z rest] eqn:Hf; [reflexivity|].
  exfalso. apply Hy. assert (z ∈ filter (fun y0 => f y0 = k) l) as Hz.
  { rewrite Hf. left. }
  apply list_elem_of_filter in Hz as [Hzk Hz].
  apply list_elem_of_fmap. exists z. split; [congruence|assumption].
Qed.

Lemma merge_length_l a b :
  NoDup (map bol_BOL b) -> (length (merge a b) <= length a)%nat.
Proof.
  intros Hnd. induction a as [|x a IH]; [cbn; lia|].
  rewrite merge_cons_l, length_app, length_map. cbn [length].
  pose proof (key_filter_le_1 bol_BOL (alert_BOL x) b Hnd). lia.
Qed.

Lemma merge_cons_r a y b :
  length (merge a (y :: b))
  = (length (filter (fun x => alert_BOL x = bol_BOL y) a) + length (merge a b))%nat.
Proof.
  induction a as [|x a IH]; [reflexivity|].
  rewrite !merge_cons_l, !length_app, !length_map, IH, !filter_cons.
  destruct (decide (bol_BOL y = alert_BOL x)) as [Hk|Hk].
  - rewrite decide_True by congruence. cbn [length]. lia.
  - rewrite decide_False by congruence. lia.
Qed.

Lemma merge_length_r a b :
  NoDup (map alert_BOL a) -> (length (merge a b) <= length b)%nat.
Proof.
  intros Hnd. induction b as [|y b IH].
  - clear Hnd. induction a as [|x a IH]; [reflexivity|].
    rewrite merge_cons_l. cbn. exact IH.
  - rewrite merge_cons_r. cbn [length].
    pose proof (key_filter_le_1 alert_BOL (bol_BOL y) a Hnd). lia.
Qed.

End JoinFacts.

Section LoadFacts.
Import DataLoader.
Variable w : World.

(** With both sheets readable, [load_data] stores the two tables and their
    join, whatever was stored before. *)
Lemma load_data_ok ld a b :
  read_alert_excel w = Ret a -> read_bol_excel w = Ret b ->
  load_data w ld = ({| alert_df := Some a; bol_df := Some b;
                       combined_df := Some (merge a b) |}, Ret (a, b, merge a b)).
Proof.
  intros Ha Hb. unfold load_data, try_except, bind, eval, modify, ret.
  rewrite Ha, Hb. reflexivity.
Qed.

Lemma load_data_reads ld ld' a b c :
  load_data w ld = (ld', Ret (a, b, c)) ->
  read_alert_excel w = Ret a /\ read_bol_excel w = Ret b.
Proof.
  unfold load_data, try_except, bind, eval, modify, ret, raise.
  destruct (read_alert_excel w) as [a'|e].
  - destruct (read_bol_excel w) as [b'|e].
    + intros [= <- <- <- <-]. auto.
    + destruct (exc_cls e); discriminate.
  - destruct (exc_cls e); discriminate.
Qed.
(** The exception [load_data] raises when a read fails with [e]. *)
Lemma load_data_alert_failure ld e :
  read_alert_excel w = Raise e ->
  load_data w ld
  = (ld, Raise match exc_cls e with
               | FileNotFoundError =>
                   mkExc FileNotFoundError
                     ("Data files not found. Please ensure Alert.xlsx and BOL.xlsx "
                      +:+ "are in the " +:+ DATA_FOLDER w +:+ " folder.")
               | _ => mkExc Exception ("Error loading data: " +:+ exc_str e)
               end).
Proof.
  intros Ha. unfold load_data, try_except, bind, eval, raise.
  rewrite Ha. destruct e as [[] msg]; reflexivity.
Qed.

Lemma load_data_bol_failure ld a e :
  read_alert_excel w = Ret a -> read_bol_excel w = Raise e ->
  load_data w ld
  = ({| alert_df := Some a; bol_df := bol_df ld; combined_df := combined_df ld |},
     Raise match exc_cls e with
           | FileNotFoundError =>
               mkExc FileNotFoundError
                 ("Data files not found. Please ensure Alert.xlsx and BOL.xlsx "
                  +:+ "are in the " +:+ DATA_FOLDER w +:+ " folder.")
           | _ => mkExc Exception ("Error loading data: " +:+ exc_str e)
           end).
Proof.
  intros Ha Hb. unfold load_data, try_except, bind, eval, modify, raise.
  rewrite Ha, Hb. destruct e as [[] msg]; reflexivity.
Qed.
End LoadFacts.

(** X1. When [load_data] returns, the combined view it stores and returns
    is the inner join of the two sheets on [BOL]: a row is in the view
    exactly when its alert half is a row of the alert sheet, its BOL half
    a row of the BOL sheet, and the two carry the same key.  Alerts without
    a BOL record, and BOL records without an alert, do not appear. *)
Theorem load_data_inner_join (w : World) (ld ld' : DataLoader.t)
    (a : list AlertRecord) (b : list BolRecord) (c : list JoinedRow)
    (Hload : DataLoader.load_data w ld = (ld', Ret (a, b, c))) :
  DataLoader.combined_df ld' = Some c
  /\ (forall r, r ∈ c
        <-> of_alert r ∈ a /\ of_bol r ∈ b
            /\ bol_BOL (of_bol r) = alert_BOL (of_alert r)).
Proof.
  destruct (load_data_merge w _ _ _ _ _ Hload) as (-> & _ & _ & Hc).
  split; [exact Hc|]. intros r. apply merge_elem.
Qed.

Lemma load_data_inner_join_witness :
  exists ld',
    DataLoader.load_data Fixtures.sheets_world DataLoader.init
    = (ld', Ret ([Fixtures.alert_B1; Fixtures.alert_B2], [Fixtures.bol_B1; Fixtures.bol_B2],
                 [mkJoined Fixtures.alert_B1 Fixtures.bol_B1;
                  mkJoined Fixtures.alert_B2 Fixtures.bol_B2]))
    /\ DataLoader.combined_df ld'
       = Some [mkJoined Fixtures.alert_B1 Fixtures.bol_B1;
               mkJoined Fixtures.alert_B2 Fixtures.bol_B2].
Proof.
  eexists. split; [reflexivity|].
  apply (load_data_inner_join Fixtures.sheets_world DataLoader.init _ _ _ _ eq_refl).
Defined.

(** X2. The size of the combined view: when the keys of the BOL sheet are
    distinct the view has at most one row per alert, and when the keys of
    the alert sheet are distinct at most one row per BOL record. *)
Theorem load_data_view_size (w : World) (ld ld' : DataLoader.t)
    (a : list AlertRecord) (b : list BolRecord) (c : list JoinedRow)
    (Hload : DataLoader.load_data w ld = (ld', Ret (a, b, c))) :
  (NoDup (map bol_BOL b) -> (length c <= length a)%nat)
  /\ (NoDup (map alert_BOL a) -> (length c <= length b)%nat).
Proof.
  destruct (load_data_merge w _ _ _ _ _ Hload) as (-> & _).
  split; [apply merge_length_l|apply merge_length_r].
Qed.

Lemma load_data_view_size_witness :
  (length [mkJoined Fixtures.alert_B1 Fixtures.bol_B1;
           mkJoined Fixtures.alert_B2 Fixtures.bol_B2]
   <= length [Fixtures.alert_B1; Fixtures.alert_B2])%nat.
Proof.
  apply (load_data_view_size Fixtures.sheets_world DataLoader.init _ _
           [Fixtures.bol_B1; Fixtures.bol_B2] _ eq_refl).
  apply (bool_decide_unpack _). vm_compute. exact I.
Defined.

(** X3. A failed read is re-raised by [load_data]: as [FileNotFoundError]
    with the fixed message naming the data folder when the file is
    missing, otherwise as a plain [Exception] whose text is
    "Error loading data: " followed by the text of the cause.  When the
    alert sheet cannot be read the loader is left as it was; when only the
    BOL sheet cannot be read, the alert table has already been replaced
    and the other two attributes keep their old values. *)
Theorem load_data_failure_state (w : World) (ld : DataLoader.t) (e : exc) :
  let raised :=
    match exc_cls e with
    | FileNotFoundError =>
        mkExc FileNotFoundError
          ("Data files not found. Please ensure Alert.xlsx and BOL.xlsx "
           +:+ "are in the " +:+ DATA_FOLDER w +:+ " folder.")
    | _ => mkExc Exception ("Error loading data: " +:+ exc_str e)
    end in
  (read_alert_excel w = Raise e ->
     DataLoader.load_data w ld = (ld, Raise raised))
  /\ (forall a, read_alert_excel w = Ret a -> read_bol_excel w = Raise e ->
        DataLoader.load_data w ld
        = ({| DataLoader.alert_df := Some a;
              DataLoader.bol_df := DataLoader.bol_df ld;
              DataLoader.combined_df := DataLoader.combined_df ld |}, Raise raised)).
Proof.
  cbv zeta. split.
  - apply load_data_alert_failure.
  - intros a. apply load_data_bol_failure.
Qed.

Lemma load_data_failure_state_witness :
  DataLoader.load_data Fixtures.world_without_files DataLoader.init
  = (DataLoader.init,
     Raise (mkExc FileNotFoundError
              ("Data files not found. Please ensure Alert.xlsx and BOL.xlsx "
               +:+ "are in the ./data folder."))).
Proof.
  apply (load_data_failure_state Fixtures.world_without_files DataLoader.init
           (mkExc FileNotFoundError "[Errno 2] No such file or directory")).
  reflexivity.
Defined.

(** X4. With both sheets readable, [refresh_data] puts the loader in the
    same state whatever it held before: the tables as read and their join.
    Whatever an action had written into the alert table is gone. *)
Theorem refresh_data_discards_edits (w : World) (a : list AlertRecord)
    (b : list BolRecord)
    (Ha : read_alert_excel w = Ret a) (Hb : read_bol_excel w = Ret b) :
  forall ld,
    DataLoader.refresh_data w ld
    = ({| DataLoader.alert_df := Some a; DataLoader.bol_df := Some b;
          DataLoader.combined_df := Some (merge a b) |}, Ret tt).
Proof.
  intros ld. unfold DataLoader.refresh_data, bind.
  rewrite (load_data_ok w ld a b Ha Hb). reflexivity.
Qed.

Lemma refresh_data_discards_edits_witness :
  DataLoader.refresh_data Fixtures.sheets_world
    (Actions.data_loader
       (fst (Actions.stop_alert Fixtures.sheets_world "B1" "resolved" Fixtures.ready)))
  = (Actions.data_loader Fixtures.ready, Ret tt).
Proof.
  apply (refresh_data_discards_edits Fixtures.sheets_world _ _ eq_refl eq_refl).
Defined.

(** X5. A loader that has loaded nothing, in a world where the alert sheet
    can be read and the BOL sheet cannot: the first [get_alert_data]
    raises, yet it leaves the alert table stored, so that the next
    [get_alert_data] returns it without reading anything, while
    [get_combined_data] goes on raising the same exception. *)
Theorem half_loaded_loader (w : World) (ld : DataLoader.t) (a : list AlertRecord)
    (e : exc)
    (Hfresh : DataLoader.alert_df ld = None)
    (Hview : DataLoader.combined_df ld = None)
    (Ha : read_alert_excel w = Ret a) (Hb : read_bol_excel w = Raise e) :
  exists ld1 e1,
    DataLoader.get_alert_data w ld = (ld1, Raise e1)
    /\ DataLoader.get_alert_data w ld1 = (ld1, Ret a)
    /\ DataLoader.get_combined_data w ld1 = (ld1, Raise e1).
Proof.
  destruct ld as [al bo co]. cbn in Hfresh, Hview. subst al co.
  pose proof (load_data_bol_failure w (DataLoader.mk None bo None) a e Ha Hb) as Hfail.
  pose proof (load_data_bol_failure w (DataLoader.mk (Some a) bo None) a e Ha Hb)
    as Hfail2.
  cbn in Hfail, Hfail2.
  do 2 eexists. split; [|split].
  - unfold DataLoader.get_alert_data, bind, gets. cbn. unfold bind.
    rewrite Hfail. reflexivity.
  - apply get_alert_data_loaded. reflexivity.
  - unfold DataLoader.get_combined_data, bind, gets. cbn. unfold bind.
    rewrite Hfail2. reflexivity.
Qed.

Lemma half_loaded_loader_witness :
  let w := Fixtures.world_of (Ret [Fixtures.alert_B1]) Fixtures.no_file in
  exists ld1 e1,
    DataLoader.get_alert_data w DataLoader.init = (ld1, Raise e1)
    /\ DataLoader.get_alert_data w ld1 = (ld1, Ret [Fixtures.alert_B1])
    /\ DataLoader.get_combined_data w ld1 = (ld1, Raise e1).
Proof.
  intros w.
  apply (half_loaded_loader w DataLoader.init [Fixtures.alert_B1]
           (mkExc FileNotFoundError "[Errno 2] No such file or directory"));
    reflexivity.
Defined.

(* ===================================================================== *)
(** * The other queries of tools/query_functions.py *)
(* ===================================================================== *)

Section AscendingFacts.
Import Query.
Context {A : Type} (key : A -> Q).

Lemma ascending_by_spec a b : ascending_by key a b <-> (key a <= key b)%Q.
Proof. unfold ascending_by. rewrite Is_true_true. apply Qle_bool_iff. Qed.

#[local] Instance ascending_by_total : Total (ascending_by key).
Proof.
  intros a b. rewrite !ascending_by_spec.
  destruct (Qlt_le_dec (key a) (key b)) as [Hlt|Hle]; [left|right]; auto.
  apply Qlt_le_weak, Hlt.
Qed.

#[local] Instance ascending_by_trans : Transitive (ascending_by key).
Proof.
  intros a b c. rewrite !ascending_by_spec. intros H1 H2.
  eapply Qle_trans; eassumption.
Qed.

Lemma sort_values_ascending l :
  sort_values key true l ≡ₚ l
  /\ StronglySorted (fun a b => (key a <= key b)%Q) (sort_values key true l).
Proof.
  unfold sort_values. split.
  - apply merge_sort_Permutation.
  - eapply StronglySorted_weaken; [|apply StronglySorted_merge_sort; apply _].
    intros a b. apply ascending_by_spec.
Qed.
End AscendingFacts.

Section ThresholdFacts.
Context {A : Type}.

(** Tightening a filter keeps a sub-multiset. *)
Lemma filter_submseteq (P Q : A -> Prop) `{!forall x, Decision (P x)}
    `{!forall x, Decision (Q x)} (l : list A) :
  (forall x, P x -> Q x) -> filter P l ⊆+ filter Q l.
Proof.
  intros Himp. induction l as [|x l IH]; [reflexivity|].
  rewrite !filter_cons.
  destruct (decide (P x)) as [Hp|Hp], (decide (Q x)) as [Hq|Hq].
  - apply submseteq_skip, IH.
  - exfalso. auto.
  - apply submseteq_cons, IH.
  - exact IH.
Qed.
End ThresholdFacts.

Section QueriesFacts.
Import Queries.
Variable w : World.

Lemma delayed_run h ld ld' df :
  DataLoader.get_combined_data w ld = (ld', Ret df) ->
  get_delayed_bols w h ld
  = (ld', Ret (Query.sort_values (fun r => inject_Z (delay r)) false
                 (filter (fun r => h <? delay r) df))).
Proof. intros H. unfold get_delayed_bols, bind. rewrite H. reflexivity. Qed.

Lemma days_left_run d ld ld' df :
  DataLoader.get_combined_data w ld = (ld', Ret df) ->
  get_alerts_by_days_left w d ld
  = (ld', Ret (Query.sort_values (fun r => inject_Z (days_left r)) true
                 (filter (fun r => days_left r <=? d) df))).
Proof. intros H. unfold get_alerts_by_days_left, bind. rewrite H. reflexivity. Qed.
End QueriesFacts.

(** X6. Once the combined view is available, [get_delayed_bols] returns,
    for every threshold, the rows delayed by strictly more than the
    threshold (each as often as in the view), ordered by decreasing delay;
    the loader is not changed.  Raising the threshold can only remove
    rows. *)
Theorem delayed_bols_spec (w : World) (ld ld' : DataLoader.t) (df : list JoinedRow)
    (Hview : DataLoader.get_combined_data w ld = (ld', Ret df)) :
  (forall h, exists res,
      Queries.get_delayed_bols w h ld = (ld', Ret res)
      /\ res ≡ₚ filter (fun r => h < Queries.delay r) df
      /\ StronglySorted (fun a b => Queries.delay b <= Queries.delay a) res)
  /\ (forall h1 h2 res1 res2, h1 <= h2 ->
        Queries.get_delayed_bols w h1 ld = (ld', Ret res1) ->
        Queries.get_delayed_bols w h2 ld = (ld', Ret res2) ->
        res2 ⊆+ res1).
Proof.
  split.
  - intros h. eexists. split; [apply delayed_run, Hview|].
    destruct (sort_values_descending (fun r => inject_Z (Queries.delay r))
                (filter (fun r => h <? Queries.delay r) df)) as [Hperm Hsorted].
    split.
    + rewrite Hperm. erewrite list_filter_iff; [reflexivity|].
      intros r. rewrite Is_true_true. apply Z.ltb_lt.
    + eapply StronglySorted_weaken; [|exact Hsorted].
      intros a b. cbn. rewrite <- Zle_Qle. auto.
  - intros h1 h2 res1 res2 Hle H1 H2.
    rewrite (delayed_run w h1 _ _ _ Hview) in H1.
    rewrite (delayed_run w h2 _ _ _ Hview) in H2.
    injection H1 as <-. injection H2 as <-.
    rewrite !merge_sort_Permutation.
    apply filter_submseteq. intros r. rewrite !Is_true_true, !Z.ltb_lt. lia.
Qed.

(** X7. Once the combined view is available, [get_alerts_by_days_left]
    returns the rows with at most [max_days] days left, the bound
    included, ordered by increasing days left; raising the bound can only
    add rows. *)
Theorem alerts_by_days_left_spec (w : World) (ld ld' : DataLoader.t)
    (df : list JoinedRow)
    (Hview : DataLoader.get_combined_data w ld = (ld', Ret df)) :
  (forall d, exists res,
      Queries.get_alerts_by_days_left w d ld = (ld', Ret res)
      /\ res ≡ₚ filter (fun r => Queries.days_left r <= d) df
      /\ StronglySorted (fun a b => Queries.days_left a <= Queries.days_left b) res)
  /\ (forall d1 d2 res1 res2, d1 <= d2 ->
        Queries.get_alerts_by_days_left w d1 ld = (ld', Ret res1) ->
        Queries.get_alerts_by_days_left w d2 ld = (ld', Ret res2) ->
        res1 ⊆+ res2).
Proof.
  split.
  - intros d. eexists. split; [apply days_left_run, Hview|].
    destruct (sort_values_ascending (fun r => inject_Z (Queries.days_left r))
                (filter (fun r => Queries.days_left r <=? d) df)) as [Hperm Hsorted].
    split.
    + rewrite Hperm. erewrite list_filter_iff; [reflexivity|].
      intros r. rewrite Is_true_true. apply Z.leb_le.
    + eapply StronglySorted_weaken; [|exact Hsorted].
      intros a b. cbn. rewrite <- Zle_Qle. auto.
  - intros d1 d2 res1 res2 Hle H1 H2.
    rewrite (days_left_run w d1 _ _ _ Hview) in H1.
    rewrite (days_left_run w d2 _ _ _ Hview) in H2.
    injection H1 as <-. injection H2 as <-.
    rewrite !merge_sort_Permutation.
    apply filter_submseteq. intros r. rewrite !Is_true_true, !Z.leb_le. lia.
Qed.

Lemma delayed_bols_spec_witness :
  let ld := Actions.data_loader Fixtures.ready in
  Queries.get_delayed_bols Fixtures.sheets_world 12 ld
  = (ld, Ret [mkJoined Fixtures.alert_B1 Fixtures.bol_B1])
  /\ [mkJoined Fixtures.alert_B1 Fixtures.bol_B1]
     ⊆+ [mkJoined Fixtures.alert_B1 Fixtures.bol_B1].
Proof.
  intros ld. split; [reflexivity|].
  destruct (delayed_bols_spec Fixtures.sheets_world ld ld
              [mkJoined Fixtures.alert_B1 Fixtures.bol_B1;
               mkJoined Fixtures.alert_B2 Fixtures.bol_B2] eq_refl) as [_ Hmono].
  apply (Hmono 0 12); [lia|reflexivity..].
Defined.

Lemma alerts_by_days_left_spec_witness :
  let ld := Actions.data_loader Fixtures.ready in
  [mkJoined Fixtures.alert_B1 Fixtures.bol_B1]
  ⊆+ [mkJoined Fixtures.alert_B1 Fixtures.bol_B1;
      mkJoined Fixtures.alert_B2 Fixtures.bol_B2].
Proof.
  intros ld.
  destruct (alerts_by_days_left_spec Fixtures.sheets_world ld ld
              [mkJoined Fixtures.alert_B1 Fixtures.bol_B1;
               mkJoined Fixtures.alert_B2 Fixtures.bol_B2] eq_refl) as [_ Hmono].
  apply (Hmono 2 5); [lia|reflexivity..].
Defined.

Section TextFacts.
Import Queries.
Variable w : World.

Lemma found_spec search c :
  match c with Some text => search text | None => false end = true <-> Queries.found search c.
Proof.
  unfold found. destruct c as [text|]; split.
  - eauto.
  - intros (t & [= <-] & H). exact H.
  - discriminate.
  - intros (t & H & _). discriminate.
Qed.
End TextFacts.

(** X8. [get_alerts_by_type] on a view whose [Alert_Type] column holds a
    text on some row: when the pattern compiles, the result is the rows
    of the view, in the order of the view, whose [Alert_Type] is a text
    the pattern is found in (a missing type never matches); when the
    pattern does not compile, the error of the regular-expression
    compiler is raised to the caller.  (A column without any text is a
    float column for pandas and makes [.str] raise; such views are not
    covered.) *)
Theorem alerts_by_type_spec (w : World) (ld ld' : DataLoader.t) (df : list JoinedRow)
    (alert_type : string)
    (Hview : DataLoader.get_combined_data w ld = (ld', Ret df))
    (Htext : Queries.has_text (fun r => Alert_Type (of_alert r)) df) :
  (forall search, re_compile_ignorecase w alert_type = Ret search ->
     exists res,
       Queries.get_alerts_by_type w alert_type ld = (ld', Ret res)
       /\ res `sublist_of` df
       /\ (forall r, r ∈ res <-> r ∈ df /\ Queries.found search (Alert_Type (of_alert r))))
  /\ (forall e, re_compile_ignorecase w alert_type = Raise e ->
        Queries.get_alerts_by_type w alert_type ld = (ld', Raise e)).
Proof.
  split.
  - intros search Hc. eexists. split.
    + unfold Queries.get_alerts_by_type, Query.str_contains, bind, eval, ret.
      rewrite Hview, Hc. reflexivity.
    + split; [apply sublist_filter|].
      intros r. rewrite list_elem_of_filter, Is_true_true, found_spec. tauto.
  - intros e Hc.
    unfold Queries.get_alerts_by_type, Query.str_contains, bind, eval, ret.
    rewrite Hview, Hc. reflexivity.
Qed.

Lemma alerts_by_type_spec_witness :
  let ld := Actions.data_loader Fixtures.ready in
  exists res,
    Queries.get_alerts_by_type Fixtures.sheets_world "weather" ld = (ld, Ret res)
    /\ res `sublist_of` [mkJoined Fixtures.alert_B1 Fixtures.bol_B1;
                         mkJoined Fixtures.alert_B2 Fixtures.bol_B2].
Proof.
  intros ld.
  destruct (alerts_by_type_spec Fixtures.sheets_world ld ld
              [mkJoined Fixtures.alert_B1 Fixtures.bol_B1;
               mkJoined Fixtures.alert_B2 Fixtures.bol_B2] "weather" eq_refl)
    as [Hok _].
  { exists (mkJoined Fixtures.alert_B1 Fixtures.bol_B1). split; [left|cbn; eauto]. }
  destruct (Hok _ eq_refl) as (res & Hrun & Hsub & _).
  exists res. split; assumption.
Defined.

(** X9. On a view in which each of the four searched columns holds a
    text on some row, [search_alerts] keeps, in the order of the view,
    the rows where the pattern is found in the customer, the facility,
    the alert type or the material name; every row that
    [get_alerts_by_type] returns for the same text is among them, in the
    same order.  (A searched column without any text is a float column
    for pandas and makes [.str] raise; such views are not covered.) *)
Theorem search_alerts_spec (w : World) (ld ld' : DataLoader.t) (df : list JoinedRow)
    (query_text : string) (search : string -> bool)
    (Hview : DataLoader.get_combined_data w ld = (ld', Ret df))
    (Hcustomer : Queries.has_text (fun r => Customer (of_alert r)) df)
    (Hfacility : Queries.has_text (fun r => Facility (of_alert r)) df)
    (Htype : Queries.has_text (fun r => Alert_Type (of_alert r)) df)
    (Hmaterial : Queries.has_text (fun r => Material_Name (of_alert r)) df)
    (Hc : re_compile_ignorecase w query_text = Ret search) :
  exists res by_type,
    Queries.search_alerts w query_text ld = (ld', Ret res)
    /\ Queries.get_alerts_by_type w query_text ld = (ld', Ret by_type)
    /\ res `sublist_of` df
    /\ (forall r, r ∈ res
          <-> r ∈ df
              /\ (Queries.found search (Customer (of_alert r))
                  \/ Queries.found search (Facility (of_alert r))
                  \/ Queries.found search (Alert_Type (of_alert r))
                  \/ Queries.found search (Material_Name (of_alert r))))
    /\ by_type `sublist_of` res.
Proof.
  do 2 eexists. split; [|split].
  - unfold Queries.search_alerts, Query.str_contains, bind, eval, ret.
    rewrite Hview, Hc. reflexivity.
  - unfold Queries.get_alerts_by_type, Query.str_contains, bind, eval, ret.
    rewrite Hview, Hc. reflexivity.
  - split; [apply sublist_filter|]. split.
    + intros r. rewrite list_elem_of_filter, Is_true_true, !orb_true_iff, !found_spec.
      tauto.
    + clear Hview Hcustomer Hfacility Htype Hmaterial.
      induction df as [|r df IH]; [reflexivity|].
      rewrite !filter_cons.
      destruct (decide (Is_true (match Alert_Type (of_alert r) with
                                 | Some text => search text | None => false end)))
        as [Ht|Ht].
      * rewrite decide_True.
        -- apply sublist_skip, IH.
        -- apply Is_true_true. apply Is_true_true in Ht. rewrite Ht.
           rewrite !orb_true_r. reflexivity.
      * destruct (decide _); [apply sublist_cons|]; exact IH.
Qed.

Lemma search_alerts_spec_witness :
  let ld := Actions.data_loader Fixtures.ready in
  exists res by_type,
    Queries.search_alerts Fixtures.sheets_world "steel" ld = (ld, Ret res)
    /\ Queries.get_alerts_by_type Fixtures.sheets_world "steel" ld = (ld, Ret by_type)
    /\ by_type `sublist_of` res.
Proof.
  intros ld.
  assert (forall column, is_Some (column Fixtures.alert_B1) ->
            Queries.has_text (fun r => column (of_alert r))
              [mkJoined Fixtures.alert_B1 Fixtures.bol_B1;
               mkJoined Fixtures.alert_B2 Fixtures.bol_B2]) as Hsample.
  { intros column Hsome. exists (mkJoined Fixtures.alert_B1 Fixtures.bol_B1).
    split; [left|exact Hsome]. }
  destruct (search_alerts_spec Fixtures.sheets_world ld ld
              [mkJoined Fixtures.alert_B1 Fixtures.bol_B1;
               mkJoined Fixtures.alert_B2 Fixtures.bol_B2] "steel" _ eq_refl
              (Hsample Customer ltac:(cbn; eauto))
              (Hsample Facility ltac:(cbn; eauto))
              (Hsample Alert_Type ltac:(cbn; eauto))
              (Hsample Material_Name ltac:(cbn; eauto)) eq_refl)
    as (res & by_type & Hrun & Hbytype & _ & _ & Hsub).
  exists res, by_type. repeat split; assumption.
Defined.

(** X11. On a view whose [Customer] and [Facility] columns each hold a
    text on some row, and whatever the date argument,
    [get_alerts_by_customer_facility] returns rows of the view, in the
    order of the view, and every row it returns matches both the customer
    and the facility pattern; a pattern that does not compile makes it
    raise, the customer pattern first.  (A column without any text is a
    float column for pandas and makes [.str] raise; such views are not
    covered.) *)
Theorem alerts_by_customer_facility_rows (w : World) (ld ld' : DataLoader.t)
    (df : list JoinedRow) (customer facility date : string)
    (Hview : DataLoader.get_combined_data w ld = (ld', Ret df))
    (Hcustomer : Queries.has_text (fun r => Customer (of_alert r)) df)
    (Hfacility : Queries.has_text (fun r => Facility (of_alert r)) df) :
  (forall sc sf, re_compile_ignorecase w customer = Ret sc ->
     re_compile_ignorecase w facility = Ret sf ->
     exists res,
       Query.get_alerts_by_customer_facility w customer facility date ld = (ld', Ret res)
       /\ res `sublist_of` df
       /\ (forall r, r ∈ res ->
             Queries.found sc (Customer (of_alert r)) /\ Queries.found sf (Facility (of_alert r))))
  /\ (forall e, re_compile_ignorecase w customer = Raise e ->
        Query.get_alerts_by_customer_facility w customer facility date ld
        = (ld', Raise e))
  /\ (forall sc e, re_compile_ignorecase w customer = Ret sc ->
        re_compile_ignorecase w facility = Raise e ->
        Query.get_alerts_by_customer_facility w customer facility date ld
        = (ld', Raise e)).
Proof.
  split; [|split].
  - intros sc sf Hc Hf.
    assert (forall r, r ∈ filter (fun r : JoinedRow =>
               match Customer (of_alert r) with Some t => sc t | None => false end
               && match Facility (of_alert r) with Some t => sf t | None => false end) df ->
             Queries.found sc (Customer (of_alert r)) /\ Queries.found sf (Facility (of_alert r))) as Hrows.
    { intros r Hr. apply list_elem_of_filter in Hr as [Hm _].
      apply Is_true_true, andb_true_iff in Hm. rewrite !found_spec in Hm. exact Hm. }
    unfold Query.get_alerts_by_customer_facility, Query.str_contains, bind, eval, ret.
    rewrite Hview, Hc, Hf.
    destruct (decide (lower date = "today")); [|destruct (decide (lower date = "yesterday"))];
      eexists; (split; [reflexivity|]); split.
    + etransitivity; apply sublist_filter.
    + intros r Hr. apply list_elem_of_filter in Hr as [_ Hr]. auto.
    + etransitivity; apply sublist_filter.
    + intros r Hr. apply list_elem_of_filter in Hr as [_ Hr]. auto.
    + apply sublist_filter.
    + exact Hrows.
  - intros e Hc.
    unfold Query.get_alerts_by_customer_facility, Query.str_contains, bind, eval, ret.
    rewrite Hview, Hc. reflexivity.
  - intros sc e Hc Hf.
    unfold Query.get_alerts_by_customer_facility, Query.str_contains, bind, eval, ret.
    rewrite Hview, Hc, Hf. reflexivity.
Qed.

Lemma alerts_by_customer_facility_rows_witness :
  let ld := Actions.data_loader Fixtures.ready in
  exists res,
    Query.get_alerts_by_customer_facility Fixtures.sheets_world "acme" "dallas" "Today" ld
    = (ld, Ret res)
    /\ res `sublist_of` [mkJoined Fixtures.alert_B1 Fixtures.bol_B1;
                         mkJoined Fixtures.alert_B2 Fixtures.bol_B2].
Proof.
  intros ld.
  destruct (alerts_by_customer_facility_rows Fixtures.sheets_world ld ld
              [mkJoined Fixtures.alert_B1 Fixtures.bol_B1;
               mkJoined Fixtures.alert_B2 Fixtures.bol_B2] "acme" "dallas" "Today" eq_refl)
    as [Hok _].
  { exists (mkJoined Fixtures.alert_B1 Fixtures.bol_B1). split; [left|cbn; eauto]. }
  { exists (mkJoined Fixtures.alert_B1 Fixtures.bol_B1). split; [left|cbn; eauto]. }
  destruct (Hok _ _ eq_refl eq_refl) as (res & Hrun & Hsub & _).
  exists res. split; assumption.
Defined.

(* ===================================================================== *)
(** * Counting by value, and the daily summary on a view with rows *)
(* ===================================================================== *)

Section CountFacts.
Context {A : Type} `{EqDecision A}.

(** Counting a list value by value, over distinct values that cover it,
    counts every element once. *)
Lemma count_by_value (keys l : list A) :
  NoDup keys -> (forall x, x ∈ l -> x ∈ keys) ->
  sum_ints (map (fun k => Z.of_nat (length (filter (fun x => x = k) l))) keys)
  = Z.of_nat (length l).
Proof.
  intros Hnd. induction l as [|x l IH]; intros Hcover.
  - clear. unfold sum_ints. induction keys as [|k keys IHk]; cbn; [reflexivity|exact IHk].
  - assert (forall y, y ∈ l -> y ∈ keys) as Hcover' by (intros y Hy; apply Hcover; right; exact Hy).
    specialize (IH Hcover').
    assert (x ∈ keys) as Hx by (apply Hcover; left).
    rewrite (map_ext _ (fun k => (if decide (x = k) then 1 else 0)
                                 + Z.of_nat (length (filter (fun y => y = k) l)))).
    2:{ intros k. rewrite filter_cons. destruct (decide (x = k)); cbn [length]; lia. }
    rewrite sum_ints_pointwise, IH. cbn [length].
    assert (sum_ints (map (fun k => if decide (x = k) then 1 else 0) keys) = 1) as ->; [|lia].
    clear -Hnd Hx. unfold sum_ints.
    induction Hnd as [|k keys Hk Hnd IHn]; [inversion Hx|].
    cbn [map foldr]. destruct (decide (x = k)) as [->|Hne].
    + assert (foldr Z.add 0 (map (fun k0 => if decide (k = k0) then 1 else 0) keys) = 0) as ->;
        [|lia].
      clear -Hk. induction keys as [|k0 keys IHk]; [reflexivity|].
      cbn [map foldr]. rewrite decide_False, IHk; [lia| |].
      * intros Hin. apply Hk. right. exact Hin.
      * intros ->. apply Hk. left.
    + rewrite IHn; [lia|]. inversion Hx; subst; [contradiction|assumption].
Qed.
End CountFacts.

Lemma length_filter_map {A B} (f : A -> B) (P : B -> Prop)
    `{!forall y, Decision (P y)} (l : list A) :
  length (filter P (map f l)) = length (filter (fun x => P (f x)) l).
Proof.
  induction l as [|a l IH]; [reflexivity|].
  cbn [map]. rewrite !filter_cons.
  destruct (decide (P (f a))); cbn [length]; congruence.
Qed.

Section ValueCountsFacts.
Import Report.

Lemma present_count (column : list cell) (v : string) :
  length (filter (fun x => x = v) (omap id column))
  = length (filter (fun c => c = Some v) column).
Proof.
  induction column as [|c column IH]; [reflexivity|].
  rewrite filter_cons. destruct c as [x|].
  - change (omap id (Some x :: column)) with (x :: omap id column).
    rewrite filter_cons.
    destruct (decide (x = v)) as [->|Hne].
    + rewrite decide_True by reflexivity. cbn [length]. f_equal. exact IH.
    + rewrite decide_False by congruence. exact IH.
  - change (omap id (None :: column)) with (omap id column).
    rewrite decide_False by discriminate. exact IH.
Qed.

Lemma present_length (column : list cell) :
  length (omap id column) = length (filter (fun c => is_Some c) column).
Proof.
  induction column as [|c column IH]; [reflexivity|].
  rewrite filter_cons. destruct c as [x|].
  - change (omap id (Some x :: column)) with (x :: omap id column).
    rewrite decide_True by eauto. cbn [length]. f_equal. exact IH.
  - change (omap id (None :: column)) with (omap id column).
    rewrite decide_False by (intros [x Hx]; discriminate). exact IH.
Qed.

Lemma value_counts_spec (column : list cell) :
  NoDup (map fst (value_counts column))
  /\ (forall s n, (s, n) ∈ value_counts column
        <-> 0 < n /\ n = Z.of_nat (length (filter (fun c => c = Some s) column)))
  /\ sum_ints (map snd (value_counts column))
     = Z.of_nat (length (filter (fun c => is_Some c) column))
  /\ StronglySorted (fun x y => snd y <= snd x) (value_counts column).
Proof.
  unfold value_counts. cbv zeta.
  set (present := omap id column).
  pose (count := fun v : string => Z.of_nat (length (filter (fun x => x = v) present))).
  change (map (fun v : string =>
                 (v, Z.of_nat (length (filter (fun x : string => x = v) present))))
              (remove_dups present))
    with (map (fun v => (v, count v)) (remove_dups present)).
  set (items := map (fun v => (v, count v)) (remove_dups present)).
  destruct (sort_values_descending (fun kv : string * Z => inject_Z (snd kv)) items)
    as [Hperm Hsorted].
  assert (map fst items = remove_dups present) as Hfst.
  { unfold items. rewrite map_map. apply map_id. }
  assert (forall v, count v = Z.of_nat (length (filter (fun c => c = Some v) column))) as Hcount.
  { intros v. unfold count, present. rewrite present_count. reflexivity. }
  split; [|split; [|split]].
  - rewrite (Permutation_map fst Hperm), Hfst. apply NoDup_remove_dups.
  - intros s n. rewrite Hperm. unfold items. rewrite list_elem_of_fmap. split.
    + intros (v & [= -> ->] & Hv). rewrite elem_of_remove_dups in Hv.
      split; [|apply Hcount]. unfold count.
      destruct (filter (fun x => x = v) present) eqn:Hf; [|cbn [length]; lia].
      exfalso. assert (v ∈ filter (fun x => x = v) present) as Hin.
      { apply list_elem_of_filter. split; [reflexivity|exact Hv]. }
      rewrite Hf in Hin. inversion Hin.
    + intros [Hpos ->]. exists s. rewrite <- Hcount. split; [reflexivity|].
      apply elem_of_remove_dups. rewrite <- Hcount in Hpos. unfold count in Hpos.
      destruct (filter (fun x => x = s) present) as [|y rest] eqn:Hf; [cbn in Hpos; lia|].
      assert (y ∈ filter (fun x => x = s) present) as Hin by (rewrite Hf; left).
      apply list_elem_of_filter in Hin as [-> Hin]. exact Hin.
  - rewrite (sum_ints_perm _ _ (Permutation_map snd Hperm)). unfold items.
    rewrite map_map. cbn [snd]. unfold count.
    rewrite count_by_value.
    + unfold present. rewrite present_length. reflexivity.
    + apply NoDup_remove_dups.
    + intros x Hx. apply elem_of_remove_dups. exact Hx.
  - eapply StronglySorted_weaken; [|exact Hsorted].
    intros a b. cbn. rewrite <- Zle_Qle. auto.
Qed.
End ValueCountsFacts.

(** X10. [get_delivery_status_summary] counts the BOL sheet, not the
    combined view: each status that occurs is listed once, with the
    number of BOL records that carry it; a status that does not occur is
    not listed; records without a status are counted nowhere, so the
    counts add up to the number of records with a status; the entries come
    in the order of decreasing count. *)
Theorem delivery_status_summary_spec (w : World) (ld ld' : DataLoader.t)
    (b : list BolRecord)
    (Hbol : DataLoader.get_bol_data w ld = (ld', Ret b)) :
  exists items,
    Queries.get_delivery_status_summary w ld = (ld', Ret items)
    /\ NoDup (map fst items)
    /\ (forall s n, (s, n) ∈ items
          <-> 0 < n
              /\ n = Z.of_nat (length (filter (fun r => Delivery_Status r = Some s) b)))
    /\ sum_ints (map snd items)
       = Z.of_nat (length (filter (fun r => is_Some (Delivery_Status r)) b))
    /\ StronglySorted (fun x y => snd y <= snd x) items.
Proof.
  eexists. split.
  { unfold Queries.get_delivery_status_summary, bind. rewrite Hbol. reflexivity. }
  destruct (value_counts_spec (map Delivery_Status b)) as (Hnd & Hitems & Hsum & Hsorted).
  split; [exact Hnd|]. split; [|split].
  - intros s n. rewrite Hitems, length_filter_map. reflexivity.
  - rewrite Hsum, length_filter_map. reflexivity.
  - exact Hsorted.
Qed.

Lemma delivery_status_summary_spec_witness :
  let ld := Actions.data_loader Fixtures.ready in
  exists items,
    Queries.get_delivery_status_summary Fixtures.sheets_world ld = (ld, Ret items)
    /\ sum_ints (map snd items) = 2.
Proof.
  intros ld.
  destruct (delivery_status_summary_spec Fixtures.sheets_world ld ld
              [Fixtures.bol_B1; Fixtures.bol_B2] eq_refl)
    as (items & Hrun & _ & _ & Hsum & _).
  exists items. split; [exact Hrun|]. rewrite Hsum. reflexivity.
Defined.

Section SummaryFacts.
Import Report.
Variable w : World.

Lemma for_each_returns {S A B} (items : list A) (body : B -> A -> M S B) (s : S) :
  (forall acc x, exists acc', body acc x s = (s, Ret acc')) ->
  forall acc, exists out, for_each items acc body s = (s, Ret out).
Proof.
  intros Hbody. induction items as [|x items IH]; intros acc.
  - exists acc. reflexivity.
  - destruct (Hbody acc x) as [acc' Hacc]. destruct (IH acc') as [out Hout].
    exists out. cbn [for_each]. unfold bind. rewrite Hacc. exact Hout.
Qed.
End SummaryFacts.

(** A loop of the report returns once its body is known to return. *)
Ltac loop_returns :=
  match goal with
  | |- context [Report.for_each ?items ?a ?body ?s] =>
      let H := fresh "Hbody" in
      let out := fresh "out" in
      assert (forall acc x, exists acc', body acc x s = (s, Ret acc')) as H;
      [|destruct (for_each_returns items body s H a) as [out ->]]
  end.

(** X18. With at least one row in the combined view,
    [generate_daily_alert_summary] returns a report and leaves the loader
    as [get_combined_data] left it: the divisions by the number of rows
    are the only operations of the function that can fail. *)
Theorem daily_summary_of_nonempty_view (w : World) (ld ld' : DataLoader.t)
    (df : list JoinedRow)
    (Hview : DataLoader.get_combined_data w ld = (ld', Ret df))
    (Hrows : df <> []) :
  exists report, Report.generate_daily_alert_summary w ld = (ld', Ret report).
Proof.
  assert (0 < Z.of_nat (length df)) as Hpos.
  { destruct df; [contradiction|cbn [length]; lia]. }
  unfold Report.generate_daily_alert_summary, bind at 1. rewrite Hview.
  unfold bind at 1, eval at 1.
  destruct (percent_of_positive w ".1f"
              (Z.of_nat (length (filter (fun r => negb (Qle_bool (Query.risk r) (7 # 10))) df)))
              _ Hpos) as [t1 ->].
  unfold bind at 1, eval at 1.
  destruct (percent_of_positive w ".1f"
              (Z.of_nat (length (filter (fun r => 0 <? No_of_Hours_Delayed (of_bol r)) df)))
              _ Hpos) as [t2 ->].
  unfold bind at 1. loop_returns.
  { intros acc [k n]. destruct (percent_of_positive w ">5.1f" n _ Hpos) as [t Ht].
    eexists. unfold bind, eval, ret. rewrite Ht. reflexivity. }
  unfold bind at 1. loop_returns.
  { intros acc [k n]. destruct (percent_of_positive w ">5.1f" n _ Hpos) as [t Ht].
    eexists. unfold bind, eval, ret. rewrite Ht. reflexivity. }
  unfold bind at 1. loop_returns.
  { intros acc [k n]. eexists. reflexivity. }
  unfold bind at 1. loop_returns.
  { intros acc [k n]. eexists. reflexivity. }
  eexists. reflexivity.
Qed.

Lemma daily_summary_of_nonempty_view_witness :
  let ld := Actions.data_loader Fixtures.ready in
  exists report,
    Report.generate_daily_alert_summary Fixtures.sheets_world ld = (ld, Ret report).
Proof.
  intros ld.
  apply (daily_summary_of_nonempty_view Fixtures.sheets_world ld ld
           [mkJoined Fixtures.alert_B1 Fixtures.bol_B1;
            mkJoined Fixtures.alert_B2 Fixtures.bol_B2] eq_refl).
  discriminate.
Defined.

(* ===================================================================== *)
(** * What the actions change, and what they leave alone *)
(* ===================================================================== *)

Section TableFacts.

Lemma loc_assign_untouched bol set_ df :
  (forall r, untouched (set_ r) = untouched r) ->
  map untouched (loc_assign bol set_ df) = map untouched df.
Proof.
  intros Hset. unfold loc_assign. rewrite map_map. apply map_ext.
  intros r. destruct (decide _); [apply Hset|reflexivity].
Qed.

Lemma loc_assign_idem bol v df :
  loc_assign bol (set_Stop_Alert v) (loc_assign bol (set_Stop_Alert v) df)
  = loc_assign bol (set_Stop_Alert v) df.
Proof.
  unfold loc_assign. rewrite map_map. apply map_ext. intros r.
  destruct (decide (alert_BOL r = bol)) as [Hk|Hk].
  - cbn. rewrite decide_True by exact Hk. reflexivity.
  - rewrite decide_False by exact Hk. reflexivity.
Qed.

End TableFacts.

(** The branch of an action that leaves the loader alone. *)
Ltac kept :=
  split; [eassumption|]; split; [reflexivity|]; split; [reflexivity|assumption].

Section ActionMoreFacts.
Variable w : World.

(** Every action, as a function of the state. *)
Lemma action_run_loaded bol g run a :
  action_run w bol g run ->
  DataLoader.alert_df (Actions.data_loader g) = Some a ->
  (forall v, DataLoader.combined_df (Actions.data_loader g) = Some v ->
     exists g' d a',
       run = (g', Ret d)
       /\ DataLoader.alert_df (Actions.data_loader g') = Some a'
       /\ map untouched a' = map untouched a
       /\ DataLoader.bol_df (Actions.data_loader g') = DataLoader.bol_df (Actions.data_loader g)
       /\ DataLoader.combined_df (Actions.data_loader g') = Some v).
Proof.
  intros Hrun Ha v Hv.
  pose proof (get_alert_data_loaded w _ _ Ha) as Hget.
  pose proof (get_combined_data_loaded w _ _ Hv) as Hgetv.
  destruct Hrun as [reason|note|escalate].
  - unfold Actions.stop_alert. rewrite try_except_run, stop_alert_try_run, Hget.
    destruct (isin bol (map alert_BOL a)); do 3 eexists; (split; [reflexivity|]); cbn.
    + split; [reflexivity|]. split; [|auto]. apply loc_assign_untouched. reflexivity.
    + kept.
  - unfold Actions.add_note. rewrite try_except_run, add_note_try_run, Hget.
    destruct (isin bol (map alert_BOL a)).
    + destruct (Actions.note_present (loc_User_Notes bol a)) as [present|e];
        do 3 eexists; (split; [reflexivity|]); cbn.
      * split; [reflexivity|]. split; [|auto]. apply loc_assign_untouched. reflexivity.
      * kept.
    + do 3 eexists. split; [reflexivity|]. cbn. kept.
  - unfold Actions.send_email_alert. rewrite try_except_run, send_email_alert_try_run, Hgetv.
    destruct (isin bol (map BOL v)); do 3 eexists; (split; [reflexivity|]); cbn; kept.
Qed.
End ActionMoreFacts.

(** X12. No action writes the combined view or the BOL table: after
    [stop_alert], [add_note] or [send_email_alert] on loaded data,
    [get_combined_data] returns the same rows as before, so the queries,
    which read the view, do not see a stopped alert or a note. *)
Theorem actions_leave_view (w : World) (bol : string) (g : Actions.Globals)
    (run : Actions.Globals * outcome dict)
    (a : list AlertRecord) (v : list JoinedRow)
    (Hrun : action_run w bol g run)
    (Ha : DataLoader.alert_df (Actions.data_loader g) = Some a)
    (Hv : DataLoader.combined_df (Actions.data_loader g) = Some v) :
  exists g' d,
    run = (g', Ret d)
    /\ DataLoader.bol_df (Actions.data_loader g') = DataLoader.bol_df (Actions.data_loader g)
    /\ DataLoader.combined_df (Actions.data_loader g') = Some v
    /\ DataLoader.get_combined_data w (Actions.data_loader g')
       = (Actions.data_loader g', Ret v).
Proof.
  destruct (action_run_loaded w bol g run a Hrun Ha v Hv)
    as (g' & d & a' & Heq & _ & _ & Hb & Hc).
  exists g', d. repeat split; try assumption.
  apply get_combined_data_loaded, Hc.
Qed.

Lemma actions_leave_view_witness :
  exists g' d,
    Actions.stop_alert Fixtures.sheets_world "B1" "resolved" Fixtures.ready = (g', Ret d)
    /\ DataLoader.get_combined_data Fixtures.sheets_world (Actions.data_loader g')
       = (Actions.data_loader g',
          Ret [mkJoined Fixtures.alert_B1 Fixtures.bol_B1;
               mkJoined Fixtures.alert_B2 Fixtures.bol_B2]).
Proof.
  destruct (actions_leave_view Fixtures.sheets_world "B1" Fixtures.ready _ _ _
              (run_stop_alert _ _ _ "resolved") eq_refl eq_refl)
    as (g' & d & Heq & _ & _ & Hget).
  exists g', d. split; assumption.
Defined.

(** X13. On loaded data an action neither adds, removes nor reorders the
    rows of the alert table, and it changes no column other than
    [Stop_Alert] and [User_Notes]. *)
Theorem actions_keep_rows (w : World) (bol : string) (g : Actions.Globals)
    (run : Actions.Globals * outcome dict)
    (a : list AlertRecord) (v : list JoinedRow)
    (Hrun : action_run w bol g run)
    (Ha : DataLoader.alert_df (Actions.data_loader g) = Some a)
    (Hv : DataLoader.combined_df (Actions.data_loader g) = Some v) :
  exists g' d a',
    run = (g', Ret d)
    /\ DataLoader.alert_df (Actions.data_loader g') = Some a'
    /\ length a' = length a
    /\ map alert_BOL a' = map alert_BOL a
    /\ map untouched a' = map untouched a.
Proof.
  destruct (action_run_loaded w bol g run a Hrun Ha v Hv)
    as (g' & d & a' & Heq & Ha' & Hsame & _).
  exists g', d, a'. repeat split; try assumption.
  - rewrite <- (length_map untouched a'), Hsame. apply length_map.
  - assert (map alert_BOL (map untouched a') = map alert_BOL (map untouched a)) as H
      by (rewrite Hsame; reflexivity).
    rewrite !map_map in H. exact H.
Qed.

Lemma actions_keep_rows_witness :
  exists g' d a',
    Actions.add_note Fixtures.sheets_world "B2" "late" Fixtures.ready = (g', Ret d)
    /\ DataLoader.alert_df (Actions.data_loader g') = Some a'
    /\ map alert_BOL a' = ["B1"; "B2"].
Proof.
  destruct (actions_keep_rows Fixtures.sheets_world "B2" Fixtures.ready _ _ _
              (run_add_note _ _ _ "late") eq_refl eq_refl)
    as (g' & d & a' & Heq & Ha' & _ & Hkeys & _).
  exists g', d, a'. repeat split; assumption.
Defined.

(** X14. Stopping the same alert twice: both calls return success, the
    second leaves the tables as the first left them, and the log gains
    one entry per call, each with its own reason. *)
Theorem stop_alert_twice (w : World) (g : Actions.Globals) (bol r1 r2 : string)
    (a : list AlertRecord)
    (Ha : DataLoader.alert_df (Actions.data_loader g) = Some a)
    (Hbol : bol ∈ map alert_BOL a) :
  exists g1 d1 g2 d2 e1 e2,
    Actions.stop_alert w bol r1 g = (g1, Ret d1)
    /\ Actions.stop_alert w bol r2 g1 = (g2, Ret d2)
    /\ Actions.data_loader g2 = Actions.data_loader g1
    /\ Actions.action_log (Actions.self g2)
       = Actions.action_log (Actions.self g) ++ [e1; e2]
    /\ dict_get "reason" e1 = Some (VStr r1)
    /\ dict_get "reason" e2 = Some (VStr r2)
    /\ dict_get "success" d1 = Some (VBool true)
    /\ dict_get "success" d2 = Some (VBool true).
Proof.
  apply isin_true in Hbol.
  pose proof (get_alert_data_loaded w _ _ Ha) as Hget.
  do 6 eexists. split.
  { unfold Actions.stop_alert.
    rewrite try_except_run, stop_alert_try_run, Hget, Hbol. reflexivity. }
  split.
  { unfold Actions.stop_alert. rewrite try_except_run, stop_alert_try_run.
    cbn [Actions.data_loader].
    rewrite (get_alert_data_loaded w _ (loc_assign bol (set_Stop_Alert (Some "Yes")) a))
      by reflexivity.
    rewrite loc_assign_keys by reflexivity. rewrite Hbol. reflexivity. }
  cbn. rewrite loc_assign_idem, <- app_assoc.
  repeat split; reflexivity.
Qed.

Lemma stop_alert_twice_witness :
  exists g1 d1 g2 d2,
    Actions.stop_alert Fixtures.sheets_world "B1" "resolved" Fixtures.ready = (g1, Ret d1)
    /\ Actions.stop_alert Fixtures.sheets_world "B1" "again" g1 = (g2, Ret d2)
    /\ Actions.data_loader g2 = Actions.data_loader g1
    /\ length (Actions.action_log (Actions.self g2)) = 2%nat
    /\ dict_get "success" d1 = Some (VBool true)
    /\ dict_get "success" d2 = Some (VBool true).
Proof.
  destruct (stop_alert_twice Fixtures.sheets_world Fixtures.ready "B1" "resolved" "again"
              [Fixtures.alert_B1; Fixtures.alert_B2] eq_refl)
    as (g1 & d1 & g2 & d2 & e1 & e2 & H1 & H2 & Hld & Hlog & _ & _ & Hd1 & Hd2).
  - apply (bool_decide_unpack _). vm_compute. exact I.
  - exists g1, d1, g2, d2. repeat split; try assumption.
    rewrite Hlog. reflexivity.
Defined.

(** X15. When the key occurs on two or more rows of the alert table,
    [add_note] fails on the truth value of the array of existing notes: it
    returns the failure dictionary with the text of the [ValueError] and
    changes nothing, while [stop_alert] on the same key succeeds. *)
Theorem add_note_on_repeated_key (w : World) (g : Actions.Globals) (bol note : string)
    (a : list AlertRecord)
    (Ha : DataLoader.alert_df (Actions.data_loader g) = Some a)
    (Hrows : (2 <= length (filter (fun r => alert_BOL r = bol) a))%nat) :
  Actions.add_note w bol note g
  = (g, Ret (Actions.failure
               ("Error adding note: "
                +:+ "The truth value of an array with more than one element is ambiguous. "
                +:+ "Use a.any() or a.all()") bol))
  /\ exists g' d,
       Actions.stop_alert w bol note g = (g', Ret d)
       /\ dict_get "success" d = Some (VBool true).
Proof.
  pose proof (get_alert_data_loaded w _ _ Ha) as Hget.
  assert (isin bol (map alert_BOL a) = true) as Hin.
  { apply isin_true. destruct (filter (fun r => alert_BOL r = bol) a) as [|r rest] eqn:Hf;
      [cbn in Hrows; lia|].
    assert (r ∈ filter (fun r => alert_BOL r = bol) a) as Hr by (rewrite Hf; left).
    apply list_elem_of_filter in Hr as [<- Hr].
    apply list_elem_of_fmap. eauto. }
  split.
  - unfold Actions.add_note. rewrite try_except_run, add_note_try_run, Hget, Hin.
    assert (Actions.note_present (loc_User_Notes bol a)
            = Raise (mkExc ValueError
                "The truth value of an array with more than one element is ambiguous. Use a.any() or a.all()"))
      as ->.
    { unfold Actions.note_present, loc_User_Notes.
      destruct (filter (fun r => alert_BOL r = bol) a) as [|r1 [|r2 rest]];
        [cbn in Hrows; lia..|reflexivity]. }
    destruct g as [ld ex]. reflexivity.
  - unfold Actions.stop_alert. rewrite try_except_run, stop_alert_try_run, Hget, Hin.
    do 2 eexists. split; reflexivity.
Qed.

(** X16. As the function is written ([.iloc] is subscripted by column
    names), [send_email_alert] never reports success and never logs: in
    every state the result is a failure dictionary and the executor is
    unchanged; for a key of the loaded view the message is the text of the
    indexing error and the whole state is unchanged. *)
Theorem send_email_alert_never_succeeds (w : World) (g : Actions.Globals)
    (bol : string) (escalate : bool) :
  (exists g' msg,
     Actions.send_email_alert w bol escalate g = (g', Ret (Actions.failure msg bol))
     /\ Actions.self g' = Actions.self g)
  /\ (forall v, DataLoader.combined_df (Actions.data_loader g) = Some v ->
        bol ∈ map BOL v ->
        Actions.send_email_alert w bol escalate g
        = (g, Ret (Actions.failure
                     ("Error sending email: "
                      +:+ "Cannot index by location index with a non-integer key") bol))).
Proof.
  split.
  - unfold Actions.send_email_alert. rewrite try_except_run, send_email_alert_try_run.
    destruct (DataLoader.get_combined_data w (Actions.data_loader g)) as [ld' [df|e]].
    + destruct (isin bol (map BOL df)); do 2 eexists; split; reflexivity.
    + do 2 eexists; split; reflexivity.
  - intros v Hv Hbol. apply isin_true in Hbol.
    unfold Actions.send_email_alert. rewrite try_except_run, send_email_alert_try_run.
    rewrite (get_combined_data_loaded w _ _ Hv), Hbol. destruct g; reflexivity.
Qed.

(** The two ways an action leaves the log. *)
Ltac log_same :=
  eexists _, _, []; split; [reflexivity|]; split;
  [unfold Actions.get_action_log, gets; cbn; rewrite app_nil_r; reflexivity
  |left; reflexivity].
Ltac log_grown :=
  eexists _, _, [_]; split; [reflexivity|]; split;
  [reflexivity|right; eexists; repeat split].

(** X17. The action log only grows at its end: after any action,
    [get_action_log] returns the old log followed by at most one new
    entry, and a new entry carries the key, the success flag and the time
    of the action. *)
Theorem action_log_append_only (w : World) (bol : string) (g : Actions.Globals)
    (run : Actions.Globals * outcome dict)
    (Hrun : action_run w bol g run) :
  exists g' d added,
    run = (g', Ret d)
    /\ Actions.get_action_log g'
       = (g', Ret (Actions.action_log (Actions.self g) ++ added))
    /\ (added = []
        \/ exists entry,
             added = [entry]
             /\ dict_get "bol" entry = Some (VStr bol)
             /\ dict_get "success" entry = Some (VBool true)
             /\ dict_get "timestamp" entry = Some (VStr (now_isoformat w))).
Proof.
  destruct Hrun as [reason|note|escalate].
  - unfold Actions.stop_alert. rewrite try_except_run, stop_alert_try_run.
    destruct (DataLoader.get_alert_data w (Actions.data_loader g)) as [ld' [df|e]];
      [|log_same].
    destruct (isin bol (map alert_BOL df)); [log_grown|log_same].
  - unfold Actions.add_note. rewrite try_except_run, add_note_try_run.
    destruct (DataLoader.get_alert_data w (Actions.data_loader g)) as [ld' [df|e]];
      [|log_same].
    destruct (isin bol (map alert_BOL df)); [|log_same].
    destruct (Actions.note_present (loc_User_Notes bol df)) as [present|e];
      [log_grown|log_same].
  - unfold Actions.send_email_alert. rewrite try_except_run, send_email_alert_try_run.
    destruct (DataLoader.get_combined_data w (Actions.data_loader g)) as [ld' [df|e]];
      [|log_same].
    destruct (isin bol (map BOL df)); log_same.
Qed.

Lemma add_note_on_repeated_key_witness :
  let g := {| Actions.data_loader :=
                Fixtures.loaded [Fixtures.alert_B1; Fixtures.alert_B1] [Fixtures.bol_B1];
              Actions.self := Actions.init |} in
  exists msg, Actions.add_note Fixtures.sheets_world "B1" "late" g
              = (g, Ret (Actions.failure msg "B1")).
Proof.
  intros g. eexists.
  apply (add_note_on_repeated_key Fixtures.sheets_world g "B1" "late"
           [Fixtures.alert_B1; Fixtures.alert_B1] eq_refl).
  vm_compute. lia.
Defined.

Lemma send_email_alert_never_succeeds_witness :
  exists msg,
    Actions.send_email_alert Fixtures.sheets_world "B2" false Fixtures.ready
    = (Fixtures.ready, Ret (Actions.failure msg "B2")).
Proof.
  eexists.
  apply (proj2 (send_email_alert_never_succeeds Fixtures.sheets_world Fixtures.ready
                  "B2" false)
           [mkJoined Fixtures.alert_B1 Fixtures.bol_B1;
            mkJoined Fixtures.alert_B2 Fixtures.bol_B2]).
  - reflexivity.
  - apply (bool_decide_unpack _). vm_compute. exact I.
Defined.

Lemma action_log_append_only_witness :
  exists g' d added,
    Actions.stop_alert Fixtures.sheets_world "B1" "resolved" Fixtures.ready = (g', Ret d)
    /\ Actions.get_action_log g' = (g', Ret ([] ++ added)).
Proof.
  destruct (action_log_append_only Fixtures.sheets_world "B1" Fixtures.ready _
              (run_stop_alert _ _ _ "resolved")) as (g' & d & added & Hrun & Hlog & _).
  exists g', d, added. split; assumption.
Defined.

(* ===================================================================== *)
(** * The conversation memory over many calls *)
(* ===================================================================== *)

Section SubstringFacts.

Lemma prefix_spec (p s : string) :
  String.prefix p s = true <-> exists post, s = p +:+ post.
Proof.
  revert s. induction p as [|a p IH]; intros s.
  - split; [intros _; exists s; reflexivity|intros _; destruct s; reflexivity].
  - destruct s as [|b s]; [split; [discriminate|intros [post H]; discriminate]|].
    cbn. destruct (ascii_dec a b) as [->|Hne].
    + rewrite IH. split; intros [post H]; exists post; [rewrite H; reflexivity|].
      injection H as ->. reflexivity.
    + split; [discriminate|]. intros [post H]. injection H as -> _. contradiction.
Qed.

Lemma str_in_spec (needle hay : string) :
  str_in needle hay = true <-> exists pre post, hay = pre +:+ needle +:+ post.
Proof.
  induction hay as [|c hay IH]; cbn [str_in].
  - destruct (String.prefix needle "") eqn:Hp.
    + split; [|reflexivity]. intros _. apply prefix_spec in Hp as [post Hp].
      exists "", post. exact Hp.
    + split; [discriminate|]. intros (pre & post & H).
      destruct pre; [|discriminate]. cbn in H.
      assert (String.prefix needle "" = true) as Hp' by (apply prefix_spec; eauto).
      congruence.
  - destruct (String.prefix needle (String c hay)) eqn:Hp.
    + split; [|reflexivity]. intros _. apply prefix_spec in Hp as [post Hp].
      exists "", post. exact Hp.
    + rewrite IH. split.
      * intros (pre & post & ->). exists (String c pre), post. reflexivity.
      * intros (pre & post & H). destruct pre as [|d pre].
        -- cbn in H. assert (String.prefix needle (String c hay) = true) as Hp'
             by (apply prefix_spec; eauto). congruence.
        -- injection H as -> ->. eauto.
Qed.

Lemma str_in_empty (hay : string) : str_in "" hay = true.
Proof. destruct hay; reflexivity. Qed.

Lemma lower_ascii_idem (c : ascii) : lower_ascii (lower_ascii c) = lower_ascii c.
Proof.
  destruct c as [[] [] [] [] [] [] [] []]; reflexivity.
Qed.

Lemma lower_idem (s : string) : lower (lower s) = lower s.
Proof. induction s as [|c s IH]; cbn; [reflexivity|]. rewrite lower_ascii_idem, IH. reflexivity. Qed.

End SubstringFacts.

Section WindowFacts.
Context {A : Type}.
Implicit Types l : list A.

Lemma lastn_snoc_lastn (k : nat) l x :
  (1 <= k)%nat -> lastn k (lastn k l ++ [x]) = lastn k (l ++ [x]).
Proof.
  intros Hk. unfold lastn. rewrite !length_app, length_drop. cbn [length].
  destruct (Nat.le_gt_cases (length l) k) as [Hle|Hgt].
  - replace (length l - k)%nat with 0%nat by lia. cbn [drop].
    rewrite Nat.sub_0_r. reflexivity.
  - rewrite (drop_app_le (drop (length l - k) l)) by (rewrite length_drop; lia).
    rewrite drop_drop.
    rewrite (drop_app_le l) by lia. do 2 f_equal. lia.
Qed.
End WindowFacts.

(** X20. With a positive maximum and a log within it, any series of calls
    of [add_message] leaves exactly the last [max_messages] of the old
    messages followed by the new ones, in order of arrival; the maximum is
    never changed and the log never exceeds it. *)
Theorem add_messages_window (self : Memory.ConversationMemory) (calls : list Memory.Call)
    (Hmax : 0 < Memory.max_messages self)
    (Hlen : Z.of_nat (length (Memory.messages self)) <= Memory.max_messages self) :
  Memory.messages (Memory.add_messages calls self)
  = lastn (Z.to_nat (Memory.max_messages self))
      (Memory.messages self ++ map Memory.message_of calls)
  /\ Memory.max_messages (Memory.add_messages calls self) = Memory.max_messages self
  /\ Z.of_nat (length (Memory.messages (Memory.add_messages calls self)))
     <= Memory.max_messages self.
Proof.
  assert (Memory.messages (Memory.add_messages calls self)
          = lastn (Z.to_nat (Memory.max_messages self))
              (Memory.messages self ++ map Memory.message_of calls)
          /\ Memory.max_messages (Memory.add_messages calls self) = Memory.max_messages self)
    as [Hmsgs Hsame].
  { induction calls as [|c calls IH] using rev_ind.
    - cbn. rewrite app_nil_r. split; [|reflexivity]. symmetry. apply lastn_all. lia.
    - unfold Memory.add_messages in *. rewrite foldl_snoc.
      destruct IH as [IHm IHx]. split; [|rewrite add_message_max; exact IHx].
      rewrite add_message_messages by (rewrite IHx; exact Hmax).
      rewrite IHx, IHm, map_app, app_assoc. cbn [map].
      apply lastn_snoc_lastn. lia. }
  split; [exact Hmsgs|]. split; [exact Hsame|].
  rewrite Hmsgs, lastn_length. lia.
Qed.

Lemma add_messages_window_witness :
  Memory.messages
    (Memory.add_messages [Memory.mkCall "t1" "user" "a" None; Memory.mkCall "t2" "assistant" "b" None;
                   Memory.mkCall "t3" "user" "c" None] (Memory.init "t0" 2))
  = [Memory.make_message "t2" "assistant" "b" None; Memory.make_message "t3" "user" "c" None].
Proof.
  apply (add_messages_window (Memory.init "t0" 2)
           [Memory.mkCall "t1" "user" "a" None; Memory.mkCall "t2" "assistant" "b" None;
            Memory.mkCall "t3" "user" "c" None]); cbn; lia.
Defined.

(** X21. A negative count is not rejected: [get_recent_messages(n)] with
    [n < 0] returns the log without its first [-n] messages. *)
Theorem get_recent_messages_negative (self : Memory.ConversationMemory) (n : Z)
    (Hn : n < 0) :
  Memory.get_recent_messages n self = drop (Z.to_nat (- n)) (Memory.messages self).
Proof.
  unfold Memory.get_recent_messages, slice_from.
  destruct (Z.ltb_spec (- n) 0) as [?|_]; [lia|].
  destruct (Z.le_gt_cases (- n) (Z.of_nat (length (Memory.messages self)))) as [Hle|Hgt].
  - rewrite Z.min_l by lia. reflexivity.
  - rewrite Z.min_r by lia. rewrite Nat2Z.id.
    rewrite !drop_ge by lia. reflexivity.
Qed.

Lemma get_recent_messages_negative_witness :
  Memory.get_recent_messages (-1)
    (Memory.add_messages [Memory.mkCall "t1" "user" "a" None; Memory.mkCall "t2" "assistant" "b" None]
       (Memory.init "t0" 5))
  = [Memory.make_message "t2" "assistant" "b" None].
Proof.
  apply (get_recent_messages_negative
           (Memory.add_messages [Memory.mkCall "t1" "user" "a" None; Memory.mkCall "t2" "assistant" "b" None]
              (Memory.init "t0" 5)) (-1)).
  lia.
Defined.

(** X22. On ASCII text (the query and the contents of the log),
    [search_messages] returns, in the order of the log, exactly the
    messages whose content holds the query as a substring once both are
    put in lower case; ASCII queries that differ only in letter case give
    the same result, and the empty query returns the whole log. *)
Theorem search_messages_spec (self : Memory.ConversationMemory) (query : string)
    (Hquery : is_ascii query = true)
    (Hlog : Forall (fun msg => is_ascii (Memory.content msg) = true)
              (Memory.messages self)) :
  Memory.search_messages query self `sublist_of` Memory.messages self
  /\ (forall msg, msg ∈ Memory.search_messages query self
        <-> msg ∈ Memory.messages self
            /\ exists pre post,
                 lower (Memory.content msg) = pre +:+ lower query +:+ post)
  /\ (forall other, is_ascii other = true -> lower other = lower query ->
        Memory.search_messages other self = Memory.search_messages query self)
  /\ Memory.search_messages "" self = Memory.messages self.
Proof.
  clear Hquery Hlog.
  unfold Memory.search_messages. split; [apply sublist_filter|]. split; [|split].
  - intros msg. rewrite list_elem_of_filter, Is_true_true, str_in_spec. tauto.
  - intros other _ Hsame. rewrite Hsame. reflexivity.
  - induction (Memory.messages self) as [|m l IH]; [reflexivity|].
    rewrite filter_cons, decide_True.
    + f_equal. exact IH.
    + apply Is_true_true. cbn. apply str_in_empty.
Qed.

Lemma search_messages_spec_witness :
  let self := Memory.add_messages
                [Memory.mkCall "t1" "user" "Where is BOL 7?" None;
                 Memory.mkCall "t2" "assistant" "Delayed." None]
                (Memory.init "t0" 5) in
  Memory.search_messages "BOL" self = Memory.search_messages "bol" self.
Proof.
  intros self.
  destruct (search_messages_spec self "bol") as (_ & _ & Hcase & _).
  - reflexivity.
  - apply (bool_decide_unpack _). vm_compute. exact I.
  - apply Hcase; reflexivity.
Defined.

(* ===================================================================== *)
(** * Saving a report *)
(* ===================================================================== *)

Section SaveFacts.
Import Report.

Lemma path_join_reports (name : string) :
  path_join REPORT_OUTPUT_FOLDER name
  = if String.prefix "/" name then name else "./reports/" +:+ name.
Proof.
  unfold path_join. destruct (String.prefix "/" name); reflexivity.
Qed.

Lemma save_report_run open_write w content filename d :
  let name := match filename with
              | None => "OTIF_Report_" +:+ now_strftime w "%Y%m%d_%H%M%S" +:+ ".txt"
              | Some name => name
              end in
  let path := path_join REPORT_OUTPUT_FOLDER name in
  save_report_to_file open_write w content filename d
  = match open_write path with
    | Ret _ => ({| generator := {| report_count := report_count (generator d) + 1 |};
                   disk := <[path := content]> (disk d) |}, Ret path)
    | Raise e => (d, Raise e)
    end.
Proof.
  cbv zeta. unfold save_report_to_file, bind, eval, modify, ret.
  destruct (open_write _) as [[]|e]; reflexivity.
Qed.
End SaveFacts.

(** X19. [save_report_to_file] with a file name.  The path is the name
    itself if the name starts with "/" (the report then lands outside the
    reports folder) and "./reports/" followed by the name otherwise.
    When the file can be opened, the call returns that path, the path
    holds the report, every other file is as before, and the counter of
    the generator has grown by one.  When the file cannot be opened, the
    call raises the exception of [open], and nothing is written or
    counted.  Without a file name the path is
    "./reports/OTIF_Report_<time>.txt", the time in the format
    [%Y%m%d_%H%M%S], with the same two outcomes. *)
Theorem save_report_to_file_spec (open_write : string -> outcome unit) (w : World)
    (content name : string) (d : Report.Desk) :
  let path := if String.prefix "/" name then name else "./reports/" +:+ name in
  let stamped :=
    "./reports/OTIF_Report_" +:+ now_strftime w "%Y%m%d_%H%M%S" +:+ ".txt" in
  (open_write path = Ret tt ->
     exists d',
       Report.save_report_to_file open_write w content (Some name) d = (d', Ret path)
       /\ Report.disk d' !! path = Some content
       /\ (forall other, other <> path ->
             Report.disk d' !! other = Report.disk d !! other)
       /\ Report.report_count (Report.generator d')
          = Report.report_count (Report.generator d) + 1)
  /\ (forall e, open_write path = Raise e ->
        Report.save_report_to_file open_write w content (Some name) d = (d, Raise e))
  /\ (open_write stamped = Ret tt ->
        exists d',
          Report.save_report_to_file open_write w content None d = (d', Ret stamped)
          /\ Report.disk d' !! stamped = Some content
          /\ Report.report_count (Report.generator d')
             = Report.report_count (Report.generator d) + 1)
  /\ (forall e, open_write stamped = Raise e ->
        Report.save_report_to_file open_write w content None d = (d, Raise e)).
Proof.
  cbv zeta.
  assert (path_join Report.REPORT_OUTPUT_FOLDER
            ("OTIF_Report_" +:+ now_strftime w "%Y%m%d_%H%M%S" +:+ ".txt")
          = "./reports/OTIF_Report_" +:+ now_strftime w "%Y%m%d_%H%M%S" +:+ ".txt")
    as Hstamped by reflexivity.
  rewrite !save_report_run. cbv zeta. rewrite Hstamped, path_join_reports.
  split; [|split; [|split]].
  - intros ->. eexists. split; [reflexivity|]. cbn.
    split; [apply lookup_insert_eq|].
    split; [|reflexivity]. intros other Hne. apply lookup_insert_ne. congruence.
  - intros e ->. reflexivity.
  - intros ->. eexists. split; [reflexivity|]. cbn.
    split; [apply lookup_insert_eq|reflexivity].
  - intros e ->. reflexivity.
Qed.

Lemma save_report_to_file_spec_witness :
  exists d',
    Report.save_report_to_file (fun _ => Ret tt) Fixtures.sheets_world
      "report" (Some "/tmp/daily.txt") Fixtures.empty_desk
    = (d', Ret "/tmp/daily.txt")
    /\ Report.disk d' !! "/tmp/daily.txt" = Some "report"
    /\ Report.report_count (Report.generator d') = 1.
Proof.
  destruct (save_report_to_file_spec (fun _ => Ret tt) Fixtures.sheets_world
              "report" "/tmp/daily.txt" Fixtures.empty_desk) as [Hok _].
  destruct (Hok eq_refl) as (d' & Hrun & Hdisk & _ & Hcount).
  exists d'. repeat split; assumption.
Defined.

(* ===================================================================== *)
(** * The conversation loop of main.py *)
(* ===================================================================== *)

Section TurnFacts.
Import Main.
Variable w : World.

Lemma print_status_runs a :
  exists ld' o,
    print_status w a
    = ({| globals := {| Actions.data_loader := ld'; Actions.self := Actions.self (globals a) |};
          memory := memory a |}, o).
Proof.
  unfold print_status, bind, on_globals, Actions.on_loader, zoom.
  destruct (DataLoader.get_alert_data w (Actions.data_loader (globals a))) as [ld1 [x|e]].
  - cbv beta iota zeta. cbn [globals memory Actions.data_loader Actions.self].
    destruct (DataLoader.get_bol_data w ld1) as [ld2 [y|e]];
      do 2 eexists; reflexivity.
  - do 2 eexists. reflexivity.
Qed.

Lemma refresh_runs a :
  exists ld' o,
    on_globals (Actions.on_loader (DataLoader.refresh_data w)) a
    = ({| globals := {| Actions.data_loader := ld'; Actions.self := Actions.self (globals a) |};
          memory := memory a |}, o).
Proof.
  unfold on_globals, Actions.on_loader, zoom.
  destruct (DataLoader.refresh_data w (Actions.data_loader (globals a))) as [ld1 o].
  do 2 eexists. reflexivity.
Qed.
End TurnFacts.

(** A turn that goes on with the next one, on a line that is no exit
    word. *)
Ltac goes_on :=
  do 2 eexists; split; [reflexivity|]; split;
  [split; [discriminate|intros (? & [= <-] & ?); contradiction]|discriminate].

(** One turn never raises; it breaks exactly on an exit word, and then
    leaves every object as it was. *)
Lemma turn_result (w : World) (chat : Main.Chat)
    (line : outcome string) (a : Main.App) :
  exists a' c,
    Main.turn w chat line a = (a', Ret c)
    /\ (c = Main.Break <-> exists s, line = Ret s /\ lower s ∈ Main.exit_words)
    /\ (c = Main.Break -> a' = a).
Proof.
  unfold Main.turn. rewrite try_except_run. unfold Main.turn_try, bind at 1, eval.
  destruct line as [s|e].
  2:{ do 2 eexists. split; [reflexivity|]. split; [|discriminate].
      split; [discriminate|]. intros (s & Hs & _). discriminate. }
  destruct (decide (s = "")) as [->|Hne].
  { do 2 eexists. split; [reflexivity|]. split; [|discriminate].
    split; [discriminate|]. intros (s & [= <-] & Hin).
    apply (bool_decide_pack _) in Hin. vm_compute in Hin. destruct Hin. }
  destruct (bool_decide (lower s ∈ ["exit"; "quit"; "bye"])) eqn:Hexit.
  { apply bool_decide_eq_true in Hexit. do 2 eexists. split; [reflexivity|].
    split; [|reflexivity]. split; [eauto|reflexivity]. }
  apply bool_decide_eq_false in Hexit.
  destruct (decide (lower s = "help")); [goes_on|].
  destruct (decide (lower s = "status")).
  { destruct (print_status_runs w a) as (ld' & o & Hrun). unfold bind. rewrite Hrun.
    destruct o as [[]|err]; goes_on. }
  destruct (decide (lower s = "refresh")).
  { destruct (refresh_runs w a) as (ld' & o & Hrun). unfold bind. rewrite Hrun.
    destruct o as [[]|err]; goes_on. }
  destruct (decide (lower s = "memory")); [goes_on|].
  destruct (decide (lower s = "clear")); [goes_on|].
  unfold bind, Main.on_memory, modify.
  destruct (chat s _) as [a2 [[]|err]]; goes_on.
Qed.

(** X23. The loop ends exactly when a line that was read is "exit", "quit"
    or "bye" in any letter case: no failure of [input], of the data files
    or of the agents ends it.  What is typed after the first such line is
    never read. *)
Theorem run_ends_on_exit_word (w : World) (chat : Main.Chat)
    (lines : list (outcome string)) (a : Main.App) :
  (snd (Main.run w chat lines a) = Main.Break
   <-> exists s, Ret s ∈ lines /\ lower s ∈ Main.exit_words)
  /\ (forall pre s post, lines = pre ++ Ret s :: post -> lower s ∈ Main.exit_words ->
        Main.run w chat lines a = Main.run w chat (pre ++ [Ret s]) a).
Proof.
  split.
  - revert a. induction lines as [|line rest IH]; intros a.
    + cbn. split; [discriminate|]. intros (s & Hin & _). inversion Hin.
    + cbn [Main.run].
      destruct (turn_result w chat line a) as (a' & c & -> & Hbreak & _).
      destruct c.
      * cbn. split; [|reflexivity]. intros _.
        destruct (proj1 Hbreak eq_refl) as (s & -> & Hs). exists s. split; [left|exact Hs].
      * rewrite IH. split.
        -- intros (s & Hin & Hs). exists s. split; [right; exact Hin|exact Hs].
        -- intros (s & Hin & Hs). exists s. split; [|exact Hs].
           apply elem_of_cons in Hin as [Heq|Hin]; [|exact Hin].
           exfalso. assert (Main.Continue = Main.Break) as Hc; [|discriminate].
           apply Hbreak. eauto.
  - intros pre s post -> Hs. revert a. induction pre as [|line pre IH]; intros a.
    + cbn [app Main.run].
      destruct (turn_result w chat (Ret s) a) as (a' & c & -> & Hbreak & _).
      assert (c = Main.Break) as -> by (apply Hbreak; eauto). reflexivity.
    + cbn [app Main.run].
      destruct (turn_result w chat line a) as (a' & c & -> & _).
      destruct c; [reflexivity|apply IH].
Qed.

Section LocalFacts.
Variable w : World.

(** On a line the loop handles itself, the chat is never consulted. *)
Lemma local_turn_any_chat (chat chat2 : Main.Chat) (line : outcome string) (a : Main.App) :
  (forall s, line = Ret s -> s = "" \/ lower s ∈ Main.exit_words ++ Main.local_words) ->
  Main.turn w chat2 line a = Main.turn w chat line a.
Proof.
  intros Hlocal.
  unfold Main.turn, try_except, Main.turn_try, bind, eval.
  destruct line as [s|err]; [|reflexivity]. cbv beta iota.
  destruct (decide (s = "")); [reflexivity|].
  destruct (bool_decide (lower s ∈ ["exit"; "quit"; "bye"])) eqn:Hexit; [reflexivity|].
  apply bool_decide_eq_false in Hexit.
  destruct (decide (lower s = "help")) as [Hw|Hhelp]; [reflexivity|].
  destruct (decide (lower s = "status")) as [Hw|Hstatus]; [reflexivity|].
  destruct (decide (lower s = "refresh")) as [Hw|Hrefresh]; [reflexivity|].
  destruct (decide (lower s = "memory")) as [Hw|Hmemory]; [reflexivity|].
  destruct (decide (lower s = "clear")) as [Hw|Hclear]; [reflexivity|].
  exfalso. destruct (Hlocal s eq_refl) as [?|Hin]; [contradiction|].
  unfold Main.exit_words, Main.local_words in Hin. cbn [app] in Hin.
  apply Hexit. repeat (apply elem_of_cons in Hin as [Heq|Hin]; [try congruence|]).
  - rewrite Heq. left.
  - rewrite Heq. right. left.
  - rewrite Heq. right. right. left.
  - inversion Hin.
Qed.
End LocalFacts.

(** X24. An empty line, an exit word and the commands "help", "status",
    "refresh", "memory" and "clear" are handled by the loop itself: the
    outcome of the turn does not depend on the agents, the turn does not
    raise, the action log is as before, and the conversation memory is as
    before unless the command is "clear", which empties it.  A failure to
    read the line is handled the same way. *)
Theorem local_commands_stay_local (w : World) (chat : Main.Chat)
    (line : outcome string) (a : Main.App)
    (Hlocal : forall s, line = Ret s ->
                s = "" \/ lower s ∈ Main.exit_words ++ Main.local_words) :
  (forall chat2, Main.turn w chat2 line a = Main.turn w chat line a)
  /\ exists a' c,
       Main.turn w chat line a = (a', Ret c)
       /\ Actions.self (Main.globals a') = Actions.self (Main.globals a)
       /\ Main.memory a'
          = match line with
            | Ret s => if decide (lower s = "clear")
                       then Memory.clear (now_isoformat w) (Main.memory a)
                       else Main.memory a
            | Raise _ => Main.memory a
            end.
Proof.
  split; [intros chat2; apply local_turn_any_chat, Hlocal|].
  unfold Main.turn. rewrite try_except_run.
  unfold Main.turn_try, bind at 1, eval.
  destruct line as [s|err]; [|do 2 eexists; repeat split].
  destruct (decide (s = "")) as [->|Hne]; [do 2 eexists; repeat split|].
  destruct (bool_decide (lower s ∈ ["exit"; "quit"; "bye"])) eqn:Hexit.
  { apply bool_decide_eq_true in Hexit.
    do 2 eexists. split; [reflexivity|]. split; [reflexivity|].
    rewrite decide_False; [reflexivity|]. intros Hc. rewrite Hc in Hexit.
    apply (bool_decide_pack _) in Hexit. vm_compute in Hexit. destruct Hexit. }
  apply bool_decide_eq_false in Hexit.
  destruct (decide (lower s = "help")) as [Hw|?].
  { do 2 eexists. split; [reflexivity|]. split; [reflexivity|].
    rewrite decide_False; [reflexivity|]. rewrite Hw. discriminate. }
  destruct (decide (lower s = "status")) as [Hw|?].
  { destruct (print_status_runs w a) as (ld' & o & Hrun). unfold bind. rewrite Hrun.
    rewrite decide_False by (rewrite Hw; discriminate).
    destruct o as [[]|err]; do 2 eexists; repeat split. }
  destruct (decide (lower s = "refresh")) as [Hw|?].
  { destruct (refresh_runs w a) as (ld' & o & Hrun). unfold bind. rewrite Hrun.
    rewrite decide_False by (rewrite Hw; discriminate).
    destruct o as [[]|err]; do 2 eexists; repeat split. }
  destruct (decide (lower s = "memory")) as [Hw|?].
  { do 2 eexists. split; [reflexivity|]. split; [reflexivity|].
    rewrite decide_False; [reflexivity|]. rewrite Hw. discriminate. }
  destruct (decide (lower s = "clear")) as [Hw|Hclear]; [do 2 eexists; repeat split|].
  exfalso. destruct (Hlocal s eq_refl) as [?|Hin]; [contradiction|].
  unfold Main.exit_words, Main.local_words in Hin. cbn [app] in Hin.
  apply Hexit. repeat (apply elem_of_cons in Hin as [Heq|Hin]; [try congruence|]).
  - rewrite Heq. left.
  - rewrite Heq. right. left.
  - rewrite Heq. right. right. left.
  - inversion Hin.
Qed.

(** X25. Any other line is first stored in the conversation memory as a
    "user" message and then handed to the agents, which see the memory
    with the message in it; the turn ends in the state the agents left,
    whether their chat returned or raised, and the loop goes on. *)
Theorem ordinary_input_is_recorded_then_routed (w : World) (chat : Main.Chat)
    (s : string) (a : Main.App)
    (Hne : s <> "")
    (Hword : lower s ∉ Main.exit_words ++ Main.local_words) :
  let recorded :=
    {| Main.globals := Main.globals a;
       Main.memory :=
         Memory.add_message (now_isoformat w) "user" s None (Main.memory a) |} in
  Main.turn w chat (Ret s) a = (fst (chat s recorded), Ret Main.Continue).
Proof.
  cbv zeta. unfold Main.turn. rewrite try_except_run.
  unfold Main.turn_try, bind at 1, eval.
  rewrite decide_False by exact Hne.
  assert (forall word, word ∈ Main.exit_words ++ Main.local_words -> lower s <> word) as Hnot.
  { intros word Hin Heq. apply Hword. rewrite Heq. exact Hin. }
  rewrite bool_decide_eq_false_2.
  2:{ intros Hin. apply Hword. apply elem_of_app. left. exact Hin. }
  rewrite !decide_False by (apply Hnot; apply (bool_decide_unpack _); vm_compute; exact I).
  unfold bind, Main.on_memory, modify.
  destruct (chat s _) as [a2 [[]|err]]; reflexivity.
Qed.

Lemma local_commands_stay_local_witness :
  (forall chat2,
      Main.turn Fixtures.sheets_world chat2 (Ret "Refresh") Fixtures.desk_app
      = Main.turn Fixtures.sheets_world Fixtures.chat_down (Ret "Refresh") Fixtures.desk_app)
  /\ exists a' c,
       Main.turn Fixtures.sheets_world Fixtures.chat_down (Ret "Refresh") Fixtures.desk_app = (a', Ret c)
       /\ Actions.self (Main.globals a') = Actions.self (Main.globals Fixtures.desk_app)
       /\ Main.memory a' = Main.memory Fixtures.desk_app.
Proof.
  apply (local_commands_stay_local Fixtures.sheets_world Fixtures.chat_down (Ret "Refresh") Fixtures.desk_app).
  intros s [= <-]. right. apply (bool_decide_unpack _). vm_compute. exact I.
Defined.

Lemma ordinary_input_is_recorded_then_routed_witness :
  "show alerts" <> ""
  /\ Main.turn Fixtures.sheets_world Fixtures.chat_down (Ret "show alerts") Fixtures.desk_app
     = (fst (Fixtures.chat_down "show alerts"
               {| Main.globals := Main.globals Fixtures.desk_app;
                  Main.memory :=
                    Memory.add_message (now_isoformat Fixtures.sheets_world) "user"
                      "show alerts" None (Main.memory Fixtures.desk_app) |}),
        Ret Main.Continue).
Proof.
  split; [discriminate|].
  apply (ordinary_input_is_recorded_then_routed Fixtures.sheets_world Fixtures.chat_down
           "show alerts" Fixtures.desk_app).
  - discriminate.
  - apply (bool_decide_unpack _). vm_compute. exact I.
Defined.

(* ===================================================================== *)
(** * Notes when the rephrasing fails *)
(* ===================================================================== *)

(** X26. A failed rephrasing never stops a note.  When the [try] block of
    [rephrase_note_with_llm] raises (a failed request, or the
    [AttributeError] of [response.choices.message]), [add_note] on a key
    with one row whose note is still empty returns success: the text
    written to the row, returned as [rephrased_note] and logged, is the
    note as typed, and the log gains one entry, which holds the note as
    typed under [original_note] too. *)
Theorem add_note_rephrasing_fallback (w : World) (g : Actions.Globals)
    (bol note : string) (df : list AlertRecord) (c : cell) (err : exc)
    (Htable : DataLoader.alert_df (Actions.data_loader g) = Some df)
    (Hone : loc_User_Notes bol df = [c])
    (Hempty : c = None \/ c = Some "")
    (Hdown : chat_rephrase w note = Raise err) :
  exists g' result df' entry,
    Actions.add_note w bol note g = (g', Ret result)
    /\ dict_get "success" result = Some (VBool true)
    /\ dict_get "rephrased_note" result = Some (VStr note)
    /\ DataLoader.alert_df (Actions.data_loader g') = Some df'
    /\ loc_User_Notes bol df' = [Some note]
    /\ Actions.action_log (Actions.self g')
       = Actions.action_log (Actions.self g) ++ [entry]
    /\ dict_get "original_note" entry = Some (VStr note)
    /\ dict_get "rephrased_note" entry = Some (VStr note).
Proof.
  pose proof (get_alert_data_loaded w _ _ Htable) as Hget.
  assert (isin bol (map alert_BOL df) = true) as Hin.
  { apply isin_true, loc_User_Notes_key. rewrite Hone. discriminate. }
  assert (Actions.note_present [c] = Ret false) as Hpresent.
  { destruct Hempty as [-> | ->]; reflexivity. }
  unfold Actions.add_note. rewrite try_except_run, add_note_try_run, Hget, Hin.
  rewrite Hone, Hpresent.
  do 4 eexists. split; [reflexivity|]. cbn.
  rewrite loc_User_Notes_assign, Hone.
  unfold Actions.rephrase_note_with_llm, catch. rewrite Hdown.
  repeat split; reflexivity.
Qed.

Lemma add_note_rephrasing_fallback_witness :
  exists g' result df' entry,
    Actions.add_note Fixtures.sheets_world "B2" "late truck" Fixtures.ready = (g', Ret result)
    /\ dict_get "success" result = Some (VBool true)
    /\ dict_get "rephrased_note" result = Some (VStr "late truck")
    /\ DataLoader.alert_df (Actions.data_loader g') = Some df'
    /\ loc_User_Notes "B2" df' = [Some "late truck"]
    /\ Actions.action_log (Actions.self g')
       = Actions.action_log (Actions.self Fixtures.ready) ++ [entry]
    /\ dict_get "original_note" entry = Some (VStr "late truck")
    /\ dict_get "rephrased_note" entry = Some (VStr "late truck").
Proof.
  apply (add_note_rephrasing_fallback Fixtures.sheets_world Fixtures.ready "B2" "late truck"
           [Fixtures.alert_B1; Fixtures.alert_B2] (User_Notes Fixtures.alert_B2)
           (mkExc AttributeError "'list' object has no attribute 'message'")).
  - reflexivity.
  - reflexivity.
  - vm_compute. auto.
  - reflexivity.
Defined.
